(** * DOM-mounting helpers of solid-js/web: hydrateDocument, Portal,
      createDynamic and Dynamic

    A shallow embedding of [packages/solid/web/src/index.ts].  JavaScript
    values, the document and the state of the reactive runtime are explicit;
    every function of the module is a computation over that state which
    either returns or throws. *)

From stdpp Require Import base gmap strings list pretty.

Open Scope string_scope.
Set Warnings "-register-all".

(** ** JavaScript values *)

(** Numbers are IEEE doubles.  The module only tests them for truthiness,
    coerces them to strings and compares them with [===], so the development
    is parametric in their representation. *)
Class Numbers := {
  number : Type;
  Number_truthy : number → bool;
  Number_toString : number → string;
  Number_strict_equal : number → number → bool
}.

Section Values.
Context {Num : Numbers}.

(** [VObj] is an object (or an array) given by its own enumerable
    string-keyed properties, in the order [Object.keys] reports them, each
    key once; [VFun] and [VNode] are references to a function and to a DOM
    node. *)
Inductive value : Type :=
| VUndefined
| VNull
| VBool (b : bool)
| VNum (n : number)
| VStr (s : string)
| VObj (properties : list (string * value))
| VFun (ref : nat)
| VNode (ref : nat).

Definition typeof (v : value) : string :=
  match v with
  | VUndefined => "undefined"
  | VNull => "object"
  | VBool _ => "boolean"
  | VNum _ => "number"
  | VStr _ => "string"
  | VObj _ => "object"
  | VFun _ => "function"
  | VNode _ => "object"
  end.

(** ToBoolean. *)
Definition truthy (v : value) : bool :=
  match v with
  | VUndefined | VNull => false
  | VBool b => b
  | VNum n => Number_truthy n
  | VStr s => negb (s =? "")
  | VObj _ | VFun _ | VNode _ => true
  end.

(** [v != null]. *)
Definition not_nullish (v : value) : bool :=
  match v with
  | VUndefined | VNull => false
  | _ => true
  end.

(** [a === b].  Objects carry no identity in [VObj], so two object values
    are never taken to be the same object. *)
Definition strict_equal (a b : value) : bool :=
  match a, b with
  | VUndefined, VUndefined => true
  | VNull, VNull => true
  | VBool x, VBool y => Bool.eqb x y
  | VNum x, VNum y => Number_strict_equal x y
  | VStr x, VStr y => x =? y
  | VFun x, VFun y => Nat.eqb x y
  | VNode x, VNode y => Nat.eqb x y
  | _, _ => false
  end.

Fixpoint lookup_property (o : list (string * value)) (key : string) : option value :=
  match o with
  | [] => None
  | (k, v) :: rest => if k =? key then Some v else lookup_property rest key
  end.

(** The characters of a string primitive are its indexed properties. *)
Definition string_keys (s : string) : list string :=
  map (λ i : nat, pretty i) (seq 0 (String.length s)).

Definition string_index (s key : string) : option nat :=
  find (λ i : nat, pretty i =? key) (seq 0 (String.length s)).

(** [o[key]] and [o.key] on own properties (the prototype chain is not
    modelled).  The module reads properties of truthy values only, where the
    read cannot throw. *)
Definition get (o : value) (key : string) : value :=
  match o with
  | VObj ps => default VUndefined (lookup_property ps key)
  | VStr s =>
      match string_index s key with
      | Some i => VStr (String.substring i 1 s)
      | None => VUndefined
      end
  | _ => VUndefined
  end.

(** [key in o], evaluated by the module on truthy values of type "object",
    and only to go on with [o[key] === "html"], which no node satisfies. *)
Definition has_property (key : string) (o : value) : bool :=
  match o with
  | VObj ps => bool_decide (is_Some (lookup_property ps key))
  | _ => false
  end.

Definition Object_keys (o : value) : list string :=
  match o with
  | VObj ps => map fst ps
  | VStr s => string_keys s
  | _ => []
  end.

End Values.

(** Reactive state: the current values of the signals.  A component's props
    are getters reading that state, by key. *)
Abbreviation signals := (gmap nat value).
Abbreviation getter := (gmap nat value → value).
Abbreviation props := (list (string * (gmap nat value → value))).

(** ** The document *)

Definition HTML_NAMESPACE : string := "http://www.w3.org/1999/xhtml".
Definition SVG_NAMESPACE : string := "http://www.w3.org/2000/svg".

(** ASCII lowercasing, applied by an HTML document to the attribute and
    element names it is given. *)
Definition ascii_lower (c : Ascii.ascii) : Ascii.ascii :=
  let n := Ascii.nat_of_ascii c in
  if (65 <=? n)%nat && (n <=? 90)%nat then Ascii.ascii_of_nat (n + 32) else c.

Fixpoint to_lower (s : string) : string :=
  match s with
  | EmptyString => EmptyString
  | String c rest => String (ascii_lower c) (to_lower rest)
  end.

Inductive node_kind : Type :=
| Element (namespaceURI localName : string)
| Text (data : string)
| ShadowRoot (host : nat).

Section Document.
Context {Num : Numbers}.

(** A node of the document.  [host_marker] is the marker whose parent the
    [_$host] accessor of a portal container reports. *)
Record node : Type := Node {
  kind : node_kind;
  attributes : gmap string string;
  is_value : value;
  parentNode : option nat;
  childNodes : list nat;
  shadowRoot : option nat;
  host_marker : option nat
}.

Definition new_node (k : node_kind) (is_option : value) : node :=
  {| kind := k; attributes := ∅; is_value := is_option; parentNode := None;
     childNodes := []; shadowRoot := None; host_marker := None |}.

Definition with_attributes (f : gmap string string → gmap string string) (n : node) : node :=
  {| kind := kind n; attributes := f (attributes n); is_value := is_value n;
     parentNode := parentNode n; childNodes := childNodes n;
     shadowRoot := shadowRoot n; host_marker := host_marker n |}.

Definition with_parentNode (p : option nat) (n : node) : node :=
  {| kind := kind n; attributes := attributes n; is_value := is_value n;
     parentNode := p; childNodes := childNodes n;
     shadowRoot := shadowRoot n; host_marker := host_marker n |}.

Definition with_childNodes (f : list nat → list nat) (n : node) : node :=
  {| kind := kind n; attributes := attributes n; is_value := is_value n;
     parentNode := parentNode n; childNodes := f (childNodes n);
     shadowRoot := shadowRoot n; host_marker := host_marker n |}.

Definition with_shadowRoot (r : option nat) (n : node) : node :=
  {| kind := kind n; attributes := attributes n; is_value := is_value n;
     parentNode := parentNode n; childNodes := childNodes n;
     shadowRoot := r; host_marker := host_marker n |}.

Definition with_host_marker (m : option nat) (n : node) : node :=
  {| kind := kind n; attributes := attributes n; is_value := is_value n;
     parentNode := parentNode n; childNodes := childNodes n;
     shadowRoot := shadowRoot n; host_marker := m |}.

(** [el instanceof HTMLHeadElement]. *)
Definition is_HTMLHeadElement (n : node) : bool :=
  match kind n with
  | Element ns name => (ns =? HTML_NAMESPACE) && (name =? "head")
  | _ => false
  end.

(** A node that may have children. *)
Definition is_ParentNode (n : node) : bool :=
  match kind n with
  | Element _ _ | ShadowRoot _ => true
  | Text _ => false
  end.

(** ** The reactive runtime *)

Fixpoint find_getter (p : props) (key : string) : option getter :=
  match p with
  | [] => None
  | (k, g) :: rest => if k =? key then Some g else find_getter rest key
  end.

(** [props.key] under the reactive state [s]. *)
Definition read (p : props) (key : string) (s : signals) : value :=
  match find_getter p key with
  | Some g => g s
  | None => VUndefined
  end.

(** The closures the module hands to the runtime, by what they capture. *)
Inductive thunk : Type :=
| ContentMemo (memo : nat)
| HeadChildren (clean content dispose : nat)
| SetClean (clean : nat)
| RemoveContainer (el container : value).

(** The functions the module hands to [createMemo] in [createDynamic], by
    what they capture: the selector, and the function of the memo
    [createDynamic] returns, which reads the memo [cached] of the selector. *)
Inductive computation : Type :=
| Selector (component : getter)
| Output (cached : nat) (p : props).

(** The registrations the module makes with the runtime.  [insert] and
    [spread] of [./client.js] and [onCleanup], [createEffect], [createMemo]
    and [createRoot] of solid-js are not part of the sources: a call is
    recorded with its arguments, and what the runtime then renders into the
    parent of an [Insert], or sets on the element of a [Spread], is not
    modelled.  The nodes of a world are therefore as the DOM calls of the
    module itself leave them. *)
Inductive runtime_call : Type :=
| CreateEffect (marker : nat) (render : bool)
| CreateMemo (memo : nat) (owner : option nat)
| CreateRoot (root : nat)
| Insert (parent : value) (accessor : thunk) (marker : value) (root : option nat)
| OnCleanup (cleanup : thunk)
| Spread (el : value) (p : props) (isSvg : bool).

(** The state the module runs in: [document.documentElement] and
    [document.body]; the nodes of the document by reference, and the next
    unused reference; the reactive state; whether hydration is enabled;
    [sharedConfig.context]; whether a listener is tracking; the current owner
    and the [user] flags set on owners; the roots disposed; the functions
    marked as components of a development build; the registrations made
    with the runtime, in order; and the functions of the memos of
    [createDynamic], which the runtime keeps to run them again. *)
Record world : Type := World {
  documentElement : value;
  body : value;
  dom : gmap nat node;
  next_ref : nat;
  sigs : signals;
  hydrationEnabled : bool;
  context : value;
  listener : bool;
  owner : option nat;
  owner_user : gmap nat bool;
  disposed : gset nat;
  devcomp : gset nat;
  calls : list runtime_call;
  memos : gmap nat computation
}.

Inductive exn : Type :=
| TypeError
| InvalidCharacterError
| NotSupportedError
| HierarchyRequestError
| NotFoundError
| Raised (v : value).

Inductive outcome (A : Type) : Type :=
| Returned (a : A) (w : world)
| Thrown (e : exn) (w : world).
Global Arguments Returned {A} a w.
Global Arguments Thrown {A} e w.

(** A computation of the module: it runs from a state of the world and
    returns a result or throws, leaving the world it reached. *)
Definition M (A : Type) : Type := world → outcome A.

Global Instance M_ret : MRet M := λ A a w, Returned a w.
Global Instance M_bind : MBind M := λ A B f m w,
  match m w with
  | Returned a w' => f a w'
  | Thrown e w' => Thrown e w'
  end.

Definition throw {A} (e : exn) : M A := λ w, Thrown e w.
Definition gets {A} (f : world → A) : M A := λ w, Returned (f w) w.
Definition modify (f : world → world) : M unit := λ w, Returned tt (f w).

Definition final_world {A} (o : outcome A) : world :=
  match o with
  | Returned _ w => w
  | Thrown _ w => w
  end.

Definition with_dom (f : gmap nat node → gmap nat node) (w : world) : world :=
  {| documentElement := documentElement w; body := body w;
     dom := f (dom w); next_ref := next_ref w; sigs := sigs w;
     hydrationEnabled := hydrationEnabled w; context := context w;
     listener := listener w; owner := owner w; owner_user := owner_user w;
     disposed := disposed w; devcomp := devcomp w; calls := calls w;
     memos := memos w |}.

Definition with_next_ref (n : nat) (w : world) : world :=
  {| documentElement := documentElement w; body := body w;
     dom := dom w; next_ref := n; sigs := sigs w;
     hydrationEnabled := hydrationEnabled w; context := context w;
     listener := listener w; owner := owner w; owner_user := owner_user w;
     disposed := disposed w; devcomp := devcomp w; calls := calls w;
     memos := memos w |}.

Definition with_sigs (f : signals → signals) (w : world) : world :=
  {| documentElement := documentElement w; body := body w;
     dom := dom w; next_ref := next_ref w; sigs := f (sigs w);
     hydrationEnabled := hydrationEnabled w; context := context w;
     listener := listener w; owner := owner w; owner_user := owner_user w;
     disposed := disposed w; devcomp := devcomp w; calls := calls w;
     memos := memos w |}.

Definition with_hydrationEnabled (b : bool) (w : world) : world :=
  {| documentElement := documentElement w; body := body w;
     dom := dom w; next_ref := next_ref w; sigs := sigs w;
     hydrationEnabled := b; context := context w;
     listener := listener w; owner := owner w; owner_user := owner_user w;
     disposed := disposed w; devcomp := devcomp w; calls := calls w;
     memos := memos w |}.

Definition with_listener (b : bool) (w : world) : world :=
  {| documentElement := documentElement w; body := body w;
     dom := dom w; next_ref := next_ref w; sigs := sigs w;
     hydrationEnabled := hydrationEnabled w; context := context w;
     listener := b; owner := owner w; owner_user := owner_user w;
     disposed := disposed w; devcomp := devcomp w; calls := calls w;
     memos := memos w |}.

Definition with_owner (o : option nat) (w : world) : world :=
  {| documentElement := documentElement w; body := body w;
     dom := dom w; next_ref := next_ref w; sigs := sigs w;
     hydrationEnabled := hydrationEnabled w; context := context w;
     listener := listener w; owner := o; owner_user := owner_user w;
     disposed := disposed w; devcomp := devcomp w; calls := calls w;
     memos := memos w |}.

Definition with_owner_user (f : gmap nat bool → gmap nat bool) (w : world) : world :=
  {| documentElement := documentElement w; body := body w;
     dom := dom w; next_ref := next_ref w; sigs := sigs w;
     hydrationEnabled := hydrationEnabled w; context := context w;
     listener := listener w; owner := owner w; owner_user := f (owner_user w);
     disposed := disposed w; devcomp := devcomp w; calls := calls w;
     memos := memos w |}.

Definition with_disposed (f : gset nat → gset nat) (w : world) : world :=
  {| documentElement := documentElement w; body := body w;
     dom := dom w; next_ref := next_ref w; sigs := sigs w;
     hydrationEnabled := hydrationEnabled w; context := context w;
     listener := listener w; owner := owner w; owner_user := owner_user w;
     disposed := f (disposed w); devcomp := devcomp w; calls := calls w;
     memos := memos w |}.

Definition with_devcomp (f : gset nat → gset nat) (w : world) : world :=
  {| documentElement := documentElement w; body := body w;
     dom := dom w; next_ref := next_ref w; sigs := sigs w;
     hydrationEnabled := hydrationEnabled w; context := context w;
     listener := listener w; owner := owner w; owner_user := owner_user w;
     disposed := disposed w; devcomp := f (devcomp w); calls := calls w;
     memos := memos w |}.

Definition with_call (c : runtime_call) (w : world) : world :=
  {| documentElement := documentElement w; body := body w;
     dom := dom w; next_ref := next_ref w; sigs := sigs w;
     hydrationEnabled := hydrationEnabled w; context := context w;
     listener := listener w; owner := owner w; owner_user := owner_user w;
     disposed := disposed w; devcomp := devcomp w; calls := calls w ++ [c];
     memos := memos w |}.

Definition with_memos (f : gmap nat computation → gmap nat computation) (w : world) : world :=
  {| documentElement := documentElement w; body := body w;
     dom := dom w; next_ref := next_ref w; sigs := sigs w;
     hydrationEnabled := hydrationEnabled w; context := context w;
     listener := listener w; owner := owner w; owner_user := owner_user w;
     disposed := disposed w; devcomp := devcomp w; calls := calls w;
     memos := f (memos w) |}.

End Document.

(** ** The host: what the module imports and what the platform decides *)

Inductive argument `{Numbers} : Type :=
| ArgValue (v : value)
| ArgProps (p : props).

(** The functions of [./client.js] and of the platform that the module calls
    and that are not part of it, and the build-time constants it reads. *)
Class Host `{Numbers} := {
  (** ToString of an object, a function or a node. *)
  Object_toString : value → string;
  (** The names [setAttribute] and [createElement] accept; the others make
      them throw an InvalidCharacterError. *)
  valid_attribute_name : string → bool;
  valid_element_name : string → bool;
  valid_div : valid_element_name "div" = true;
  valid_g : valid_element_name "g" = true;
  (** Whether elements have an [attachShadow] method. *)
  attachShadow_available : bool;
  (** The set [SVGElements] of [./client.js]. *)
  SVGElements : gset string;
  (** [isDev], replaced at build time. *)
  isDev : bool;
  (** Calling a function value. *)
  call : nat → list argument → M value;
  (** [hydrate] of [./client.js]: the producer, the mount target, the options. *)
  hydrateCore : M value → value → value → M value;
  (** [getNextElement] of [./client.js]. *)
  getNextElement : M value
}.

Section Platform.
Context `{H : Host}.

(** ** Coercion *)

(** [String(v)]. *)
Definition ToString (v : value) : string :=
  match v with
  | VUndefined => "undefined"
  | VNull => "null"
  | VBool true => "true"
  | VBool false => "false"
  | VNum n => Number_toString n
  | VStr s => s
  | VObj _ | VFun _ | VNode _ => Object_toString v
  end.

(** ** DOM operations *)

(** The node a value refers to; using anything else as a node is a
    TypeError. *)
Definition node_of (v : value) : M (nat * node) := λ w,
  match v with
  | VNode r =>
      match dom w !! r with
      | Some n => Returned (r, n) w
      | None => Thrown TypeError w
      end
  | _ => Thrown TypeError w
  end.

Definition update_node (r : nat) (f : node → node) : M unit :=
  modify (with_dom (λ d, match d !! r with Some n => <[r := f n]> d | None => d end)).

(** Attribute names of an HTML element are lowercased. *)
Definition attribute_name (n : node) (name : string) : string :=
  match kind n with
  | Element ns _ => if ns =? HTML_NAMESPACE then to_lower name else name
  | _ => name
  end.

(** [el.className = v]: the class attribute is set to the string of [v]. *)
Definition set_className (el v : value) : M unit :=
  '(r, _) ← node_of el;
  update_node r (with_attributes (insert "class" (ToString v))).

(** [el.setAttribute(name, s)]. *)
Definition setAttribute (el : value) (name s : string) : M unit :=
  '(r, n) ← node_of el;
  if valid_attribute_name name
  then update_node r (with_attributes (insert (attribute_name n name) s))
  else throw InvalidCharacterError.

(** [el.removeAttribute(name)]. *)
Definition removeAttribute (el : value) (name : string) : M unit :=
  '(r, n) ← node_of el;
  update_node r (with_attributes (delete (attribute_name n name))).

(** [el.getAttribute(name)] in the world [w]. *)
Definition getAttribute (w : world) (el : value) (name : string) : option string :=
  match el with
  | VNode r => n ← dom w !! r; attributes n !! attribute_name n name
  | _ => None
  end.

Definition allocate (n : node) : M nat := λ w,
  let r := next_ref w in
  Returned r (with_next_ref (S r) (with_dom (insert r n) w)).

(** [document.createTextNode(data)]. *)
Definition document_createTextNode (data : string) : M nat :=
  allocate (new_node (Text data) VUndefined).

(** [document.createElement(tagName, { is })]. *)
Definition document_createElement (tagName : string) (is_option : value) : M value :=
  if valid_element_name tagName
  then r ← allocate (new_node (Element HTML_NAMESPACE (to_lower tagName)) is_option);
       mret (VNode r)
  else throw InvalidCharacterError.

(** [document.createElementNS(namespace, tagName)], for the names the module
    passes: "g" and the names of [SVGElements], which have no prefix, so that
    the call refuses a name only as [document.createElement] does and never
    with a NamespaceError. *)
Definition document_createElementNS (namespace tagName : string) : M value :=
  if valid_element_name tagName
  then r ← allocate (new_node (Element namespace tagName) VUndefined);
       mret (VNode r)
  else throw InvalidCharacterError.

(** The elements that may host a shadow tree, custom elements apart (DOM
    standard, "attach a shadow root": an element of another namespace than
    HTML's, one of another name, or one that hosts a shadow tree already is
    refused with a NotSupportedError). *)
Definition shadow_host_names : list string :=
  ["article"; "aside"; "blockquote"; "body"; "div"; "footer"; "h1"; "h2";
   "h3"; "h4"; "h5"; "h6"; "header"; "main"; "nav"; "p"; "section"; "span"].

Definition can_attachShadow (n : node) : bool :=
  match kind n, shadowRoot n with
  | Element ns name, None =>
      (ns =? HTML_NAMESPACE) && existsb (String.eqb name) shadow_host_names
  | _, _ => false
  end.

(** [el.attachShadow({ mode: "open" })]. *)
Definition attachShadow (el : value) : M value :=
  '(r, n) ← node_of el;
  if can_attachShadow n
  then s ← allocate (new_node (ShadowRoot r) VUndefined);
       update_node r (with_shadowRoot (Some s));;
       mret (VNode s)
  else throw NotSupportedError.

Definition detach (child : nat) (d : gmap nat node) : gmap nat node :=
  match d !! child with
  | Some c =>
      match parentNode c with
      | Some p =>
          <[child := with_parentNode None c]>
            (match d !! p with
             | Some pn => <[p := with_childNodes (filter (λ x, x ≠ child)) pn]> d
             | None => d
             end)
      | None => d
      end
  | None => d
  end.

(** [el.appendChild(child)], for a child that is not an ancestor of [el]. *)
Definition appendChild (el child : value) : M unit :=
  '(r, n) ← node_of el;
  '(c, _) ← node_of child;
  if is_ParentNode n
  then modify (with_dom (detach c));;
       update_node r (with_childNodes (λ l, (l ++ [c])%list));;
       update_node c (with_parentNode (Some r))
  else throw HierarchyRequestError.

(** [el.removeChild(child)]. *)
Definition removeChild (el child : value) : M unit :=
  '(r, _) ← node_of el;
  '(c, cn) ← node_of child;
  if bool_decide (parentNode cn = Some r)
  then modify (with_dom (detach c))
  else throw NotFoundError.

(** [v instanceof HTMLHeadElement]. *)
Definition instanceof_HTMLHeadElement (v : value) : M bool := λ w,
  Returned
    match v with
    | VNode r => match dom w !! r with Some n => is_HTMLHeadElement n | None => false end
    | _ => false
    end w.

(** [Object.defineProperty(container, "_$host", { get() { return marker.parentNode } })]. *)
Definition define_host (container : value) (marker : nat) : M unit :=
  '(r, _) ← node_of container;
  update_node r (with_host_marker (Some marker)).

(** What [container._$host] evaluates to in the world [w]. *)
Definition host_of (w : world) (container : nat) : option nat :=
  n ← dom w !! container;
  m ← host_marker n;
  mn ← dom w !! m;
  parentNode mn.

(** ** Runtime operations *)

(** Modelled from the spec: [enableHydration] of solid-js, which is not part
    of the sources, as "enable the library's hydration mode". *)
Definition enableHydration : M unit := modify (with_hydrationEnabled true).

(** [sharedConfig.context]. *)
Definition sharedConfig_context : M value := gets context.

Definition getOwner : M (option nat) := gets owner.

(** [(o as any).user = b]. *)
Definition set_user (o : option nat) (b : bool) : M unit :=
  match o with
  | Some r => modify (with_owner_user (insert r b))
  | None => throw TypeError
  end.

(** [props.key], read under the current reactive state. *)
Definition reads (p : props) (key : string) : M value :=
  gets (λ w, read p key (sigs w)).

(** Modelled from the spec: [createSignal] of solid-js, which is not part of
    the sources: a fresh cell of the reactive state holding [init]. *)
Definition createSignal (init : value) : M nat := λ w,
  let r := next_ref w in
  Returned r (with_next_ref (S r) (with_sigs (insert r init) w)).

Definition signal_get (r : nat) : M value :=
  gets (λ w, default VUndefined (sigs w !! r)).

Definition signal_set (r : nat) (v : value) : M value :=
  modify (with_sigs (insert r v));; mret v.

Definition fresh : M nat := λ w,
  Returned (next_ref w) (with_next_ref (S (next_ref w)) w).

Definition register (c : runtime_call) : M unit := modify (with_call c).

(** Modelled from the spec: [createMemo(fn)] of solid-js, which is not part
    of the sources, keeps [fn] with the memo, to run it again. *)
Definition remember (m : nat) (c : computation) : M unit :=
  modify (with_memos (insert m c)).

(** Modelled from the spec: [createMemo] of solid-js, which is not part of
    the sources: the memo is registered under the owner it is created in. *)
Definition createMemo : M nat :=
  o ← getOwner; m ← fresh; register (CreateMemo m o);; mret m.

(** Modelled from the spec: [runWithOwner] of solid-js, which is not part of
    the sources: the body runs under the given owner, and the current owner
    is restored when it returns or throws. *)
Definition runWithOwner {A} (o : option nat) (body : M A) : M A := λ w,
  match body (with_owner o w) with
  | Returned a w' => Returned a (with_owner (owner w) w')
  | Thrown e w' => Thrown e (with_owner (owner w) w')
  end.

(** Modelled from the spec: [createRoot] of solid-js, which is not part of
    the sources: a fresh root whose handle disposes it. *)
Definition createRoot {A} (body : nat → M A) : M A :=
  root ← fresh; register (CreateRoot root);; body root.

Definition dispose (root : nat) : M value :=
  modify (with_disposed (union {[root]}));; mret VUndefined.

(** Modelled from the spec: [untrack] of solid-js, which is not part of the
    sources: the body runs with no listener, and the listener is restored
    when it returns or throws. *)
Definition untrack {A} (body : M A) : M A := λ w,
  match body (with_listener false w) with
  | Returned a w' => Returned a (with_listener (listener w) w')
  | Thrown e w' => Thrown e (with_listener (listener w) w')
  end.

(** [f(args)]: calling what is not a function is a TypeError. *)
Definition call_value (f : value) (args : list argument) : M value :=
  match f with
  | VFun r => call r args
  | _ => throw TypeError
  end.

Fixpoint forEach {A} (l : list A) (f : A → M unit) : M unit :=
  match l with
  | [] => mret tt
  | x :: rest => f x;; forEach rest f
  end.

End Platform.

(** ** The module *)

Section Web.
Context `{H : Host}.

Definition createElement (tagName : string) (isSVG is_option : value) : M value :=
  if truthy isSVG
  then document_createElementNS SVG_NAMESPACE tagName
  else document_createElement tagName is_option.

Definition hydrate (code : M value) (element options : value) : M value :=
  enableHydration;;
  hydrateCore code element options.

(** The body of the [forEach] over [Object.keys(props)] in [hydrateDocument]. *)
Definition apply_attribute (props : value) (key : string) : M unit :=
  if negb (key =? "children") && negb (key =? "ref") then
    let value := get props key in
    if not_nullish value then
      if (key =? "className") || (key =? "class") then
        el ← gets documentElement;
        set_className el value
      else if typeof value =? "boolean" then
        if truthy value then
          el ← gets documentElement;
          setAttribute el key ""
        else
          el ← gets documentElement;
          removeAttribute el key
      else
        el ← gets documentElement;
        setAttribute el key (ToString value)
    else mret tt
  else mret tt.

Definition wrappedFn (fn : M value) : M value :=
  result ← fn;
  if truthy result && (typeof result =? "object") && has_property "type" result
     && strict_equal (get result "type") (VStr "html") then
    if truthy (get result "props") then
      let props := get result "props" in
      forEach (Object_keys props) (apply_attribute props);;
      if truthy (get props "children") then mret (get props "children")
      else mret result
    else mret result
  else mret result.

Definition hydrateDocument (fn : M value) (options : value) : M value :=
  enableHydration;;
  el ← gets documentElement;
  hydrateCore (wrappedFn fn) el options.

(** *** Portal *)

(** The variables a call of [Portal] closes over. *)
Record portal : Type := {
  useShadow : value;
  marker : nat;
  portal_owner : option nat;
  content : option nat;
  hydrating : bool
}.

(** [mount = () => props.mount || document.body]. *)
Definition mount (p : props) : M value :=
  m ← reads p "mount";
  if truthy m then mret m else gets body.

(** The call of [Portal], up to the registration of its effect. *)
Definition Portal (p : props) : M (value * portal) :=
  useShadow ← reads p "useShadow";
  marker ← document_createTextNode "";
  owner ← getOwner;
  ctx ← sharedConfig_context;
  let hydrating := truthy ctx in
  register (CreateEffect marker (negb hydrating));;
  mret (VNode marker,
        {| useShadow := useShadow; marker := marker; portal_owner := owner;
           content := None; hydrating := hydrating |}).

(** One run of the effect [Portal] registers starts by leaving the
    hydration: [if (hydrating) (getOwner() as any).user = hydrating = false],
    and by creating the memo of the children when there is none:
    [content || (content = runWithOwner(owner, () => createMemo(() => props.children)))]. *)
Definition Portal_prologue (st : portal) : M nat :=
  (if hydrating st then o ← getOwner; set_user o false else mret tt);;
  match content st return M nat with
  | Some c => mret c
  | None => runWithOwner (portal_owner st) createMemo
  end.

(** The branch of the effect for a mount target that is a head element. *)
Definition Portal_head (content : nat) (el : value) : M unit :=
  clean ← createSignal (VBool false);
  createRoot (λ dispose,
    register (Insert el (HeadChildren clean content dispose) VNull (Some dispose)));;
  register (OnCleanup (SetClean clean)).

(** [props.ref && (props as any).ref(container)]. *)
Definition Portal_ref (p : props) (container : value) : M unit :=
  ref ← reads p "ref";
  if truthy ref then
    ref' ← reads p "ref";
    call_value ref' [ArgValue container];; mret tt
  else mret tt.

(** The branch of the effect for every other mount target. *)
Definition Portal_container (p : props) (st : portal) (content : nat) (el : value) : M unit :=
  isSVG ← reads p "isSVG";
  isSVG' ← reads p "isSVG";
  container ← createElement (if truthy isSVG then "g" else "div") isSVG' VUndefined;
  renderRoot ← (if truthy (useShadow st) && attachShadow_available
                then attachShadow container
                else mret container);
  define_host container (marker st);;
  register (Insert renderRoot (ContentMemo content) VUndefined None);;
  appendChild el container;;
  Portal_ref p container;;
  register (OnCleanup (RemoveContainer el container)).

(** The state of the closure after a run of the effect. *)
Definition rendered_portal (st : portal) (content : nat) : portal :=
  {| useShadow := useShadow st; marker := marker st;
     portal_owner := portal_owner st; content := Some content;
     hydrating := false |}.

(** One run of the effect [Portal] registers. *)
Definition Portal_effect (p : props) (st : portal) : M portal :=
  content ← Portal_prologue st;
  el ← mount p;
  is_head ← instanceof_HTMLHeadElement el;
  (if (is_head : bool) then Portal_head content el
   else Portal_container p st content el);;
  mret (rendered_portal st content).

(** What the closures handed to the runtime do when the runtime calls them. *)
Definition run_thunk (p : props) (t : thunk) : M value :=
  match t with
  | ContentMemo _ => reads p "children"
  | HeadChildren clean content root =>
      c ← signal_get clean;
      if negb (truthy c) then reads p "children" else dispose root
  | SetClean clean => signal_set clean (VBool true)
  | RemoveContainer el container => removeChild el container;; mret container
  end.

(** *** createDynamic and Dynamic *)

(** The computation of the memo [createDynamic] returns, for the value
    [component] of the cached selector. *)
Definition dynamic_render (component : value) (p : props) : M value :=
  match component with
  | VFun f =>
      (if isDev then modify (with_devcomp (union {[f]})) else mret tt);;
      untrack (call_value component [ArgProps p])
  | VStr tag =>
      let isSvg := bool_decide (tag ∈ SVGElements) in
      ctx ← sharedConfig_context;
      el ← (if truthy ctx then getNextElement
            else is_option ← untrack (reads p "is");
                 createElement tag (VBool isSvg) is_option);
      register (Spread el p isSvg);;
      mret el
  | _ => mret VUndefined
  end.

(** Modelled from the spec: [createMemo] of solid-js is not part of the
    sources; createDynamic "memoizes the selector and re-renders when it
    changes": a memo keeps its value, and what depends on it runs again, when
    a new evaluation yields another value ([===]). *)
Definition memo_changed (previous current : value) : bool :=
  negb (strict_equal current previous).

(** The two memos of [createDynamic]: the cached selector and its value, and
    the returned memo and its value. *)
Record dynamic : Type := {
  cached_memo : nat;
  cached : value;
  memo : nat;
  rendered : value
}.

(** The values the two memos hold. *)
Definition memo_values (d : dynamic) : gmap nat value :=
  {[cached_memo d := cached d; memo d := rendered d]}.

(** What the function of a memo does when it runs, the memos having the
    values [values]: the selector [component] is evaluated under the current
    reactive state; the function of the returned memo reads [cached()] and
    computes the output from that value. *)
Definition evaluate (values : gmap nat value) (c : computation) : M value :=
  match c with
  | Selector component => gets (λ w, component (sigs w))
  | Output cached p => dynamic_render (default VUndefined (values !! cached)) p
  end.

(** [createDynamic]: [createMemo(component)] is the memo [cached] of the
    selector, and the returned memo is [createMemo] of the function that
    computes the output from [cached()]; a memo runs its function when it is
    created. *)
Definition createDynamic (component : getter) (p : props) : M dynamic :=
  cm ← createMemo;
  remember cm (Selector component);;
  c ← evaluate ∅ (Selector component);
  m ← createMemo;
  remember m (Output cm p);;
  out ← evaluate {[cm := c]} (Output cm p);
  mret {| cached_memo := cm; cached := c; memo := m; rendered := out |}.

(** Modelled from the spec: [createMemo] of solid-js is not part of the
    sources; createDynamic "memoizes the selector and re-renders when it
    changes".  When the reactive state has changed, the runtime brings the
    memos up to date in the order of their creation.  The function of a memo
    runs again when what it reads has changed: the reactive state, for the
    selector; the memo [cached], for the function that reads it.  The memo
    then keeps the new value, and has changed, when that value is another
    one ([===]) than the value it had. *)
Definition stale (changed : gset nat) (c : computation) : bool :=
  match c with
  | Selector _ => true
  | Output cached _ => bool_decide (cached ∈ changed)
  end.

Definition update_memo (m : nat) (st : gmap nat value * gset nat) :
    M (gmap nat value * gset nat) :=
  c ← gets (λ w, memos w !! m);
  match c with
  | Some c =>
      if stale st.2 c then
        v ← evaluate st.1 c;
        if memo_changed (default VUndefined (st.1 !! m)) v
        then mret (<[m := v]> st.1, {[m]} ∪ st.2)
        else mret st
      else mret st
  | None => mret st
  end.

Fixpoint update_memos (ms : list nat) (st : gmap nat value * gset nat) :
    M (gmap nat value * gset nat) :=
  match ms with
  | [] => mret st
  | m :: rest => st' ← update_memo m st; update_memos rest st'
  end.

(** The two memos of [createDynamic] after the reactive state changed, as a
    computation on their values: [cached] evaluates the selector again, and
    the returned memo runs again when [cached] changed. *)
Definition dynamic_update (component : getter) (p : props) (d : dynamic) : M dynamic :=
  c ← gets (λ w, component (sigs w));
  if memo_changed (cached d) c then
    out ← dynamic_render c p;
    mret {| cached_memo := cached_memo d; cached := c; memo := memo d; rendered := out |}
  else mret d.

(** Modelled from the spec: [splitProps] of solid-js, which is not part of
    the sources: the props under the given keys, and the others. *)
Definition splitProps (p : props) (keys : list string) : props * props :=
  (filter (λ kg, fst kg ∈ keys) p, filter (λ kg, fst kg ∉ keys) p).

Definition Dynamic (p : props) : M dynamic :=
  let '(_, others) := splitProps p ["component"] in
  createDynamic (read p "component") others.

End Web.

(** ** A concrete host

    Integer-valued numbers, the attribute and element names of the DOM
    standard, a platform with shadow trees, and a [hydrate] that runs the
    producer once and returns a disposer. *)

Definition integers : Numbers :=
  {| number := Z;
     Number_truthy := λ z, negb (z =? 0)%Z;
     Number_toString := λ z, pretty z;
     Number_strict_equal := Z.eqb |}.

Fixpoint string_forall (f : Ascii.ascii → bool) (s : string) : bool :=
  match s with
  | EmptyString => true
  | String c rest => f c && string_forall f rest
  end.

Definition name_character (c : Ascii.ascii) : bool :=
  let n := Ascii.nat_of_ascii c in
  negb (existsb (Nat.eqb n) [0; 9; 10; 12; 13; 32; 47; 61; 62])%nat.

Definition is_alpha (c : Ascii.ascii) : bool :=
  let n := Ascii.nat_of_ascii (ascii_lower c) in
  (97 <=? n)%nat && (n <=? 122)%nat.

Definition standard_attribute_name (s : string) : bool :=
  negb (s =? "") && string_forall name_character s.

Definition standard_element_name (s : string) : bool :=
  match s with
  | EmptyString => false
  | String c _ => is_alpha c && string_forall name_character s
  end.

Definition svg_elements : gset string :=
  list_to_set ["circle"; "clipPath"; "defs"; "ellipse"; "foreignObject"; "g";
               "line"; "path"; "polygon"; "polyline"; "rect"; "svg"; "text";
               "tspan"; "use"].

(** Function 0 is a disposer, function 1 a component rendering a text,
    function 2 a [ref] callback; the others throw. *)
Definition demo_call `{Numbers} (f : nat) (args : list argument) : M value :=
  match f with
  | 0 => mret VUndefined
  | 1 => mret (VStr "rendered")
  | 2 => mret VUndefined
  | _ => throw (Raised (VStr "error"))
  end.

Definition demo_hydrateCore `{Numbers} (code : M value) (element options : value) : M value :=
  code;; mret (VFun 0).

Program Definition demo_host : @Host integers :=
  {| Object_toString := λ _, "[object Object]";
     valid_attribute_name := standard_attribute_name;
     valid_element_name := standard_element_name;
     attachShadow_available := true;
     SVGElements := svg_elements;
     isDev := true;
     call := demo_call;
     hydrateCore := demo_hydrateCore;
     getNextElement := mret (VNode 3) |}.
Next Obligation. reflexivity. Qed.
Next Obligation. reflexivity. Qed.

(** A document [<html><head></head><body><div></div></body></html>]. *)
Definition demo_document `{Numbers} : gmap nat node :=
  <[0%nat := with_childNodes (λ _, [1; 2]%nat) (new_node (Element HTML_NAMESPACE "html") VUndefined)]>
    (<[1%nat := with_parentNode (Some 0%nat) (new_node (Element HTML_NAMESPACE "head") VUndefined)]>
       (<[2%nat := with_childNodes (λ _, [3%nat])
                     (with_parentNode (Some 0%nat)
                        (new_node (Element HTML_NAMESPACE "body") VUndefined))]>
          (<[3%nat := with_parentNode (Some 2%nat)
                        (new_node (Element HTML_NAMESPACE "div") VUndefined)]> ∅))).

Definition demo_world `{Numbers} : world :=
  {| documentElement := VNode 0; body := VNode 2; dom := demo_document;
     next_ref := 4; sigs := ∅; hydrationEnabled := false; context := VUndefined;
     listener := true; owner := Some 0; owner_user := ∅; disposed := ∅;
     devcomp := ∅; calls := []; memos := ∅ |}.

(** The document whose root carries one more attribute. *)
Definition with_root_attribute `{Numbers} (name s : string) (w : world) : world :=
  with_dom (alter (with_attributes (insert name s)) 0%nat) w.

(** The object a component returning [<html ...>] yields in the tests. *)
Definition html `{Numbers} (ps : list (string * value)) : value :=
  VObj [("type", VStr "html"); ("props", VObj ps)].

Definition num (z : Z) : @value integers := @VNum integers z.

(** Props as the tests of [hydrateDocument] have them. *)
Definition sample_props : list (string * @value integers) :=
  [("lang", VStr "fr"); ("className", VStr "dark"); ("data-loaded", VBool true);
   ("hidden", VBool false); ("tabIndex", num 3); ("data-test", VNull);
   ("children", VStr "content")].

Definition zero_child_props : list (string * @value integers) :=
  [("lang", VStr "fr"); ("children", num 0)].

Definition null_child_props : list (string * @value integers) :=
  [("lang", VStr "fr"); ("children", VNull)].

Definition aliased_props : list (string * @value integers) :=
  [("class", VNull); ("className", VStr "dark")].

Definition nullish_class_props : list (string * @value integers) :=
  [("className", VNull); ("lang", VStr "fr")].

(** Props of a portal and of a dynamic component: [useShadow] and
    [component] read the signal 0. *)
Definition shadow_props : list (string * (gmap nat (@value integers) → @value integers)) :=
  [("useShadow", λ s, default VUndefined (s !! 0%nat)); ("children", λ _, VStr "modal")].

Definition shadow_portal : @portal integers :=
  {| useShadow := VBool true; marker := 3; portal_owner := Some 0%nat;
     content := None; hydrating := false |}.

Definition head_props : list (string * (gmap nat (@value integers) → @value integers)) :=
  [("mount", λ _, VNode 1); ("children", λ _, VStr "title")].

Definition dynamic_props : list (string * (gmap nat (@value integers) → @value integers)) :=
  [("component", λ s, default VUndefined (s !! 0%nat)); ("value", λ _, VStr "x")].

(** Props whose second key the document refuses as an attribute name. *)
Definition refused_props : list (string * @value integers) :=
  [("lang", VStr "fr"); ("", VStr "x"); ("dir", VStr "ltr")].

(** The nodes of the document above. *)
Definition body_node : @node integers :=
  with_childNodes (λ _, [3%nat])
    (with_parentNode (Some 0%nat) (new_node (Element HTML_NAMESPACE "body") VUndefined)).

Definition head_node : @node integers :=
  with_parentNode (Some 0%nat) (new_node (Element HTML_NAMESPACE "head") VUndefined).

Definition html_node : @node integers :=
  with_childNodes (λ _, [1; 2]%nat) (new_node (Element HTML_NAMESPACE "html") VUndefined).

Definition div_node : @node integers :=
  with_parentNode (Some 2%nat) (new_node (Element HTML_NAMESPACE "div") VUndefined).

(** Props of portals: a mount target given as a selector string; a head
    element as target together with a [ref] that throws and [isSVG]; [isSVG]
    alone; a [ref] callback. *)
Definition selector_props : list (string * (gmap nat (@value integers) → @value integers)) :=
  [("mount", λ _, VStr "#modal"); ("children", λ _, VStr "modal")].

Definition head_ref_props : list (string * (gmap nat (@value integers) → @value integers)) :=
  [("mount", λ _, VNode 1); ("ref", λ _, VFun 3); ("isSVG", λ _, VBool true);
   ("children", λ _, VStr "title")].

Definition svg_props : list (string * (gmap nat (@value integers) → @value integers)) :=
  [("isSVG", λ _, VBool true); ("children", λ _, VStr "shape")].

Definition ref_props : list (string * (gmap nat (@value integers) → @value integers)) :=
  [("ref", λ _, VFun 2); ("children", λ _, VStr "modal")].

(** Props of a portal whose mount target reads the signal 1. *)
Definition moving_props : list (string * (gmap nat (@value integers) → @value integers)) :=
  [("mount", λ s, default VUndefined (s !! 1%nat)); ("children", λ _, VStr "modal")].

(** The same document with a detached text node, and props of a portal
    whose mount target is that node. *)
Definition text_world : world :=
  final_world (@document_createTextNode integers "note" demo_world).

Definition text_target_props : list (string * (gmap nat (@value integers) → @value integers)) :=
  [("mount", λ _, VNode 4); ("children", λ _, VStr "modal")].

(** The same document, whose root has the class "light". *)
Definition light_world : world := @with_root_attribute integers "class" "light" demo_world.

(** What a test observes of a run: whether it returned, and attributes of
    the root. *)
Definition returned {A} `{Numbers} (o : outcome A) : bool :=
  match o with
  | Returned _ _ => true
  | Thrown _ _ => false
  end.

Definition result {A} `{Numbers} (o : outcome A) : option A :=
  match o with
  | Returned a _ => Some a
  | Thrown _ _ => None
  end.

Definition thrown {A} `{Numbers} (o : outcome A) : option exn :=
  match o with
  | Returned _ _ => None
  | Thrown e _ => Some e
  end.

Definition root_attribute `{Host} {A} (o : outcome A) (name : string) : option string :=
  getAttribute (final_world o) (VNode 0) name.

(** [hydrateDocument] on a component returning [v]. *)
Definition hydrated `{Host} (v options : value) (w : world) : outcome value :=
  hydrateDocument (mret v) options w.

(** The node a run leaves under a reference. *)
Definition node_after `{Numbers} {A} (o : outcome A) (r : nat) : option node :=
  dom (final_world o) !! r.

(** * What the claims say, in the words of the specification *)

Section Specification.
Context `{H : Host}.

(** "An object carrying type html". *)
Definition carries_html_type (v : value) : Prop :=
  ∃ r, v = VObj r ∧ lookup_property r "type" = Some (VStr "html").

(** The operations on [document.documentElement] the specification speaks of. *)
Inductive dom_operation : Type :=
| AssignClassName (v : value)
| SetAttribute (name s : string)
| RemoveAttribute (name : string).

(** How one entry of the props is reflected: nothing for [children], [ref]
    and for null or undefined values; [class] and [className] assign the
    class name; a boolean toggles the presence of the attribute; every other
    value is set after coercion to a string. *)
Definition reflection (key : string) (v : value) : option dom_operation :=
  if bool_decide (key = "children" ∨ key = "ref") then None
  else match v with
       | VUndefined | VNull => None
       | _ =>
           Some (if bool_decide (key = "class" ∨ key = "className")
                 then AssignClassName v
                 else match v with
                      | VBool true => SetAttribute key ""
                      | VBool false => RemoveAttribute key
                      | _ => SetAttribute key (ToString v)
                      end)
       end.

Definition reflections (ps : list (string * value)) : list dom_operation :=
  omap (λ kv, reflection kv.1 kv.2) ps.

Definition perform (op : dom_operation) : M unit :=
  el ← gets documentElement;
  match op with
  | AssignClassName v => set_className el v
  | SetAttribute name s => setAttribute el name s
  | RemoveAttribute name => removeAttribute el name
  end.

(** The attribute a reflected operation writes on an HTML element, and what
    it makes of the attributes. *)
Definition target (op : dom_operation) : string :=
  match op with
  | AssignClassName _ => "class"
  | SetAttribute name _ | RemoveAttribute name => to_lower name
  end.

(** The attribute of the root a key of the props stands for: the class
    attribute for [class] and [className], the attribute named like the key
    otherwise. *)
Definition key_attribute (key : string) : string :=
  if (key =? "className") || (key =? "class") then "class" else to_lower key.

Definition written (op : dom_operation) : option string :=
  match op with
  | AssignClassName v => Some (ToString v)
  | SetAttribute _ s => Some s
  | RemoveAttribute _ => None
  end.

Definition apply_operation (a : gmap string string) (op : dom_operation) : gmap string string :=
  match written op with
  | Some s => <[target op := s]> a
  | None => delete (target op) a
  end.

Definition accepted (op : dom_operation) : bool :=
  match op with
  | SetAttribute name _ => valid_attribute_name name
  | _ => true
  end.

(** The props without the entries of a key. *)
Definition without (key : string) (ps : list (string * value)) : list (string * value) :=
  filter (λ kv, kv.1 ≠ key) ps.

(** [document.documentElement] is the element [n] of an HTML document, kept
    under the reference [r]. *)
Definition html_root (w : world) (r : nat) (n : node) : Prop :=
  documentElement w = VNode r ∧ dom w !! r = Some n
  ∧ ∃ name, kind n = Element HTML_NAMESPACE name.

(** The world in which the attributes of the node [n] under [r] are [a]. *)
Definition with_root_attributes (r : nat) (n : node) (a : gmap string string) (w : world) : world :=
  with_dom (insert r (with_attributes (λ _, a) n)) w.

(** Modelled from the spec: the core hydration routine, [hydrate] of
    [./client.js], is not part of the sources; it "returns a disposer
    callback", "a callable disposer, idempotent-safe to invoke": what it
    returns is a function, and calling that function returns, in whatever
    state and however often. *)
Definition returns_disposer : Prop :=
  ∀ code el options w d w',
    hydrateCore code el options w = Returned d w' →
    ∃ f, d = VFun f ∧ ∀ w1, ∃ w2, call f [] w1 = Returned VUndefined w2.

(** The nodes of [d'] have the [_$host] accessors they have in [d]. *)
Definition same_accessors (d d' : gmap nat node) : Prop :=
  ∀ r, host_marker <$> d' !! r = host_marker <$> d !! r.

(** The references from [next_ref] on are not in use. *)
Definition fresh_refs (w : world) : Prop :=
  ∀ r : nat, (next_ref w ≤ r)%nat → dom w !! r = None.

(** The container a portal creates under the reference [c], once it is
    appended to the node [t]: a [div], or a [g] of the SVG namespace, whose
    shadow root, when it has one, is the next reference. *)
Definition container_node (svg shadow : bool) (c t marker : nat) : node :=
  {| kind := if svg then Element SVG_NAMESPACE "g" else Element HTML_NAMESPACE "div";
     attributes := ∅; is_value := VUndefined; parentNode := Some t; childNodes := [];
     shadowRoot := if shadow then Some (S c) else None;
     host_marker := Some marker |}.

(** The mount target of a portal: [props.mount || document.body]. *)
Definition mount_target (p : props) (w : world) : value :=
  if truthy (read p "mount" (sigs w)) then read p "mount" (sigs w) else body w.

End Specification.

(** * Properties *)

Section Computations.
Context `{H : Host}.

Lemma bind_run {A B} (m : M A) (f : A → M B) (w : world) :
  (m ≫= f) w = match m w with
               | Returned a w' => f a w'
               | Thrown e w' => Thrown e w'
               end.
Proof. reflexivity. Qed.

Lemma bind_returned {A B} (m : M A) (f : A → M B) (w w' : world) (a : A) :
  m w = Returned a w' → (m ≫= f) w = f a w'.
Proof. intros E. rewrite bind_run, E. reflexivity. Qed.

Lemma bind_thrown {A B} (m : M A) (f : A → M B) (w w' : world) (e : exn) :
  m w = Thrown e w' → (m ≫= f) w = Thrown e w'.
Proof. intros E. rewrite bind_run, E. reflexivity. Qed.

Lemma bind_ext {A B} (m : M A) (f g : A → M B) (w : world) :
  (∀ a w', f a w' = g a w') → (m ≫= f) w = (m ≫= g) w.
Proof. intros E. rewrite !bind_run. destruct (m w); auto. Qed.

Lemma forEach_cons {A} (x : A) (l : list A) (f : A → M unit) (w : world) :
  forEach (x :: l) f w = (f x;; forEach l f) w.
Proof. reflexivity. Qed.

Lemma forEach_skip {A} (x : A) (l : list A) (f : A → M unit) (w : world) :
  f x w = Returned tt w → forEach (x :: l) f w = forEach l f w.
Proof. intros E. rewrite forEach_cons, bind_run, E. reflexivity. Qed.

Lemma forEach_ext {A} (l : list A) (f g : A → M unit) (w : world) :
  (∀ x w', In x l → f x w' = g x w') → forEach l f w = forEach l g w.
Proof.
  revert w. induction l as [|x l IH]; intros w E; [reflexivity|].
  rewrite !forEach_cons, !bind_run, (E x w) by (left; reflexivity).
  destruct (g x w); [|reflexivity].
  apply IH. intros y w' Hy. apply E. right. exact Hy.
Qed.

End Computations.

(** ** hydrateDocument *)

Section HydrateDocument.
Context `{H : Host}.

(** The test [hydrateDocument] makes on the producer's result is the
    specification's "object carrying type html". *)
Lemma html_test (v : value) :
  truthy v && (typeof v =? "object") && has_property "type" v
    && strict_equal (get v "type") (VStr "html") = true
  ↔ carries_html_type v.
Proof.
  unfold carries_html_type. split.
  - intros E. destruct v as [| | | | |r| |]; simpl in E;
      rewrite ?andb_false_r in E; try discriminate.
    exists r. split; [reflexivity|].
    destruct (lookup_property r "type") as [t|]; simpl in E;
      [|try rewrite andb_false_r in E; discriminate].
    destruct t; simpl in E; try discriminate.
    apply String.eqb_eq in E. subst. reflexivity.
  - intros (r & -> & E). simpl. rewrite E. reflexivity.
Qed.

Lemma html_test_false (v : value) :
  ¬ carries_html_type v →
  truthy v && (typeof v =? "object") && has_property "type" v
    && strict_equal (get v "type") (VStr "html") = false.
Proof.
  intros N. apply not_true_is_false. intros E. apply N, html_test, E.
Qed.

Lemma wrappedFn_thrown (fn : M value) (w w1 : world) (e : exn) :
  fn w = Thrown e w1 → wrappedFn fn w = Thrown e w1.
Proof. intros E. unfold wrappedFn. apply bind_thrown, E. Qed.

Lemma wrappedFn_passes (fn : M value) (w w1 : world) (result : value) :
  fn w = Returned result w1 →
  ¬ carries_html_type result →
  wrappedFn fn w = Returned result w1.
Proof.
  intros E N. unfold wrappedFn. rewrite (bind_returned _ _ _ _ _ E).
  rewrite (html_test_false _ N). reflexivity.
Qed.

Lemma wrappedFn_html (fn : M value) (w w1 : world) (r : list (string * value)) :
  fn w = Returned (VObj r) w1 →
  lookup_property r "type" = Some (VStr "html") →
  wrappedFn fn w =
    (let props := get (VObj r) "props" in
     if truthy props then
       forEach (Object_keys props) (apply_attribute props);;
       mret (if truthy (get props "children") then get props "children" else VObj r)
     else mret (VObj r)) w1.
Proof.
  intros E T. unfold wrappedFn. rewrite (bind_returned _ _ _ _ _ E).
  assert (carries_html_type (VObj r)) as C by (exists r; auto).
  apply html_test in C. rewrite C. cbv zeta.
  destruct (truthy (get (VObj r) "props")); [|reflexivity].
  apply bind_ext. intros [] w'.
  destruct (truthy (get (get (VObj r) "props") "children")); reflexivity.
Qed.

(** One step of the traversal does what the specification says of the entry. *)
Lemma apply_attribute_reflection (props : value) (key : string) (w : world) :
  apply_attribute props key w =
    match reflection key (get props key) with
    | Some op => perform op w
    | None => Returned tt w
    end.
Proof.
  unfold apply_attribute, reflection.
  destruct (String.eqb_spec key "children") as [->|Nc]; [reflexivity|].
  destruct (String.eqb_spec key "ref") as [->|Nr]; [reflexivity|].
  rewrite bool_decide_eq_false_2 by (intros [?|?]; contradiction).
  simpl.
  destruct (String.eqb_spec key "className") as [->|Ncn].
  { destruct (get props "className"); reflexivity. }
  destruct (String.eqb_spec key "class") as [->|Ncl].
  { destruct (get props "class"); reflexivity. }
  rewrite bool_decide_eq_false_2 by (intros [?|?]; contradiction).
  simpl.
  destruct (get props key) as [| |[]| | | | |]; reflexivity.
Qed.

Lemma lookup_property_In (ps : list (string * value)) (k : string) (v : value) :
  NoDup (map fst ps) → In (k, v) ps → lookup_property ps k = Some v.
Proof.
  induction ps as [|[k' v'] ps IH]; intros D I; [destruct I|].
  simpl in D. apply NoDup_cons in D as [N D]. simpl.
  destruct I as [I|I].
  - inversion I; subst. rewrite String.eqb_refl. reflexivity.
  - destruct (String.eqb_spec k' k) as [->|_]; [|auto].
    exfalso. apply N. apply list_elem_of_In.
    change k with (fst (k, v)). apply in_map, I.
Qed.

Lemma forEach_entries (ps l : list (string * value)) (w : world) :
  (∀ k v, In (k, v) l → lookup_property ps k = Some v) →
  forEach (map fst l) (apply_attribute (VObj ps)) w = forEach (reflections l) perform w.
Proof.
  revert w. induction l as [|[k v] l IH]; intros w E; [reflexivity|].
  simpl map. rewrite forEach_cons, bind_run, apply_attribute_reflection.
  simpl get. rewrite (E k v) by (left; reflexivity). simpl default.
  unfold reflections. simpl omap.
  fold (reflections l).
  destruct (reflection k v) as [op|].
  - rewrite forEach_cons, bind_run. destruct (perform op w) as [[] w'|]; [|reflexivity].
    apply IH. intros k' v' I. apply E. right. exact I.
  - apply IH. intros k' v' I. apply E. right. exact I.
Qed.

(** The traversal of [Object.keys(props)] performs the reflection of every
    entry of the props, in order. *)
Lemma forEach_reflections (ps : list (string * value)) (w : world) :
  NoDup (map fst ps) →
  forEach (Object_keys (VObj ps)) (apply_attribute (VObj ps)) w
  = forEach (reflections ps) perform w.
Proof.
  intros D. apply forEach_entries. intros k v. apply lookup_property_In, D.
Qed.

Lemma apply_attribute_ext (props props' : value) (key : string) (w : world) :
  get props key = get props' key →
  apply_attribute props key w = apply_attribute props' key w.
Proof. intros E. rewrite !apply_attribute_reflection, E. reflexivity. Qed.

Lemma apply_attribute_nullish (props : value) (key : string) (w : world) :
  not_nullish (get props key) = false → apply_attribute props key w = Returned tt w.
Proof.
  intros N. rewrite apply_attribute_reflection. unfold reflection.
  destruct (bool_decide _); [reflexivity|].
  destruct (get props key); try discriminate; reflexivity.
Qed.

Lemma without_cons (key k : string) (v : value) (l : list (string * value)) :
  without key ((k, v) :: l)
  = if decide (k ≠ key) then (k, v) :: without key l else without key l.
Proof. unfold without. rewrite filter_cons. reflexivity. Qed.

Lemma lookup_without (ps : list (string * value)) (key k : string) :
  k ≠ key → lookup_property (without key ps) k = lookup_property ps k.
Proof.
  intros N. induction ps as [|[k' v'] ps IH]; [reflexivity|].
  rewrite without_cons. destruct (decide (k' ≠ key)) as [D|D].
  - simpl. rewrite IH. reflexivity.
  - apply dec_stable in D. subst k'. simpl.
    destruct (String.eqb_spec key k) as [->|_]; [contradiction|exact IH].
Qed.

(** A key whose value is null or undefined can be struck from the props:
    the traversal does the same. *)
Lemma forEach_without (ps l : list (string * value)) (key : string) (w : world) :
  not_nullish (get (VObj ps) key) = false →
  forEach (map fst l) (apply_attribute (VObj ps)) w
  = forEach (map fst (without key l)) (apply_attribute (VObj (without key ps))) w.
Proof.
  intros N. revert w. induction l as [|[k v] l IH]; intros w; [reflexivity|].
  rewrite without_cons. simpl map at 1. destruct (decide (k ≠ key)) as [D|D].
  - simpl map. rewrite !forEach_cons, !bind_run.
    rewrite (apply_attribute_ext (VObj ps) (VObj (without key ps))).
    + destruct (apply_attribute _ k w); [apply IH|reflexivity].
    + simpl. rewrite lookup_without by exact D. reflexivity.
  - apply dec_stable in D. subst k.
    rewrite forEach_skip by (apply apply_attribute_nullish, N). apply IH.
Qed.

Lemma reflections_cons (k : string) (v : value) (l : list (string * value)) :
  reflections ((k, v) :: l)
  = match reflection k v with
    | Some op => op :: reflections l
    | None => reflections l
    end.
Proof. reflexivity. Qed.

Lemma reflections_without (ps : list (string * value)) (key : string) :
  (∀ v, In (key, v) ps → not_nullish v = false) →
  reflections (without key ps) = reflections ps.
Proof.
  intros N. induction ps as [|[k v] ps IH]; [reflexivity|].
  assert (reflections (without key ps) = reflections ps) as IH'.
  { apply IH. intros v' I. apply N. right. exact I. }
  rewrite without_cons. destruct (decide (k ≠ key)) as [D|D].
  - rewrite !reflections_cons, IH'. reflexivity.
  - apply dec_stable in D. subst k. rewrite reflections_cons, IH'.
    assert (reflection key v = None) as ->; [|reflexivity].
    unfold reflection. destruct (bool_decide _); [reflexivity|].
    specialize (N v (or_introl eq_refl)). destruct v; try discriminate; reflexivity.
Qed.

(** What the wrapped producer does with an html wrapper whose props are an
    object: it performs the reflections of the entries and yields the
    children when they are truthy, the wrapper otherwise. *)
Lemma wrappedFn_reflects (fn : M value) (w w1 : world) (r ps : list (string * value)) :
  fn w = Returned (VObj r) w1 →
  lookup_property r "type" = Some (VStr "html") →
  lookup_property r "props" = Some (VObj ps) →
  wrappedFn fn w
  = (forEach (Object_keys (VObj ps)) (apply_attribute (VObj ps));;
     mret (if truthy (get (VObj ps) "children") then get (VObj ps) "children" else VObj r)) w1.
Proof.
  intros E T P.
  assert (get (VObj r) "props" = VObj ps) as G by (simpl; rewrite P; reflexivity).
  rewrite (wrappedFn_html _ _ _ _ E T). cbv zeta. rewrite G. reflexivity.
Qed.

(** An html wrapper without props, or whose props are falsy, is returned as
    it is. *)
Lemma wrappedFn_no_props (fn : M value) (w w1 : world) (r : list (string * value)) :
  fn w = Returned (VObj r) w1 →
  lookup_property r "type" = Some (VStr "html") →
  truthy (get (VObj r) "props") = false →
  wrappedFn fn w = Returned (VObj r) w1.
Proof.
  intros E T P. rewrite (wrappedFn_html _ _ _ _ E T). cbv zeta. rewrite P. reflexivity.
Qed.

End HydrateDocument.

Section RootAttributes.
Context `{H : Host}.

Lemma ascii_lower_idemp (c : Ascii.ascii) : ascii_lower (ascii_lower c) = ascii_lower c.
Proof. destruct c as [[] [] [] [] [] [] [] []]; reflexivity. Qed.

Lemma to_lower_idemp (s : string) : to_lower (to_lower s) = to_lower s.
Proof.
  induction s as [|c s IH]; [reflexivity|].
  simpl. rewrite ascii_lower_idemp, IH. reflexivity.
Qed.

Lemma with_attributes_id (n : node) : with_attributes (λ _, attributes n) n = n.
Proof. destruct n. reflexivity. Qed.

Lemma with_dom_id (w : world) (f : gmap nat node → gmap nat node) :
  f (dom w) = dom w → with_dom f w = w.
Proof. intros E. destruct w. unfold with_dom. simpl in *. rewrite E. reflexivity. Qed.

Lemma with_root_attributes_id (w : world) (r : nat) (n : node) :
  dom w !! r = Some n → with_root_attributes r n (attributes n) w = w.
Proof.
  intros E. unfold with_root_attributes. apply with_dom_id.
  rewrite with_attributes_id. apply insert_id, E.
Qed.

Lemma with_root_attributes_twice (w : world) (r : nat) (n : node) (a b : gmap string string) :
  with_root_attributes r (with_attributes (λ _, a) n) b (with_root_attributes r n a w)
  = with_root_attributes r n b w.
Proof.
  unfold with_root_attributes, with_dom. simpl. rewrite insert_insert_eq. reflexivity.
Qed.

Lemma html_root_after (w : world) (r : nat) (n : node) (a : gmap string string) :
  html_root w r n →
  html_root (with_root_attributes r n a w) r (with_attributes (λ _, a) n).
Proof.
  intros (D & _ & K). repeat split; [exact D| |exact K].
  unfold with_root_attributes. simpl. apply lookup_insert_eq.
Qed.

Lemma update_root (w : world) (r : nat) (n : node) (f : gmap string string → gmap string string) :
  dom w !! r = Some n →
  update_node r (with_attributes f) w
  = Returned tt (with_root_attributes r n (f (attributes n)) w).
Proof.
  intros E. unfold update_node, modify, with_root_attributes, with_dom.
  rewrite E. reflexivity.
Qed.

Lemma html_attribute_name (n : node) (name : string) :
  (∃ tag, kind n = Element HTML_NAMESPACE tag) → attribute_name n name = to_lower name.
Proof. intros [tag K]. unfold attribute_name. rewrite K. reflexivity. Qed.

(** An operation the document accepts rewrites the attributes of the root
    as the specification has it. *)
Lemma perform_accepted (w : world) (r : nat) (n : node) (op : dom_operation) :
  html_root w r n → accepted op = true →
  perform op w = Returned tt (with_root_attributes r n (apply_operation (attributes n) op) w).
Proof.
  intros (D & E & K) A. unfold perform.
  rewrite bind_run. unfold gets at 1. rewrite D.
  destruct op as [v|name s|name]; simpl in A.
  - unfold set_className. rewrite bind_run. unfold node_of. rewrite E.
    apply update_root, E.
  - unfold setAttribute. rewrite bind_run. unfold node_of. rewrite E, A.
    rewrite (html_attribute_name _ _ K). apply update_root, E.
  - unfold removeAttribute. rewrite bind_run. unfold node_of. rewrite E.
    rewrite (html_attribute_name _ _ K). apply update_root, E.
Qed.

(** A name the document refuses makes the operation throw, and nothing is
    written. *)
Lemma perform_refused (w : world) (r : nat) (n : node) (op : dom_operation) :
  html_root w r n → accepted op = false →
  perform op w = Thrown InvalidCharacterError w.
Proof.
  intros (D & E & K) A. unfold perform.
  rewrite bind_run. unfold gets at 1. rewrite D.
  destruct op as [v|name s|name]; simpl in A; try discriminate.
  unfold setAttribute. rewrite bind_run. unfold node_of. rewrite E, A. reflexivity.
Qed.

Lemma forEach_perform (ops : list dom_operation) (w : world) (r : nat) (n : node) :
  html_root w r n → forallb accepted ops = true →
  forEach ops perform w
  = Returned tt (with_root_attributes r n (foldl apply_operation (attributes n) ops) w).
Proof.
  revert w n. induction ops as [|op ops IH]; intros w n R A.
  - simpl. rewrite with_root_attributes_id; [reflexivity|apply R].
  - simpl in A. apply andb_true_iff in A as [A1 A2].
    rewrite forEach_cons, bind_run, (perform_accepted _ _ _ _ R A1).
    rewrite (IH _ _ (html_root_after _ _ _ _ R) A2).
    simpl. rewrite with_root_attributes_twice. reflexivity.
Qed.

Lemma getAttribute_root (w : world) (r : nat) (n : node) (a : gmap string string) (name : string) :
  html_root w r n →
  getAttribute (with_root_attributes r n a w) (VNode r) name = a !! to_lower name.
Proof.
  intros (_ & _ & K). unfold getAttribute, with_root_attributes. simpl.
  rewrite lookup_insert_eq. simpl. rewrite html_attribute_name by exact K. reflexivity.
Qed.

Lemma apply_operation_target (a : gmap string string) (op : dom_operation) :
  apply_operation a op !! target op = written op.
Proof.
  unfold apply_operation. destruct (written op).
  - apply lookup_insert_eq.
  - apply lookup_delete_eq.
Qed.

Lemma apply_operation_other (a : gmap string string) (op : dom_operation) (name : string) :
  name ≠ target op → apply_operation a op !! name = a !! name.
Proof.
  intros N. unfold apply_operation. destruct (written op).
  - apply lookup_insert_ne. congruence.
  - apply lookup_delete_ne. congruence.
Qed.

(** Attributes no operation targets keep their value. *)
Lemma foldl_apply_frame (ops : list dom_operation) (a : gmap string string) (name : string) :
  name ∉ map target ops → foldl apply_operation a ops !! name = a !! name.
Proof.
  revert a. induction ops as [|op ops IH]; intros a N; [reflexivity|].
  simpl in *. apply not_elem_of_cons in N as [N1 N2].
  rewrite IH by exact N2. apply apply_operation_other, N1.
Qed.

(** The last operation that targets an attribute decides its value. *)
Lemma foldl_apply_last (before later : list dom_operation) (op : dom_operation)
    (a : gmap string string) :
  target op ∉ map target later →
  foldl apply_operation a (before ++ op :: later) !! target op = written op.
Proof.
  intros N. rewrite foldl_app. simpl.
  rewrite foldl_apply_frame by exact N. apply apply_operation_target.
Qed.

(** The first operation the document refuses ends the traversal: the
    operations before it are applied, the others are not. *)
Lemma forEach_perform_refused (before later : list dom_operation) (op : dom_operation)
    (w : world) (r : nat) (n : node) :
  html_root w r n → forallb accepted before = true → accepted op = false →
  forEach (before ++ op :: later)%list perform w
  = Thrown InvalidCharacterError
      (with_root_attributes r n (foldl apply_operation (attributes n) before) w).
Proof.
  revert w n. induction before as [|b before IH]; intros w n R A N.
  - cbn [app foldl]. rewrite forEach_cons, bind_run, (perform_refused _ _ _ _ R N).
    rewrite with_root_attributes_id; [reflexivity|apply R].
  - cbn [forallb] in A. apply andb_true_iff in A as [A1 A2].
    cbn [app]. rewrite forEach_cons, bind_run, (perform_accepted _ _ _ _ R A1).
    rewrite (IH _ _ (html_root_after _ _ _ _ R) A2 N).
    cbn [foldl attributes with_attributes]. rewrite with_root_attributes_twice. reflexivity.
Qed.

(** Whether it returns or throws, the traversal leaves the world in which
    the operations of a prefix were applied to the root. *)
Lemma forEach_perform_prefix (ops : list dom_operation) (w : world) (r : nat) (n : node) :
  html_root w r n →
  ∃ done rest,
    ops = (done ++ rest)%list
    ∧ final_world (forEach ops perform w)
      = with_root_attributes r n (foldl apply_operation (attributes n) done) w.
Proof.
  intros R. destruct (forallb accepted ops) eqn:A.
  - exists ops, []. rewrite app_nil_r. split; [reflexivity|].
    rewrite (forEach_perform _ _ _ _ R A). reflexivity.
  - assert (∃ before op later, ops = (before ++ op :: later)%list
                               ∧ forallb accepted before = true ∧ accepted op = false)
      as (before & op & later & -> & B & N).
    { clear R. induction ops as [|o ops IH]; [discriminate|].
      cbn [forallb] in A. destruct (accepted o) eqn:Ao.
      - destruct (IH A) as (before & op & later & -> & B & N).
        exists (o :: before), op, later. cbn [forallb]. rewrite Ao, B. auto.
      - exists [], o, ops. auto. }
    exists before, (op :: later). split; [reflexivity|].
    rewrite (forEach_perform_refused _ _ _ _ _ _ R B N). reflexivity.
Qed.

Lemma final_world_then {A} (m : M unit) (a : A) (w : world) :
  final_world ((m;; mret a) w) = final_world (m w).
Proof. rewrite bind_run. destruct (m w); reflexivity. Qed.

End RootAttributes.

Section HydrateDocumentClaims.
Context `{H : Host}.

(** C1.  For a producer whose result is an object with type "html" and a
    props mapping, the wrapped producer of [hydrateDocument] reflects each
    key of the props other than [children] and [ref] whose value is neither
    null nor undefined onto [document.documentElement], in the order of the
    keys: [class] and [className] assign [className]; [true] sets the
    attribute to the empty string and [false] removes it; every other value
    is set with [setAttribute] after coercion to a string ([reflection]).
    When the document accepts the names, the producer returns, the last
    operation on an attribute decides its value, and the attributes no key
    targets are as the producer left them. *)
Theorem hydrateDocument_reflects_props
    (fn : M value) (w w1 : world) (r ps : list (string * value)) :
  fn w = Returned (VObj r) w1 →
  lookup_property r "type" = Some (VStr "html") →
  lookup_property r "props" = Some (VObj ps) →
  NoDup (map fst ps) →
  let v := if truthy (get (VObj ps) "children") then get (VObj ps) "children" else VObj r in
  wrappedFn fn w = (forEach (reflections ps) perform;; mret v) w1
  ∧ (∀ root n,
       html_root w1 root n → forallb accepted (reflections ps) = true →
       let final := with_root_attributes root n
                      (foldl apply_operation (attributes n) (reflections ps)) w1 in
       wrappedFn fn w = Returned v final
       ∧ (∀ before op later,
            reflections ps = (before ++ op :: later)%list →
            target op ∉ map target later →
            getAttribute final (VNode root) (target op) = written op)
       ∧ (∀ name,
            to_lower name ∉ map target (reflections ps) →
            getAttribute final (VNode root) name = getAttribute w1 (VNode root) name)).
Proof.
  intros E T P D v.
  assert (wrappedFn fn w = (forEach (reflections ps) perform;; mret v) w1) as R.
  { assert (get (VObj r) "props" = VObj ps) as G by (simpl; rewrite P; reflexivity).
    rewrite (wrappedFn_html _ _ _ _ E T). cbv zeta. rewrite G.
    change (truthy (VObj ps)) with true. cbv iota.
    rewrite !bind_run, (forEach_reflections _ _ D). reflexivity. }
  split; [exact R|].
  intros root n HR A final.
  assert (wrappedFn fn w = Returned v final) as F.
  { rewrite R, bind_run, (forEach_perform _ _ _ _ HR A). reflexivity. }
  split; [exact F|]. split.
  - intros before op later S N. unfold final.
    rewrite (getAttribute_root _ _ _ _ _ HR), S.
    assert (to_lower (target op) = target op) as ->.
    { destruct op; simpl; auto using to_lower_idemp. }
    apply foldl_apply_last, N.
  - intros name N. unfold final.
    rewrite (getAttribute_root _ _ _ _ _ HR), (foldl_apply_frame _ _ _ N).
    destruct HR as (_ & L & K). unfold getAttribute. rewrite L. simpl.
    rewrite (html_attribute_name _ _ K). reflexivity.
Qed.

(** C2, as amended.  For a producer returning an object with type "html"
    and a props mapping whose [children] entry is truthy, the wrapped
    producer applies the attributes and returns that children value; when
    the [children] value is falsy or absent it returns the producer's result,
    the wrapper, instead; for a producer whose result is not an "html"
    wrapper it returns the producer's result unchanged. *)
Theorem wrappedFn_forwards (fn : M value) (w w1 : world) (result : value) :
  fn w = Returned result w1 →
  (∀ r ps c,
     result = VObj r →
     lookup_property r "type" = Some (VStr "html") →
     lookup_property r "props" = Some (VObj ps) →
     lookup_property ps "children" = Some c →
     truthy c = true →
     wrappedFn fn w
     = (forEach (Object_keys (VObj ps)) (apply_attribute (VObj ps));; mret c) w1
     ∧ ∀ v w2, wrappedFn fn w = Returned v w2 → v = c)
  ∧ (∀ r ps,
       result = VObj r →
       lookup_property r "type" = Some (VStr "html") →
       lookup_property r "props" = Some (VObj ps) →
       truthy (get (VObj ps) "children") = false →
       wrappedFn fn w
       = (forEach (Object_keys (VObj ps)) (apply_attribute (VObj ps));; mret result) w1
       ∧ ∀ v w2, wrappedFn fn w = Returned v w2 → v = result)
  ∧ (¬ carries_html_type result → wrappedFn fn w = Returned result w1).
Proof.
  intros E. split; [|split].
  - intros r ps c -> T P C Tc.
    assert (get (VObj ps) "children" = c) as G by (simpl; rewrite C; reflexivity).
    assert (wrappedFn fn w
            = (forEach (Object_keys (VObj ps)) (apply_attribute (VObj ps));; mret c) w1) as R.
    { rewrite (wrappedFn_reflects _ _ _ _ _ E T P), G, Tc. reflexivity. }
    split; [exact R|]. intros v w2. rewrite R, bind_run.
    destruct (forEach _ _ w1); [|discriminate]. intros [= <- _]. reflexivity.
  - intros r ps -> T P Fc.
    assert (wrappedFn fn w
            = (forEach (Object_keys (VObj ps)) (apply_attribute (VObj ps));; mret (VObj r)) w1) as R.
    { rewrite (wrappedFn_reflects _ _ _ _ _ E T P), Fc. reflexivity. }
    split; [exact R|]. intros v w2. rewrite R, bind_run.
    destruct (forEach _ _ w1); [|discriminate]. intros [= <- _]. reflexivity.
  - apply wrappedFn_passes, E.
Qed.

(** C3, as amended.  For a key of the html wrapper's props whose value is
    null or undefined, [hydrateDocument] applies nothing to
    [document.documentElement] for that key: the step of the key issues no
    operation and leaves the world as it is, and the traversal does what it
    does on the props without the key.  The value the attribute of the key
    had, the class attribute for [class] and [className], is left unchanged
    by the call, whether it returns or throws, provided no other key of the
    props writes that attribute ([class] and [className] both write the class
    attribute). *)
Theorem nullish_attribute_not_applied (ps : list (string * value)) (key : string) (v : value) :
  lookup_property ps key = Some v →
  not_nullish v = false →
  reflection key v = None
  ∧ (∀ w, apply_attribute (VObj ps) key w = Returned tt w)
  ∧ (∀ w, forEach (Object_keys (VObj ps)) (apply_attribute (VObj ps)) w
          = forEach (Object_keys (VObj (without key ps)))
              (apply_attribute (VObj (without key ps))) w)
  ∧ (∀ fn w w1 r root n,
       fn w = Returned (VObj r) w1 →
       lookup_property r "type" = Some (VStr "html") →
       lookup_property r "props" = Some (VObj ps) →
       NoDup (map fst ps) →
       html_root w1 root n →
       key_attribute key ∉ map target (reflections ps) →
       getAttribute (final_world (wrappedFn fn w)) (VNode root) (key_attribute key)
       = getAttribute w1 (VNode root) (key_attribute key)).
Proof.
  intros L N.
  assert (not_nullish (get (VObj ps) key) = false) as N'
    by (simpl; rewrite L; exact N).
  split; [|split; [|split]].
  - unfold reflection. destruct (bool_decide _); [reflexivity|].
    destruct v; try discriminate; reflexivity.
  - intros w. apply apply_attribute_nullish, N'.
  - intros w. apply forEach_without, N'.
  - intros fn w w1 r root n E T P D HR F.
    rewrite (wrappedFn_reflects _ _ _ _ _ E T P), final_world_then.
    rewrite (forEach_reflections _ _ D).
    destruct (forEach_perform_prefix (reflections ps) w1 root n HR) as (done & rest & S & ->).
    assert (to_lower (key_attribute key) = key_attribute key) as Lk.
    { unfold key_attribute. destruct (_ || _); [reflexivity|apply to_lower_idemp]. }
    rewrite (getAttribute_root _ _ _ _ _ HR), Lk, foldl_apply_frame.
    + destruct HR as (_ & Ln & K). unfold getAttribute. rewrite Ln. simpl.
      rewrite (html_attribute_name _ _ K), Lk. reflexivity.
    + intros I. apply F. rewrite S, map_app. apply elem_of_app. left. exact I.
Qed.

(** C4.  For a producer whose result is null, undefined, a string, a number
    or any value that is not an object carrying type "html", the wrapped
    producer extracts no attribute, leaves the world, hence every attribute
    of [document.documentElement], as the producer left it, returns the
    result unchanged and does not throw. *)
Theorem wrappedFn_passes_through (fn : M value) (w w1 : world) (result : value) :
  fn w = Returned result w1 →
  result = VNull ∨ result = VUndefined ∨ (∃ s, result = VStr s) ∨ (∃ n, result = VNum n)
    ∨ ¬ carries_html_type result →
  wrappedFn fn w = Returned result w1
  ∧ ∀ el name, getAttribute (final_world (wrappedFn fn w)) el name = getAttribute w1 el name.
Proof.
  intros E C.
  assert (¬ carries_html_type result) as N.
  { intros (r & -> & T).
    destruct C as [C|[C|[[s C]|[[n C]|C]]]]; try discriminate.
    apply C. exists r. split; [reflexivity|exact T]. }
  rewrite (wrappedFn_passes _ _ _ _ E N). split; reflexivity.
Qed.

(** C5.  For every producer and every options argument, [hydrateDocument]
    first enables the hydration mode and then returns exactly what the core
    hydration routine returns when applied to the wrapped producer,
    [document.documentElement] and the options it received; as the core
    routine returns a disposer, what [hydrateDocument] returns is a function
    that can be called, any number of times, without throwing. *)
Theorem hydrateDocument_delegates (fn : M value) (options : value) (w : world) :
  returns_disposer →
  ∃ w0,
    enableHydration w = Returned tt w0
    ∧ hydrationEnabled w0 = true
    ∧ hydrateDocument fn options w
      = hydrateCore (wrappedFn fn) (documentElement w) options w0
    ∧ ∀ d w', hydrateDocument fn options w = Returned d w' →
        typeof d = "function"
        ∧ ∀ w1, ∃ w2, call_value d [] w1 = Returned VUndefined w2.
Proof.
  intros C. exists (with_hydrationEnabled true w).
  split; [reflexivity|]. split; [reflexivity|].
  assert (hydrateDocument fn options w
          = hydrateCore (wrappedFn fn) (documentElement w) options
              (with_hydrationEnabled true w)) as R by reflexivity.
  split; [exact R|].
  intros d w' E. rewrite R in E. destruct (C _ _ _ _ _ _ E) as (f & -> & S).
  split; [reflexivity|exact S].
Qed.

End HydrateDocumentClaims.

(** ** Portal *)

Section PortalFacts.
Context `{H : Host}.

Ltac lookup_inserts :=
  repeat first [ rewrite lookup_insert_eq
               | rewrite lookup_insert_ne by (congruence || lia) ].

Lemma world_eq (w w' : world) :
  documentElement w = documentElement w' → body w = body w' → dom w = dom w' →
  next_ref w = next_ref w' → sigs w = sigs w' →
  hydrationEnabled w = hydrationEnabled w' → context w = context w' →
  listener w = listener w' → owner w = owner w' → owner_user w = owner_user w' →
  disposed w = disposed w' → devcomp w = devcomp w' → calls w = calls w' →
  memos w = memos w' →
  w = w'.
Proof. destruct w, w'. simpl. intros. subst. reflexivity. Qed.

Lemma node_of_node (w : world) (r : nat) (n : node) :
  dom w !! r = Some n → node_of (VNode r) w = Returned (r, n) w.
Proof. intros E. unfold node_of. rewrite E. reflexivity. Qed.

Lemma update_node_at (w : world) (r : nat) (n : node) (f : node → node) :
  dom w !! r = Some n → update_node r f w = Returned tt (with_dom (insert r (f n)) w).
Proof. intros E. unfold update_node, modify, with_dom. rewrite E. reflexivity. Qed.

Lemma createElement_svg (tag : string) (isSVG is_option : value) (w : world) :
  truthy isSVG = true → valid_element_name tag = true →
  createElement tag isSVG is_option w
  = Returned (VNode (next_ref w))
      (with_next_ref (S (next_ref w))
         (with_dom (insert (next_ref w) (new_node (Element SVG_NAMESPACE tag) VUndefined)) w)).
Proof.
  intros T V. unfold createElement, document_createElementNS. rewrite T, V. reflexivity.
Qed.

Lemma createElement_html (tag : string) (isSVG is_option : value) (w : world) :
  truthy isSVG = false → valid_element_name tag = true →
  createElement tag isSVG is_option w
  = Returned (VNode (next_ref w))
      (with_next_ref (S (next_ref w))
         (with_dom (insert (next_ref w)
                      (new_node (Element HTML_NAMESPACE (to_lower tag)) is_option)) w)).
Proof.
  intros T V. unfold createElement, document_createElement. rewrite T, V. reflexivity.
Qed.

Lemma attachShadow_spec (w : world) (c : nat) (n : node) :
  dom w !! c = Some n → c ≠ next_ref w → can_attachShadow n = true →
  attachShadow (VNode c) w
  = Returned (VNode (next_ref w))
      (with_dom (insert c (with_shadowRoot (Some (next_ref w)) n))
         (with_next_ref (S (next_ref w))
            (with_dom (insert (next_ref w) (new_node (ShadowRoot c) VUndefined)) w))).
Proof.
  intros E N C. unfold attachShadow.
  rewrite bind_run, (node_of_node _ _ _ E), C, bind_run. unfold allocate.
  rewrite bind_run, (update_node_at _ _ n).
  - reflexivity.
  - simpl. rewrite lookup_insert_ne by congruence. exact E.
Qed.

Lemma define_host_spec (w : world) (c m : nat) (n : node) :
  dom w !! c = Some n →
  define_host (VNode c) m w = Returned tt (with_dom (insert c (with_host_marker (Some m) n)) w).
Proof.
  intros E. unfold define_host. rewrite bind_run, (node_of_node _ _ _ E).
  apply update_node_at, E.
Qed.

Lemma appendChild_spec (w : world) (t c : nat) (tn cn : node) :
  dom w !! t = Some tn → dom w !! c = Some cn → parentNode cn = None →
  is_ParentNode tn = true → t ≠ c →
  appendChild (VNode t) (VNode c) w
  = Returned tt
      (with_dom (λ d, <[c := with_parentNode (Some t) cn]>
                        (<[t := with_childNodes (λ l, (l ++ [c])%list) tn]> d)) w).
Proof.
  intros T C PN P N. unfold appendChild.
  rewrite bind_run, (node_of_node _ _ _ T), bind_run, (node_of_node _ _ _ C), P.
  rewrite bind_run. unfold modify at 1.
  assert (detach c (dom w) = dom w) as D.
  { unfold detach. rewrite C, PN. reflexivity. }
  rewrite bind_run, (update_node_at _ _ tn).
  2:{ simpl. rewrite D. exact T. }
  rewrite (update_node_at _ _ cn).
  2:{ simpl. rewrite D, lookup_insert_ne by congruence. exact C. }
  unfold with_dom. simpl. rewrite D. reflexivity.
Qed.

Lemma Portal_container_spec (p : props) (st : portal) (content t : nat) (tn : node) (w : world) :
  fresh_refs w → dom w !! t = Some tn → is_ParentNode tn = true →
  let svg := truthy (read p "isSVG" (sigs w)) in
  let shadow := truthy (useShadow st) && attachShadow_available in
  (shadow = true → svg = false) →
  let c := next_ref w in
  let d1 := <[c := container_node svg shadow c t (marker st)]>
              (<[t := with_childNodes (λ l, (l ++ [c])%list) tn]>
                 (if shadow then <[S c := new_node (ShadowRoot c) VUndefined]> (dom w) else dom w)) in
  let w1 := with_call (Insert (VNode (if shadow then S c else c)) (ContentMemo content) VUndefined None)
              (with_next_ref (if shadow then S (S c) else S c) (with_dom (λ _, d1) w)) in
  Portal_container p st content (VNode t) w
  = (Portal_ref p (VNode c);; register (OnCleanup (RemoveContainer (VNode t) (VNode c)))) w1.
Proof.
  intros F T P svg shadow SS c d1 w1.
  assert (t ≠ c) as Ntc.
  { intros ->. rewrite F in T; [discriminate|]. unfold c. lia. }
  assert (t ≠ S c) as Ntc'.
  { intros ->. rewrite F in T; [discriminate|]. unfold c. lia. }
  unfold Portal_container.
  rewrite bind_run. unfold reads at 1, gets at 1.
  rewrite bind_run. unfold reads at 1, gets at 1.
  fold svg shadow.
  destruct shadow eqn:Es.
  - assert (truthy (read p "isSVG" (sigs w)) = false) as Esvg by (apply SS; reflexivity).
    subst svg. clear SS. rewrite Esvg in *.
    rewrite bind_run, createElement_html; [|exact Esvg|apply valid_div].
    fold c. change (to_lower "div") with "div".
    rewrite bind_run, (attachShadow_spec _ c (new_node (Element HTML_NAMESPACE "div") VUndefined)).
    2:{ simpl. apply lookup_insert_eq. }
    2:{ simpl. lia. }
    2:{ reflexivity. }
    rewrite bind_run, (define_host_spec _ c _ (with_shadowRoot (Some (S c)) (new_node (Element HTML_NAMESPACE "div") VUndefined))).
    2:{ simpl. apply lookup_insert_eq. }
    rewrite bind_run. unfold register at 1, modify at 1.
    rewrite bind_run, (appendChild_spec _ t c tn
       (with_host_marker (Some (marker st)) (with_shadowRoot (Some (S c)) (new_node (Element HTML_NAMESPACE "div") VUndefined)))); try assumption.
    2:{ simpl. rewrite !lookup_insert_ne by congruence. exact T. }
    2:{ simpl. apply lookup_insert_eq. }
    2:{ reflexivity. }
    match goal with |- ?f ?a = ?f ?b => assert (a = b) as ->; [|reflexivity] end.
    apply world_eq; try reflexivity.
    unfold w1, d1. cbn [dom with_call with_dom with_next_ref next_ref]. rewrite ?Esvg.
    apply map_eq. intros i.
    destruct (decide (i = c)) as [->|Nc]; [lookup_inserts; reflexivity|].
    destruct (decide (i = t)) as [->|Nt]; [lookup_inserts; reflexivity|].
    destruct (decide (i = S c)) as [->|Ns]; lookup_inserts; reflexivity.
  - clear SS. subst svg.
    destruct (truthy (read p "isSVG" (sigs w))) eqn:Esvg.
    + rewrite bind_run, createElement_svg; [|exact Esvg|apply valid_g].
      fold c. rewrite bind_run. unfold mret at 1, M_ret at 1.
      rewrite bind_run, (define_host_spec _ c _ (new_node (Element SVG_NAMESPACE "g") VUndefined)).
      2:{ simpl. apply lookup_insert_eq. }
      rewrite bind_run. unfold register at 1, modify at 1.
      rewrite bind_run, (appendChild_spec _ t c tn
         (with_host_marker (Some (marker st)) (new_node (Element SVG_NAMESPACE "g") VUndefined)));
        try assumption.
      2:{ simpl. rewrite !lookup_insert_ne by congruence. exact T. }
      2:{ simpl. apply lookup_insert_eq. }
      2:{ reflexivity. }
      match goal with |- ?f ?a = ?f ?b => assert (a = b) as ->; [|reflexivity] end.
      apply world_eq; try reflexivity.
      unfold w1, d1. cbn [dom with_call with_dom with_next_ref next_ref]. rewrite ?Esvg.
      apply map_eq. intros i.
      destruct (decide (i = c)) as [->|Nc]; [lookup_inserts; reflexivity|].
      destruct (decide (i = t)) as [->|Nt]; [lookup_inserts; reflexivity|].
      destruct (decide (i = S c)) as [->|Ns]; lookup_inserts; reflexivity.
    + rewrite bind_run, createElement_html; [|exact Esvg|apply valid_div].
      fold c. change (to_lower "div") with "div".
      rewrite bind_run. unfold mret at 1, M_ret at 1.
      rewrite bind_run, (define_host_spec _ c _ (new_node (Element HTML_NAMESPACE "div") VUndefined)).
      2:{ simpl. apply lookup_insert_eq. }
      rewrite bind_run. unfold register at 1, modify at 1.
      rewrite bind_run, (appendChild_spec _ t c tn
         (with_host_marker (Some (marker st)) (new_node (Element HTML_NAMESPACE "div") VUndefined)));
        try assumption.
      2:{ simpl. rewrite !lookup_insert_ne by congruence. exact T. }
      2:{ simpl. apply lookup_insert_eq. }
      2:{ reflexivity. }
      match goal with |- ?f ?a = ?f ?b => assert (a = b) as ->; [|reflexivity] end.
      apply world_eq; try reflexivity.
      unfold w1, d1. cbn [dom with_call with_dom with_next_ref next_ref]. rewrite ?Esvg.
      apply map_eq. intros i.
      destruct (decide (i = c)) as [->|Nc]; [lookup_inserts; reflexivity|].
      destruct (decide (i = t)) as [->|Nt]; [lookup_inserts; reflexivity|].
      destruct (decide (i = S c)) as [->|Ns]; lookup_inserts; reflexivity.
Qed.

(** The document attaches no shadow root to the [g] of the SVG namespace:
    a portal with [isSVG] and [useShadow] throws when [attachShadow] is
    available, after the container was created and before it is appended. *)
Lemma Portal_container_svg_shadow (p : props) (st : portal) (cm : nat) (el : value) (w : world) :
  truthy (read p "isSVG" (sigs w)) = true →
  truthy (useShadow st) && attachShadow_available = true →
  Portal_container p st cm el w
  = Thrown NotSupportedError
      (with_next_ref (S (next_ref w))
         (with_dom (insert (next_ref w) (new_node (Element SVG_NAMESPACE "g") VUndefined)) w)).
Proof.
  intros V S. unfold Portal_container.
  rewrite bind_run. unfold reads at 1, gets at 1.
  rewrite bind_run. unfold reads at 1, gets at 1.
  rewrite V, bind_run, createElement_svg; [|exact V|apply valid_g].
  rewrite S, bind_run. unfold attachShadow.
  rewrite bind_run, (node_of_node _ _ (new_node (Element SVG_NAMESPACE "g") VUndefined)).
  - reflexivity.
  - cbn [dom with_next_ref with_dom]. apply lookup_insert_eq.
Qed.

Lemma removeChild_spec (w : world) (t c : nat) (tn cn : node) :
  dom w !! t = Some tn → dom w !! c = Some cn → parentNode cn = Some t →
  removeChild (VNode t) (VNode c) w
  = Returned tt
      (with_dom (λ d, <[c := with_parentNode None cn]>
                        (<[t := with_childNodes (filter (λ x, x ≠ c)) tn]> d)) w).
Proof.
  intros T C PN. unfold removeChild.
  rewrite bind_run, (node_of_node _ _ _ T), bind_run, (node_of_node _ _ _ C), PN.
  rewrite bool_decide_eq_true_2 by reflexivity.
  unfold modify, with_dom, detach. rewrite C, PN, T. reflexivity.
Qed.

Lemma Portal_head_spec (content : nat) (el : value) (w : world) :
  let clean := next_ref w in
  let root := S (next_ref w) in
  Portal_head content el w
  = Returned tt
      (with_call (OnCleanup (SetClean clean))
         (with_call (Insert el (HeadChildren clean content root) VNull (Some root))
            (with_call (CreateRoot root)
               (with_next_ref (S root)
                  (with_sigs (insert clean (VBool false)) w))))).
Proof. reflexivity. Qed.

Lemma HeadChildren_renders (p : props) (clean content root : nat) (w : world) :
  sigs w !! clean = Some (VBool false) →
  run_thunk p (HeadChildren clean content root) w = Returned (read p "children" (sigs w)) w.
Proof.
  intros E. unfold run_thunk, signal_get. rewrite bind_run. unfold gets at 1.
  rewrite E. reflexivity.
Qed.

Lemma HeadChildren_disposes (p : props) (clean content root : nat) (w : world) :
  sigs w !! clean = Some (VBool true) →
  run_thunk p (HeadChildren clean content root) w
  = Returned VUndefined (with_disposed (union {[root]}) w).
Proof.
  intros E. unfold run_thunk, signal_get. rewrite bind_run. unfold gets at 1.
  rewrite E. reflexivity.
Qed.

Lemma SetClean_sets (p : props) (clean : nat) (w : world) :
  run_thunk p (SetClean clean) w
  = Returned (VBool true) (with_sigs (insert clean (VBool true)) w).
Proof. reflexivity. Qed.

(** The world after the prologue of the effect. *)
Lemma Portal_prologue_spec (st : portal) (w : world) :
  (hydrating st = true → is_Some (owner w)) →
  ∃ cm w0,
    Portal_prologue st w = Returned cm w0
    ∧ dom w0 = dom w ∧ sigs w0 = sigs w ∧ body w0 = body w
    ∧ (next_ref w ≤ next_ref w0)%nat
    ∧ (∀ c, content st = Some c → cm = c)
    ∧ calls w0 = (calls w ++ match content st with
                              | Some _ => []
                              | None => [CreateMemo (next_ref w) (portal_owner st)]
                              end)%list.
Proof.
  intros O. unfold Portal_prologue. rewrite bind_run.
  assert (∃ wa, (if hydrating st then o ← getOwner; set_user o false else mret tt) w
                = Returned tt wa
                ∧ dom wa = dom w ∧ sigs wa = sigs w ∧ body wa = body w
                ∧ next_ref wa = next_ref w ∧ calls wa = calls w) as (wa & -> & D & S & B & N & C).
  { destruct (hydrating st).
    - destruct O as [o O]; [reflexivity|].
      rewrite bind_run. unfold getOwner, gets. rewrite O. simpl.
      eexists. split; [reflexivity|]. repeat split.
    - exists w. repeat split. }
  destruct (content st) as [c|].
  - exists c, wa. split; [reflexivity|]. repeat split; try assumption; try lia.
    + intros c' [= <-]. reflexivity.
    + rewrite app_nil_r. exact C.
  - eexists _, _. split; [reflexivity|]. simpl. repeat split; try assumption; try lia.
    + intros c' [=].
    + rewrite C, N. reflexivity.
Qed.


Lemma reads_ext (p p' : props) (k : string) (w : world) :
  (∀ s, read p' k s = read p k s) → reads p' k w = reads p k w.
Proof. intros E. unfold reads, gets. rewrite E. reflexivity. Qed.







(** The branch of the effect for a target that is no head element, up to
    the call of [appendChild]: the container is created, with its shadow
    root when it has one, and the children are inserted. *)
Lemma Portal_container_created (p : props) (st : portal) (cm : nat) (el : value) (w : world) :
  let svg := truthy (read p "isSVG" (sigs w)) in
  let shadow := truthy (useShadow st) && attachShadow_available in
  (shadow = true → svg = false) →
  let c := next_ref w in
  let d1 := <[c := with_parentNode None (container_node svg shadow c c (marker st))]>
              (if shadow then <[S c := new_node (ShadowRoot c) VUndefined]> (dom w) else dom w) in
  let w1 := with_call (Insert (VNode (if shadow then S c else c)) (ContentMemo cm) VUndefined None)
              (with_next_ref (if shadow then S (S c) else S c) (with_dom (λ _, d1) w)) in
  Portal_container p st cm el w
  = (appendChild el (VNode c);; Portal_ref p (VNode c);;
     register (OnCleanup (RemoveContainer el (VNode c)))) w1.
Proof.
  intros svg shadow SS c d1 w1.
  unfold Portal_container.
  rewrite bind_run. unfold reads at 1, gets at 1.
  rewrite bind_run. unfold reads at 1, gets at 1.
  fold svg shadow.
  destruct shadow eqn:Es.
  - assert (truthy (read p "isSVG" (sigs w)) = false) as Esvg by (apply SS; reflexivity).
    subst svg. clear SS. rewrite Esvg in *.
    rewrite bind_run, createElement_html; [|exact Esvg|apply valid_div].
    fold c. change (to_lower "div") with "div".
    rewrite bind_run, (attachShadow_spec _ c (new_node (Element HTML_NAMESPACE "div") VUndefined)).
    2:{ cbn [dom with_next_ref with_dom]. apply lookup_insert_eq. }
    2:{ cbn [next_ref with_next_ref]. lia. }
    2:{ reflexivity. }
    rewrite bind_run,
      (define_host_spec _ c _
         (with_shadowRoot (Some (S c)) (new_node (Element HTML_NAMESPACE "div") VUndefined))).
    2:{ cbn [dom with_next_ref with_dom next_ref]. apply lookup_insert_eq. }
    rewrite bind_run. unfold register at 1, modify at 1.
    match goal with |- ?f ?a = ?f ?b => assert (a = b) as ->; [|reflexivity] end.
    apply world_eq; try reflexivity.
    unfold w1, d1. cbn [dom with_call with_dom with_next_ref next_ref]. rewrite ?Esvg.
    apply map_eq. intros i.
    destruct (decide (i = c)) as [->|Nc]; [lookup_inserts; reflexivity|].
    destruct (decide (i = S c)) as [->|Ns]; lookup_inserts; reflexivity.
  - clear SS. subst svg.
    destruct (truthy (read p "isSVG" (sigs w))) eqn:Esvg.
    + rewrite bind_run, createElement_svg; [|exact Esvg|apply valid_g].
      fold c. rewrite bind_run. unfold mret at 1, M_ret at 1.
      rewrite bind_run, (define_host_spec _ c _ (new_node (Element SVG_NAMESPACE "g") VUndefined)).
      2:{ cbn [dom with_next_ref with_dom]. apply lookup_insert_eq. }
      rewrite bind_run. unfold register at 1, modify at 1.
      match goal with |- ?f ?a = ?f ?b => assert (a = b) as ->; [|reflexivity] end.
      apply world_eq; try reflexivity.
      unfold w1, d1. cbn [dom with_call with_dom with_next_ref next_ref]. rewrite ?Esvg.
      apply map_eq. intros i.
      destruct (decide (i = c)) as [->|Nc]; lookup_inserts; reflexivity.
    + rewrite bind_run, createElement_html; [|exact Esvg|apply valid_div].
      fold c. change (to_lower "div") with "div".
      rewrite bind_run. unfold mret at 1, M_ret at 1.
      rewrite bind_run, (define_host_spec _ c _ (new_node (Element HTML_NAMESPACE "div") VUndefined)).
      2:{ cbn [dom with_next_ref with_dom]. apply lookup_insert_eq. }
      rewrite bind_run. unfold register at 1, modify at 1.
      match goal with |- ?f ?a = ?f ?b => assert (a = b) as ->; [|reflexivity] end.
      apply world_eq; try reflexivity.
      unfold w1, d1. cbn [dom with_call with_dom with_next_ref next_ref]. rewrite ?Esvg.
      apply map_eq. intros i.
      destruct (decide (i = c)) as [->|Nc]; lookup_inserts; reflexivity.
Qed.

(** A target that cannot have children refuses the container. *)
Lemma appendChild_refused (w : world) (t c : nat) (tn cn : node) :
  dom w !! t = Some tn → dom w !! c = Some cn → is_ParentNode tn = false →
  appendChild (VNode t) (VNode c) w = Thrown HierarchyRequestError w.
Proof.
  intros T C P. unfold appendChild.
  rewrite bind_run, (node_of_node _ _ _ T), bind_run, (node_of_node _ _ _ C), P.
  reflexivity.
Qed.

(** C6, as amended.  The mount target of a portal defaults to
    [document.body] when [props.mount] is not supplied.  When the target is
    a head element the children are inserted into the head itself, with no
    wrapper, under a fresh root, and the registered cleanup sets a signal on
    which the inserted accessor disposes that root and yields nothing.  For
    any other target a container is created, a [div], or a [g] of the SVG
    namespace when [props.isSVG] is set.  When [useShadow] is set and
    [attachShadow] is available, a shadow root is attached to a [div] and
    the children are inserted into it, while for a [g] the run throws a
    NotSupportedError with the [g] left detached and nothing inserted;
    otherwise the children are inserted into the container.  For a target
    that can have children the container is then appended to it, as its last
    child, and the registered cleanup removes it from the target; a target
    that cannot have children makes the run throw a HierarchyRequestError
    after the insertion, the container being left without a parent and no
    cleanup registered. *)
Theorem Portal_effect_mounts (p : props) (st : portal) (w : world) :
  fresh_refs w →
  (hydrating st = true → is_Some (owner w)) →
  (find_getter p "mount" = None → mount_target p w = body w)
  ∧ (truthy (read p "mount" (sigs w)) = true → mount_target p w = read p "mount" (sigs w))
  ∧ ∃ children_memo w0,
      Portal_prologue st w = Returned children_memo w0
      ∧ dom w0 = dom w
      ∧ mount p w0 = Returned (mount_target p w) w0
      ∧ (∀ t tn,
           mount_target p w = VNode t → dom w !! t = Some tn →
           is_HTMLHeadElement tn = true →
           ∃ clean root w',
             Portal_effect p st w = Returned (rendered_portal st children_memo) w'
             ∧ calls w' = (calls w0 ++
                            [CreateRoot root;
                             Insert (VNode t) (HeadChildren clean children_memo root) VNull (Some root);
                             OnCleanup (SetClean clean)])%list
             ∧ run_thunk p (HeadChildren clean children_memo root) w'
               = Returned (read p "children" (sigs w')) w'
             ∧ ∀ w2, ∃ w3 w4,
                 run_thunk p (SetClean clean) w2 = Returned (VBool true) w3
                 ∧ run_thunk p (HeadChildren clean children_memo root) w3 = Returned VUndefined w4
                 ∧ root ∈ disposed w4)
      ∧ (∀ t tn,
           mount_target p w = VNode t → dom w !! t = Some tn →
           is_HTMLHeadElement tn = false →
           let svg := truthy (read p "isSVG" (sigs w)) in
           let shadow := truthy (useShadow st) && attachShadow_available in
           let c := next_ref w0 in
           let removal := RemoveContainer (VNode t) (VNode c) in
           (svg = true → shadow = true →
            ∃ w1,
              Portal_effect p st w = Thrown NotSupportedError w1
              ∧ dom w1 !! c = Some (new_node (Element SVG_NAMESPACE "g") VUndefined)
              ∧ dom w1 !! t = Some tn
              ∧ calls w1 = calls w0)
           ∧ ((shadow = true → svg = false) → is_ParentNode tn = false →
              ∃ w1 cn,
                Portal_effect p st w = Thrown HierarchyRequestError w1
                ∧ dom w1 !! c = Some cn ∧ parentNode cn = None
                ∧ calls w1 = (calls w0 ++
                               [Insert (VNode (if shadow then S c else c))
                                  (ContentMemo children_memo) VUndefined None])%list)
           ∧ ((shadow = true → svg = false) → is_ParentNode tn = true →
              ∃ w1 cn tn1,
                Portal_effect p st w
                = (Portal_ref p (VNode c);; register (OnCleanup removal);;
                   mret (rendered_portal st children_memo)) w1
                ∧ dom w1 !! c = Some cn
                ∧ kind cn = (if svg then Element SVG_NAMESPACE "g"
                             else Element HTML_NAMESPACE "div")
                ∧ shadowRoot cn = (if shadow then Some (S c) else None)
                ∧ (shadow = true → kind <$> dom w1 !! S c = Some (ShadowRoot c))
                ∧ host_marker cn = Some (marker st)
                ∧ parentNode cn = Some t
                ∧ dom w1 !! t = Some tn1 ∧ last (childNodes tn1) = Some c
                ∧ calls w1 = (calls w0 ++
                               [Insert (VNode (if shadow then S c else c))
                                  (ContentMemo children_memo) VUndefined None])%list
                ∧ run_thunk p (ContentMemo children_memo) w1
                  = Returned (read p "children" (sigs w1)) w1
                ∧ (truthy (read p "ref" (sigs w)) = false →
                   Portal_effect p st w
                   = Returned (rendered_portal st children_memo)
                       (with_call (OnCleanup removal) w1))
                ∧ ∀ w2 tn2 cn2,
                    dom w2 !! t = Some tn2 → dom w2 !! c = Some cn2 → parentNode cn2 = Some t →
                    ∃ w3 tn3 cn3,
                      run_thunk p removal w2 = Returned (VNode c) w3
                      ∧ dom w3 !! t = Some tn3 ∧ (c ∉ childNodes tn3)
                      ∧ dom w3 !! c = Some cn3 ∧ parentNode cn3 = None)).
Proof.
  intros F O. split.
  { intros N. unfold mount_target, read. rewrite N. reflexivity. }
  split.
  { intros T. unfold mount_target. rewrite T. reflexivity. }
  destruct (Portal_prologue_spec st w O) as (cm & w0 & EP & D & Sg & B & NR & _ & C).
  exists cm, w0. split; [exact EP|]. split; [exact D|].
  assert (mount p w0 = Returned (mount_target p w) w0) as EM.
  { unfold mount, mount_target. rewrite bind_run. unfold reads at 1, gets at 1.
    rewrite Sg. destruct (truthy _); [reflexivity|].
    unfold gets. rewrite B. reflexivity. }
  split; [exact EM|]. split.
  - intros t tn Et Tn Hd.
    assert (instanceof_HTMLHeadElement (mount_target p w) w0 = Returned true w0) as EI.
    { unfold instanceof_HTMLHeadElement. rewrite Et, D, Tn, Hd. reflexivity. }
    exists (next_ref w0), (S (next_ref w0)).
    eexists. split.
    { unfold Portal_effect. rewrite bind_run, EP, bind_run, EM, bind_run, EI, Et.
      rewrite bind_run, Portal_head_spec. reflexivity. }
    split; [cbn [calls with_call with_next_ref with_sigs]; rewrite <- !app_assoc; reflexivity|].
    split.
    { apply HeadChildren_renders. simpl. apply lookup_insert_eq. }
    intros w2. eexists _, _. split; [apply SetClean_sets|]. split.
    + apply HeadChildren_disposes. simpl. apply lookup_insert_eq.
    + simpl. set_solver.
  - intros t tn Et Tn Hd svg shadow c removal.
    assert (instanceof_HTMLHeadElement (mount_target p w) w0 = Returned false w0) as EI.
    { unfold instanceof_HTMLHeadElement. rewrite Et, D, Tn, Hd. reflexivity. }
    assert (Portal_effect p st w
            = (Portal_container p st cm (VNode t);; mret (rendered_portal st cm)) w0) as EC.
    { unfold Portal_effect. rewrite bind_run, EP, bind_run, EM, bind_run, EI, Et.
      reflexivity. }
    assert (fresh_refs w0) as F0.
    { intros r L. rewrite D. apply F. lia. }
    assert (dom w0 !! t = Some tn) as Tn0 by (rewrite D; exact Tn).
    assert (t ≠ c) as Ntc.
    { intros ->. rewrite F0 in Tn0; [discriminate|]. unfold c. lia. }
    assert (t ≠ S c) as Ntc'.
    { intros ->. rewrite F0 in Tn0; [discriminate|]. unfold c. lia. }
    split; [|split].
    + intros V S. eexists. split.
      { rewrite EC, bind_run, Portal_container_svg_shadow; [reflexivity| |exact S].
        rewrite Sg. exact V. }
      cbn [dom calls with_next_ref with_dom]. fold c.
      split; [apply lookup_insert_eq|].
      split; [rewrite lookup_insert_ne by congruence; exact Tn0|reflexivity].
    + intros SS Pn.
      pose proof (Portal_container_created p st cm (VNode t) w0) as PC.
      cbv zeta in PC. rewrite Sg in PC. specialize (PC SS).
      fold svg shadow c in PC.
      match type of PC with _ = _ ?w1 => exists w1 end.
      eexists. split.
      { rewrite EC, bind_run, PC, bind_run.
        rewrite (appendChild_refused _ t c tn
                   (with_parentNode None (container_node svg shadow c c (marker st)))).
        - reflexivity.
        - cbn [dom with_call with_next_ref with_dom].
          rewrite lookup_insert_ne by congruence.
          destruct shadow; [rewrite lookup_insert_ne by congruence|]; exact Tn0.
        - cbn [dom with_call with_next_ref with_dom]. apply lookup_insert_eq.
        - exact Pn. }
      cbn [dom calls with_call with_next_ref with_dom].
      split; [apply lookup_insert_eq|]. split; reflexivity.
    + intros SS Pn.
      pose proof (Portal_container_spec p st cm t tn w0 F0 Tn0 Pn) as PC.
      cbv zeta in PC. rewrite Sg in PC. specialize (PC SS).
      fold svg shadow c in PC.
      match type of PC with _ = _ ?w1 => exists w1 end.
      eexists _, _. split.
      { rewrite EC, bind_run, PC, !bind_run.
        destruct (Portal_ref p (VNode c) _); reflexivity. }
      cbn [dom calls sigs with_call with_next_ref with_dom].
      split; [apply lookup_insert_eq|].
      split; [reflexivity|]. split; [reflexivity|].
      split.
      { intros ->. rewrite (lookup_insert_ne _ c) by lia.
        rewrite (lookup_insert_ne _ t) by congruence. rewrite lookup_insert_eq. reflexivity. }
      split; [reflexivity|]. split; [reflexivity|].
      split; [rewrite lookup_insert_ne by congruence; apply lookup_insert_eq|].
      split; [cbn [childNodes with_childNodes]; apply last_snoc|].
      split; [reflexivity|]. split; [reflexivity|]. split.
      { intros R. rewrite EC, bind_run, PC, !bind_run. unfold Portal_ref.
        rewrite bind_run. unfold reads at 1, gets at 1. cbn [sigs with_call with_next_ref with_dom].
        rewrite Sg, R. reflexivity. }
      intros w2 tn2 cn2 T2 C2 P2.
      eexists _, _, _. split.
      { unfold removal, run_thunk. rewrite bind_run, (removeChild_spec _ _ _ _ _ T2 C2 P2).
        reflexivity. }
      cbn [dom with_dom].
      split; [rewrite lookup_insert_ne by congruence; apply lookup_insert_eq|].
      split.
      { cbn [childNodes with_childNodes]. intros I.
        apply list_elem_of_filter in I as [I _]. apply I. reflexivity. }
      split; [apply lookup_insert_eq|reflexivity].
Qed.


End PortalFacts.

(** ** createDynamic and Dynamic *)

Section DynamicFacts.
Context `{H : Host}.


Lemma with_listener_restore (w : world) (b : bool) :
  with_listener (listener w) (with_listener b w) = w.
Proof. destruct w. reflexivity. Qed.

Lemma dynamic_render_function (f : nat) (p : props) (w : world) :
  dynamic_render (VFun f) p w
  = let w1 := if isDev then with_devcomp (union {[f]}) w else w in
    match call f [ArgProps p] (with_listener false w1) with
    | Returned a w' => Returned a (with_listener (listener w) w')
    | Thrown e w' => Thrown e (with_listener (listener w) w')
    end.
Proof. unfold dynamic_render. destruct isDev; reflexivity. Qed.

Lemma dynamic_render_created (tag : string) (p : props) (w : world) :
  truthy (context w) = false → valid_element_name tag = true →
  let svg := bool_decide (tag ∈ SVGElements) in
  let c := next_ref w in
  let element :=
    if svg then new_node (Element SVG_NAMESPACE tag) VUndefined
    else new_node (Element HTML_NAMESPACE (to_lower tag)) (read p "is" (sigs w)) in
  dynamic_render (VStr tag) p w
  = Returned (VNode c)
      (with_call (Spread (VNode c) p svg)
         (with_next_ref (S c) (with_dom (insert c element) w))).
Proof.
  intros C V svg c element. unfold dynamic_render. fold svg.
  rewrite bind_run. unfold sharedConfig_context, gets at 1. rewrite C.
  rewrite bind_run, bind_run. unfold untrack, reads, gets.
  cbn [sigs with_listener]. rewrite with_listener_restore.
  unfold element. destruct svg.
  - rewrite createElement_svg by (reflexivity || exact V). reflexivity.
  - rewrite createElement_html by (reflexivity || exact V). reflexivity.
Qed.

Lemma dynamic_render_adopted (tag : string) (p : props) (w : world) :
  truthy (context w) = true →
  let svg := bool_decide (tag ∈ SVGElements) in
  dynamic_render (VStr tag) p w
  = (el ← getNextElement; register (Spread el p svg);; mret el) w.
Proof.
  intros C svg. unfold dynamic_render. fold svg.
  rewrite bind_run. unfold sharedConfig_context, gets at 1. rewrite C. reflexivity.
Qed.

(** A tag name the document refuses makes the creation throw. *)
Lemma dynamic_render_refused (tag : string) (p : props) (w : world) :
  truthy (context w) = false → valid_element_name tag = false →
  dynamic_render (VStr tag) p w = Thrown InvalidCharacterError w.
Proof.
  intros C V. unfold dynamic_render.
  rewrite bind_run. unfold sharedConfig_context, gets at 1. rewrite C.
  rewrite bind_run, bind_run. unfold untrack, reads, gets.
  cbn [sigs with_listener]. rewrite with_listener_restore.
  unfold createElement, document_createElementNS, document_createElement.
  rewrite V. destruct (bool_decide (tag ∈ SVGElements)); reflexivity.
Qed.

Lemma dynamic_render_other (v : value) (p : props) (w : world) :
  typeof v ≠ "function" → typeof v ≠ "string" →
  dynamic_render v p w = Returned VUndefined w.
Proof. intros F S. destruct v; try reflexivity; simpl in *; congruence. Qed.

Lemma createDynamic_spec (component : getter) (p : props) (w : world) :
  let w0 := with_memos (insert (S (next_ref w)) (Output (next_ref w) p))
              (with_call (CreateMemo (S (next_ref w)) (owner w))
                 (with_next_ref (S (S (next_ref w)))
                    (with_memos (insert (next_ref w) (Selector component))
                       (with_call (CreateMemo (next_ref w) (owner w)) w)))) in
  createDynamic component p w
  = (out ← dynamic_render (component (sigs w)) p;
     mret {| cached_memo := next_ref w; cached := component (sigs w);
             memo := S (next_ref w); rendered := out |}) w0.
Proof.
  intros w0. unfold createDynamic.
  rewrite bind_run. unfold createMemo at 1. rewrite bind_run. unfold getOwner at 1, gets at 1.
  rewrite bind_run. unfold fresh at 1. rewrite bind_run. unfold register at 1, modify at 1.
  unfold mret at 1, M_ret at 1.
  rewrite bind_run. unfold remember at 1, modify at 1.
  rewrite bind_run. unfold evaluate at 1, gets at 1.
  cbn [sigs owner next_ref with_call with_next_ref with_memos].
  rewrite bind_run. unfold createMemo at 1. rewrite bind_run. unfold getOwner at 1, gets at 1.
  rewrite bind_run. unfold fresh at 1. rewrite bind_run. unfold register at 1, modify at 1.
  unfold mret at 1, M_ret at 1.
  rewrite bind_run. unfold remember at 1, modify at 1.
  cbn [sigs owner next_ref with_call with_next_ref with_memos].
  unfold evaluate. rewrite lookup_singleton_eq. reflexivity.
Qed.

Lemma dynamic_update_same (component : getter) (p : props) (d : dynamic) (w : world) :
  memo_changed (cached d) (component (sigs w)) = false →
  dynamic_update component p d w = Returned d w.
Proof.
  intros E. unfold dynamic_update. rewrite bind_run. unfold gets at 1. rewrite E.
  reflexivity.
Qed.

Lemma dynamic_update_changed (component : getter) (p : props) (d : dynamic) (w : world) :
  memo_changed (cached d) (component (sigs w)) = true →
  dynamic_update component p d w
  = (out ← dynamic_render (component (sigs w)) p;
     mret {| cached_memo := cached_memo d; cached := component (sigs w);
             memo := memo d; rendered := out |}) w.
Proof.
  intros E. unfold dynamic_update. rewrite bind_run. unfold gets at 1. rewrite E.
  reflexivity.
Qed.


(** The runtime bringing the two memos of [createDynamic] up to date. *)
Lemma update_memos_same (component : getter) (p : props) (d : dynamic) (w : world) :
  memos w !! cached_memo d = Some (Selector component) →
  memos w !! memo d = Some (Output (cached_memo d) p) →
  memo_changed (cached d) (component (sigs w)) = false →
  update_memos [cached_memo d; memo d] (memo_values d, ∅) w
  = Returned (memo_values d, ∅) w.
Proof.
  intros Ms Mo E. unfold update_memos.
  rewrite bind_run. unfold update_memo at 1. rewrite bind_run. unfold gets at 1.
  rewrite Ms. cbn [stale fst snd]. rewrite bind_run. unfold evaluate at 1, gets at 1.
  unfold memo_values at 1. rewrite lookup_insert_eq. cbn [from_option id]. rewrite E.
  unfold mret at 1, M_ret at 1.
  rewrite bind_run. unfold update_memo. rewrite bind_run. unfold gets at 1.
  rewrite Mo. cbn [stale fst snd].
  rewrite bool_decide_eq_false_2 by set_solver. reflexivity.
Qed.

Lemma update_memos_changed (component : getter) (p : props) (d : dynamic) (w : world) :
  memos w !! cached_memo d = Some (Selector component) →
  memos w !! memo d = Some (Output (cached_memo d) p) →
  memo_changed (cached d) (component (sigs w)) = true →
  update_memos [cached_memo d; memo d] (memo_values d, ∅) w
  = (out ← dynamic_render (component (sigs w)) p;
     mret (if memo_changed (rendered d) out
           then (<[memo d := out]> (<[cached_memo d := component (sigs w)]> (memo_values d)),
                 {[memo d]} ∪ ({[cached_memo d]} ∪ ∅))
           else (<[cached_memo d := component (sigs w)]> (memo_values d),
                 {[cached_memo d]} ∪ ∅))) w.
Proof.
  intros Ms Mo E.
  assert (cached_memo d ≠ memo d) as N by (intros K; rewrite K in Ms; congruence).
  unfold update_memos.
  rewrite bind_run. unfold update_memo at 1. rewrite bind_run. unfold gets at 1.
  rewrite Ms. cbn [stale fst snd]. rewrite bind_run. unfold evaluate at 1, gets at 1.
  unfold memo_values at 1. rewrite lookup_insert_eq. cbn [from_option id]. rewrite E.
  unfold mret at 1, M_ret at 1.
  rewrite bind_run. unfold update_memo. rewrite bind_run. unfold gets at 1.
  rewrite Mo. cbn [stale fst snd].
  rewrite bool_decide_eq_true_2 by set_solver.
  unfold evaluate. rewrite lookup_insert_eq. cbn [from_option id].
  rewrite !bind_run. destruct (dynamic_render (component (sigs w)) p w) as [out w'|e w']; [|reflexivity].
  rewrite lookup_insert_ne by exact N. unfold memo_values at 1.
  rewrite lookup_insert_ne by exact N. rewrite lookup_singleton_eq. cbn [from_option id].
  destruct (memo_changed (rendered d) out); reflexivity.
Qed.

Lemma find_getter_others (p : props) (k : string) :
  k ≠ "component" →
  find_getter (splitProps p ["component"]).2 k = find_getter p k.
Proof.
  intros N. unfold splitProps. cbn [snd].
  induction p as [|[k' g] p IH]; [reflexivity|].
  rewrite filter_cons. cbn [fst]. destruct (decide (k' ∉ ["component"])) as [D|D].
  - cbn [find_getter]. rewrite IH. reflexivity.
  - apply dec_stable in D. apply list_elem_of_singleton in D. subst k'.
    cbn [find_getter]. destruct (String.eqb_spec "component" k) as [E|_]; [congruence|].
    exact IH.
Qed.

Lemma find_getter_component (p : props) :
  find_getter (splitProps p ["component"]).2 "component" = None.
Proof.
  unfold splitProps. cbn [snd].
  induction p as [|[k' g] p IH]; [reflexivity|].
  rewrite filter_cons. cbn [fst]. destruct (decide (k' ∉ ["component"])) as [D|D]; [|exact IH].
  cbn [find_getter]. destruct (String.eqb_spec k' "component") as [->|_]; [|exact IH].
  exfalso. apply D. apply list_elem_of_singleton. reflexivity.
Qed.

(** C7.  [createDynamic] creates two memos and hands their functions to
    the runtime: the memo of the selector, which is evaluated at once and
    whose value is kept, and the returned memo, whose function computes the
    output from the value of the first.  When the runtime brings the two
    memos up to date, the output is not computed again while the selector
    yields the value kept, and it is computed again, from the new value, when
    the selector yields another one.  A function is called with the supplied
    props with no listener, the listener being restored afterwards, and its
    result is the output.  For a string, with no hydration context an element
    of that tag name is created, in the SVG namespace exactly when the tag is
    in [SVGElements], the props are spread onto it and it is the output, a
    name the document refuses being an InvalidCharacterError; with a
    hydration context the element is the next one of the existing markup. *)
Theorem createDynamic_renders (component : getter) (p : props) :
  (∀ w,
     let cm := next_ref w in
     let m := S (next_ref w) in
     let w0 := with_memos (insert m (Output cm p))
                 (with_call (CreateMemo m (owner w))
                    (with_next_ref (S m)
                       (with_memos (insert cm (Selector component))
                          (with_call (CreateMemo cm (owner w)) w)))) in
     createDynamic component p w
     = (out ← dynamic_render (component (sigs w)) p;
        mret {| cached_memo := cm; cached := component (sigs w);
                memo := m; rendered := out |}) w0
     ∧ memos w0 !! cm = Some (Selector component)
     ∧ memos w0 !! m = Some (Output cm p)
     ∧ calls w0 = (calls w ++ [CreateMemo cm (owner w); CreateMemo m (owner w)])%list
     ∧ dom w0 = dom w ∧ sigs w0 = sigs w ∧ context w0 = context w
     ∧ listener w0 = listener w)
  ∧ (∀ d w,
       memos w !! cached_memo d = Some (Selector component) →
       memos w !! memo d = Some (Output (cached_memo d) p) →
       (strict_equal (component (sigs w)) (cached d) = true →
        update_memos [cached_memo d; memo d] (memo_values d, ∅) w
        = Returned (memo_values d, ∅) w)
       ∧ (strict_equal (component (sigs w)) (cached d) = false →
          update_memos [cached_memo d; memo d] (memo_values d, ∅) w
          = (out ← dynamic_render (component (sigs w)) p;
             mret (if memo_changed (rendered d) out
                   then (<[memo d := out]>
                           (<[cached_memo d := component (sigs w)]> (memo_values d)),
                         {[memo d]} ∪ ({[cached_memo d]} ∪ ∅))
                   else (<[cached_memo d := component (sigs w)]> (memo_values d),
                         {[cached_memo d]} ∪ ∅))) w))
  ∧ (∀ d w,
       strict_equal (component (sigs w)) (cached d) = true →
       dynamic_update component p d w = Returned d w)
  ∧ (∀ d w,
       strict_equal (component (sigs w)) (cached d) = false →
       dynamic_update component p d w
       = (out ← dynamic_render (component (sigs w)) p;
          mret {| cached_memo := cached_memo d; cached := component (sigs w);
                  memo := memo d; rendered := out |}) w)
  ∧ (∀ f w,
       dynamic_render (VFun f) p w
       = let w1 := if isDev then with_devcomp (union {[f]}) w else w in
         match call f [ArgProps p] (with_listener false w1) with
         | Returned a w' => Returned a (with_listener (listener w) w')
         | Thrown e w' => Thrown e (with_listener (listener w) w')
         end)
  ∧ (∀ tag w,
       truthy (context w) = false → valid_element_name tag = true →
       let svg := bool_decide (tag ∈ SVGElements) in
       let c := next_ref w in
       let element :=
         if svg then new_node (Element SVG_NAMESPACE tag) VUndefined
         else new_node (Element HTML_NAMESPACE (to_lower tag)) (read p "is" (sigs w)) in
       dynamic_render (VStr tag) p w
       = Returned (VNode c)
           (with_call (Spread (VNode c) p svg)
              (with_next_ref (S c) (with_dom (insert c element) w)))
       ∧ (kind element = Element SVG_NAMESPACE tag ↔ tag ∈ SVGElements))
  ∧ (∀ tag w,
       truthy (context w) = false → valid_element_name tag = false →
       dynamic_render (VStr tag) p w = Thrown InvalidCharacterError w)
  ∧ (∀ tag w,
       truthy (context w) = true →
       dynamic_render (VStr tag) p w
       = (el ← getNextElement;
          register (Spread el p (bool_decide (tag ∈ SVGElements)));; mret el) w).
Proof.
  split; [|split; [|split; [|split; [|split; [|split; [|split]]]]]].
  - intros w cm m w0. split; [apply createDynamic_spec|].
    unfold w0. cbn [memos dom sigs context listener calls
                    with_memos with_call with_next_ref].
    split; [rewrite lookup_insert_ne by (unfold cm, m; lia); apply lookup_insert_eq|].
    split; [apply lookup_insert_eq|].
    split; [rewrite <- app_assoc; reflexivity|]. repeat split.
  - intros d w Ms Mo. split; intros E.
    + apply (update_memos_same component p); [assumption..|]. unfold memo_changed. rewrite E. reflexivity.
    + apply (update_memos_changed component p); [assumption..|]. unfold memo_changed. rewrite E. reflexivity.
  - intros d w E. apply dynamic_update_same. unfold memo_changed. rewrite E. reflexivity.
  - intros d w E. apply dynamic_update_changed. unfold memo_changed. rewrite E. reflexivity.
  - intros f w. apply dynamic_render_function.
  - intros tag w C V svg c element. split.
    + apply dynamic_render_created; assumption.
    + unfold element, svg. case_bool_decide as I.
      * split; [intros _; exact I|reflexivity].
      * split; [intros K; inversion K|contradiction].
  - intros tag w C V. apply dynamic_render_refused; assumption.
  - intros tag w C. apply dynamic_render_adopted, C.
Qed.

(** C8.  For a selector whose value is neither a function nor a string, in
    particular undefined, [createDynamic] yields undefined: the computation
    returns undefined in the world it started from, so that no element is
    created, no props are spread and nothing is thrown. *)
Theorem createDynamic_undefined (component : getter) (p : props) (w : world) :
  typeof (component (sigs w)) ≠ "function" →
  typeof (component (sigs w)) ≠ "string" →
  dynamic_render (component (sigs w)) p w = Returned VUndefined w
  ∧ (∃ d w',
       createDynamic component p w = Returned d w'
       ∧ rendered d = VUndefined
       ∧ dom w' = dom w
       ∧ calls w' = (calls w ++ [CreateMemo (next_ref w) (owner w);
                                 CreateMemo (S (next_ref w)) (owner w)])%list)
  ∧ (∀ d,
       strict_equal (component (sigs w)) (cached d) = false →
       ∃ d', dynamic_update component p d w = Returned d' w ∧ rendered d' = VUndefined).
Proof.
  intros F S. split; [apply dynamic_render_other; assumption|]. split.
  - eexists _, _. rewrite createDynamic_spec. cbv zeta.
    rewrite bind_run, dynamic_render_other by assumption.
    split; [reflexivity|]. split; [reflexivity|]. split; [reflexivity|].
    cbn [calls with_call with_next_ref with_memos]. rewrite <- app_assoc. reflexivity.
  - intros d E. eexists. rewrite dynamic_update_changed
      by (unfold memo_changed; rewrite E; reflexivity).
    rewrite bind_run, dynamic_render_other by assumption.
    split; reflexivity.
Qed.

(** C9.  [Dynamic] passes to [createDynamic] the props it received with the
    [component] key split off: the forwarded props have no [component] and
    are the received ones under every other key, so that what is rendered is
    rendered with props without [component]; the selector it passes reads
    [props.component] under the current reactive state. *)
Theorem Dynamic_splits_component (p : props) :
  let others := (splitProps p ["component"]).2 in
  (∀ w, Dynamic p w = createDynamic (read p "component") others w)
  ∧ others = filter (λ kg, kg.1 ∉ ["component"]) p
  ∧ find_getter others "component" = None
  ∧ (∀ s, read others "component" s = VUndefined)
  ∧ (∀ k s, k ≠ "component" → read others k s = read p k s)
  ∧ (∀ w, ∃ w0,
       Dynamic p w
       = (out ← dynamic_render (read p "component" (sigs w)) others;
          mret {| cached_memo := next_ref w; cached := read p "component" (sigs w);
                  memo := S (next_ref w); rendered := out |}) w0
       ∧ sigs w0 = sigs w).
Proof.
  intros others. split; [|split; [|split; [|split; [|split]]]].
  - intros w. reflexivity.
  - reflexivity.
  - apply find_getter_component.
  - intros s. unfold read, others. rewrite find_getter_component. reflexivity.
  - intros k s N. unfold read, others. rewrite find_getter_others by exact N. reflexivity.
  - intros w. eexists.
    change (Dynamic p w) with (createDynamic (read p "component") others w).
    rewrite createDynamic_spec. cbv zeta. split; reflexivity.
Qed.

End DynamicFacts.

(** * Further properties of the module

    What the functions of the module do beyond the claims above: their
    failure modes, what they leave unchanged, and how they compose. *)

(** ** hydrate and hydrateDocument *)

Section HydrateDocumentFurther.
Context `{H : Host}.

(** A key the document refuses is a key that is set with [setAttribute]. *)
Lemma refused_reflection (key : string) (v : value) (op : dom_operation) :
  reflection key v = Some op → accepted op = false →
  valid_attribute_name key = false
  ∧ (key ∉ ["children"; "ref"; "class"; "className"])
  ∧ not_nullish v = true ∧ v ≠ VBool false.
Proof.
  unfold reflection. intros R A.
  destruct (bool_decide (key = "children" ∨ key = "ref")) eqn:B1; [discriminate|].
  apply bool_decide_eq_false in B1.
  assert (not_nullish v = true) as NN by (destruct v; try discriminate; reflexivity).
  destruct (bool_decide (key = "class" ∨ key = "className")) eqn:B2.
  { destruct v; try discriminate; injection R as <-; discriminate. }
  apply bool_decide_eq_false in B2.
  assert (key ∉ ["children"; "ref"; "class"; "className"]) as NK.
  { rewrite !not_elem_of_cons. repeat split; try tauto. apply not_elem_of_nil. }
  destruct v as [| |[]| | | | |]; try discriminate; injection R as <-;
    cbn in A; try discriminate; repeat split; auto; discriminate.
Qed.

Lemma first_refused (ops : list dom_operation) :
  forallb accepted ops = false →
  ∃ before op later, ops = (before ++ op :: later)%list
                     ∧ forallb accepted before = true ∧ accepted op = false.
Proof.
  induction ops as [|o ops IH]; [discriminate|].
  cbn [forallb]. destruct (accepted o) eqn:Ao.
  - intros A. destruct (IH A) as (before & op & later & -> & B & N).
    exists (o :: before), op, later. cbn [forallb]. rewrite Ao, B. auto.
  - intros _. exists [], o, ops. auto.
Qed.

(** One step of the traversal rewrites the attributes of the root, or
    throws for a name the document refuses and writes nothing. *)
Lemma apply_attribute_cases (props : value) (key : string) (w : world) (r : nat) (n : node) :
  html_root w r n →
  (∃ a, apply_attribute props key w = Returned tt (with_root_attributes r n a w))
  ∨ (apply_attribute props key w = Thrown InvalidCharacterError w
     ∧ valid_attribute_name key = false
     ∧ (key ∉ ["children"; "ref"; "class"; "className"])
     ∧ not_nullish (get props key) = true ∧ get props key ≠ VBool false).
Proof.
  intros R. rewrite apply_attribute_reflection.
  destruct (reflection key (get props key)) as [op|] eqn:E.
  - destruct (accepted op) eqn:A.
    + left. eexists. apply (perform_accepted _ _ _ _ R A).
    + right. split; [apply (perform_refused _ _ _ _ R A)|].
      apply (refused_reflection _ _ _ E A).
  - left. exists (attributes n). rewrite with_root_attributes_id; [reflexivity|apply R].
Qed.

Lemma forEach_apply_attribute_cases (props : value) (keys : list string) (w : world)
    (r : nat) (n : node) :
  html_root w r n →
  (∃ a, forEach keys (apply_attribute props) w = Returned tt (with_root_attributes r n a w))
  ∨ (∃ a key,
       forEach keys (apply_attribute props) w
       = Thrown InvalidCharacterError (with_root_attributes r n a w)
       ∧ key ∈ keys
       ∧ valid_attribute_name key = false
       ∧ (key ∉ ["children"; "ref"; "class"; "className"])
       ∧ not_nullish (get props key) = true ∧ get props key ≠ VBool false).
Proof.
  revert w n. induction keys as [|k keys IH]; intros w n R.
  - left. exists (attributes n). cbn [forEach].
    rewrite with_root_attributes_id; [reflexivity|apply R].
  - rewrite forEach_cons, bind_run.
    destruct (apply_attribute_cases props k w r n R) as [[a ->]|(-> & V)].
    + destruct (IH _ _ (html_root_after _ _ _ a R)) as [[b ->]|(b & key & -> & I & V)].
      * left. exists b. rewrite with_root_attributes_twice. reflexivity.
      * right. exists b, key. rewrite with_root_attributes_twice.
        split; [reflexivity|]. split; [right; exact I|exact V].
    + right. exists (attributes n), k.
      rewrite with_root_attributes_id by apply R.
      split; [reflexivity|]. split; [left|exact V].
Qed.

(** The wrapped producer, for a producer that returns in a document with an
    HTML root. *)
Lemma wrappedFn_cases (fn : M value) (w w1 : world) (result : value) (root : nat) (n : node) :
  fn w = Returned result w1 → html_root w1 root n →
  (∃ v a, wrappedFn fn w = Returned v (with_root_attributes root n a w1))
  ∨ (∃ a key,
       wrappedFn fn w = Thrown InvalidCharacterError (with_root_attributes root n a w1)
       ∧ carries_html_type result
       ∧ key ∈ Object_keys (get result "props")
       ∧ valid_attribute_name key = false
       ∧ (key ∉ ["children"; "ref"; "class"; "className"])
       ∧ not_nullish (get (get result "props") key) = true
       ∧ get (get result "props") key ≠ VBool false).
Proof.
  intros E R.
  destruct (truthy result && (typeof result =? "object") && has_property "type" result
            && strict_equal (get result "type") (VStr "html")) eqn:T.
  - pose proof T as C. apply html_test in C. destruct C as (r & -> & Ty).
    rewrite (wrappedFn_html _ _ _ _ E Ty). cbv zeta.
    destruct (truthy (get (VObj r) "props")) eqn:P.
    + rewrite bind_run.
      destruct (forEach_apply_attribute_cases (get (VObj r) "props")
                  (Object_keys (get (VObj r) "props")) w1 root n R)
        as [[a ->]|(a & key & -> & V)].
      * left. eexists _, a. reflexivity.
      * right. exists a, key. split; [reflexivity|]. split; [exists r; auto|exact V].
    + left. exists (VObj r), (attributes n).
      rewrite with_root_attributes_id by apply R. reflexivity.
  - left. exists result, (attributes n).
    rewrite with_root_attributes_id by apply R.
    apply wrappedFn_passes; [exact E|]. intros C. apply html_test in C. congruence.
Qed.

(** X2.  In a document whose root is an HTML element, and for results that
    are plain data (reading a property and coercing a value to a string
    neither throw nor change the state), the wrapped producer of
    [hydrateDocument] throws only what the producer throws, in the state the
    producer left, or an InvalidCharacterError; the latter only when the
    producer returned an object of type "html" whose props have a key, other
    than [children], [ref], [class] and [className], that the document
    refuses as an attribute name and whose value is neither null, undefined
    nor [false]. *)
Theorem wrappedFn_throws_only (fn : M value) (w w2 : world) (e : exn) (root : nat) :
  (∀ result w1, fn w = Returned result w1 → ∃ n, html_root w1 root n) →
  wrappedFn fn w = Thrown e w2 →
  fn w = Thrown e w2
  ∨ (e = InvalidCharacterError
     ∧ ∃ result w1 key,
         fn w = Returned result w1
         ∧ carries_html_type result
         ∧ key ∈ Object_keys (get result "props")
         ∧ (key ∉ ["children"; "ref"; "class"; "className"])
         ∧ valid_attribute_name key = false
         ∧ not_nullish (get (get result "props") key) = true
         ∧ get (get result "props") key ≠ VBool false).
Proof.
  intros R T. destruct (fn w) as [result w1|e1 w1] eqn:E.
  - destruct (R _ _ eq_refl) as [n Rn].
    destruct (wrappedFn_cases fn w w1 result root n E Rn)
      as [(v & a & Eq)|(a & key & Eq & C & I & V & K & NN & NF)]; rewrite Eq in T.
    + discriminate.
    + injection T as <- _. right. split; [reflexivity|].
      exists result, w1, key. auto 10.
  - left. rewrite (wrappedFn_thrown _ _ _ _ E) in T. exact T.
Qed.

(** X3.  The first key of the props the document refuses as an attribute
    name ends the traversal with an InvalidCharacterError: the operations of
    the keys before it stay applied to [document.documentElement] (nothing is
    rolled back), those of the keys after it are not applied, and no children
    are returned. *)
Theorem wrappedFn_stops_at_refused_name
    (fn : M value) (w w1 : world) (r ps : list (string * value)) (root : nat) (n : node)
    (before later : list dom_operation) (op : dom_operation) :
  fn w = Returned (VObj r) w1 →
  lookup_property r "type" = Some (VStr "html") →
  lookup_property r "props" = Some (VObj ps) →
  NoDup (map fst ps) →
  html_root w1 root n →
  reflections ps = (before ++ op :: later)%list →
  forallb accepted before = true →
  accepted op = false →
  let final := with_root_attributes root n
                 (foldl apply_operation (attributes n) before) w1 in
  wrappedFn fn w = Thrown InvalidCharacterError final
  ∧ (∀ earlier o others,
       before = (earlier ++ o :: others)%list →
       target o ∉ map target others →
       getAttribute final (VNode root) (target o) = written o)
  ∧ (∀ name,
       to_lower name ∉ map target before →
       getAttribute final (VNode root) name = getAttribute w1 (VNode root) name).
Proof.
  intros E T P D R S B N final.
  split; [|split].
  - rewrite (wrappedFn_reflects _ _ _ _ _ E T P), bind_run.
    rewrite (forEach_reflections _ _ D), S.
    rewrite (forEach_perform_refused _ _ _ _ _ _ R B N). reflexivity.
  - intros earlier o others -> F. unfold final.
    rewrite (getAttribute_root _ _ _ _ _ R).
    replace (to_lower (target o)) with (target o)
      by (destruct o; cbn [target]; rewrite ?to_lower_idemp; reflexivity).
    apply foldl_apply_last, F.
  - intros name F. unfold final.
    rewrite (getAttribute_root _ _ _ _ _ R), (foldl_apply_frame _ _ _ F).
    destruct R as (_ & Ln & K). unfold getAttribute. rewrite Ln. simpl.
    rewrite (html_attribute_name _ _ K). reflexivity.
Qed.

(** X4.  Whatever plain data the producer returns, and whether the wrapped
    producer then returns or throws, it changes nothing but the attributes of
    [document.documentElement]: every other node, and the kind, the children,
    the parent and the shadow root of the root, the reactive state and the
    registrations made with the runtime are those the producer left. *)
Theorem wrappedFn_writes_root_attributes_only
    (fn : M value) (w w1 : world) (result : value) (root : nat) (n : node) :
  fn w = Returned result w1 →
  html_root w1 root n →
  let w2 := final_world (wrappedFn fn w) in
  (∃ a, w2 = with_root_attributes root n a w1)
  ∧ (∀ r, r ≠ root → dom w2 !! r = dom w1 !! r)
  ∧ (∃ n2, dom w2 !! root = Some n2
           ∧ kind n2 = kind n ∧ childNodes n2 = childNodes n
           ∧ parentNode n2 = parentNode n ∧ shadowRoot n2 = shadowRoot n)
  ∧ calls w2 = calls w1 ∧ sigs w2 = sigs w1 ∧ next_ref w2 = next_ref w1
  ∧ documentElement w2 = documentElement w1 ∧ body w2 = body w1.
Proof.
  intros E R w2.
  assert (∃ a, w2 = with_root_attributes root n a w1) as [a Eq].
  { unfold w2.
    destruct (wrappedFn_cases fn w w1 result root n E R)
      as [(v & a & ->)|(a & key & -> & _)]; exists a; reflexivity. }
  split; [exists a; exact Eq|]. rewrite Eq. unfold with_root_attributes.
  cbn [dom with_dom calls sigs next_ref documentElement body].
  split; [intros r Nr; apply lookup_insert_ne; congruence|].
  split; [|auto 10].
  eexists. rewrite lookup_insert_eq. split; [reflexivity|]. auto.
Qed.

Lemma last_target (ops : list dom_operation) (i : string) :
  i ∈ map target ops →
  ∃ before op later, ops = (before ++ op :: later)%list
                     ∧ target op = i ∧ i ∉ map target later.
Proof.
  induction ops as [|o ops IH]; cbn [map]; intros I.
  - apply elem_of_nil in I. contradiction.
  - destruct (decide (i ∈ map target ops)) as [In|Out].
    + destruct (IH In) as (before & op & later & -> & T & L).
      exists (o :: before), op, later. auto.
    + apply elem_of_cons in I as [->|I]; [|contradiction].
      exists [], o, ops. auto.
Qed.

(** Applying the operations once more changes nothing. *)
Lemma foldl_apply_idemp (ops : list dom_operation) (a : gmap string string) :
  foldl apply_operation (foldl apply_operation a ops) ops = foldl apply_operation a ops.
Proof.
  apply map_eq. intros i.
  destruct (decide (i ∈ map target ops)) as [In|Out].
  - destruct (last_target _ _ In) as (before & op & later & Eq & <- & L).
    generalize (foldl apply_operation a ops) at 1. intros b.
    rewrite Eq, !(foldl_apply_last _ _ _ _ L). reflexivity.
  - rewrite !(foldl_apply_frame _ _ _ Out). reflexivity.
Qed.

(** X5.  Reflecting the props of an html wrapper is idempotent: when the
    wrapped producer has returned, and the producer yields the same wrapper
    once more without changing the state, the wrapped producer returns the
    same value and leaves the state, hence every attribute of
    [document.documentElement], as it is. *)
Theorem wrappedFn_idempotent
    (fn : M value) (w w1 w2 : world) (r ps : list (string * value)) (root : nat) (n : node)
    (v : value) :
  fn w = Returned (VObj r) w1 →
  lookup_property r "type" = Some (VStr "html") →
  lookup_property r "props" = Some (VObj ps) →
  NoDup (map fst ps) →
  html_root w1 root n →
  wrappedFn fn w = Returned v w2 →
  fn w2 = Returned (VObj r) w2 →
  wrappedFn fn w2 = Returned v w2.
Proof.
  intros E T P D R W E2.
  rewrite (wrappedFn_reflects _ _ _ _ _ E T P), bind_run, (forEach_reflections _ _ D) in W.
  rewrite (wrappedFn_reflects _ _ _ _ _ E2 T P), bind_run, (forEach_reflections _ _ D).
  destruct (forallb accepted (reflections ps)) eqn:A.
  - rewrite (forEach_perform _ _ _ _ R A) in W. injection W as <- <-.
    rewrite (forEach_perform _ _ _ _ (html_root_after _ _ _ _ R) A).
    cbn [attributes with_attributes].
    rewrite with_root_attributes_twice, foldl_apply_idemp. reflexivity.
  - destruct (first_refused _ A) as (before & op & later & S & B & N).
    rewrite S, (forEach_perform_refused _ _ _ _ _ _ R B N) in W. discriminate.
Qed.

(** X6.  The keys [class] and [className] take precedence over the rule for
    booleans: any value that is neither null nor undefined is assigned to
    [className], so that the class attribute is the string of the value, for
    [false] the string "false" (the attribute is not removed), and no other
    attribute changes. *)
Theorem class_value_is_stringified
    (props : value) (key : string) (w : world) (root : nat) (n : node) :
  html_root w root n →
  key = "class" ∨ key = "className" →
  not_nullish (get props key) = true →
  ∃ w',
    apply_attribute props key w = Returned tt w'
    ∧ getAttribute w' (VNode root) "class" = Some (ToString (get props key))
    ∧ (get props key = VBool false → getAttribute w' (VNode root) "class" = Some "false")
    ∧ (∀ name, to_lower name ≠ "class" →
         getAttribute w' (VNode root) name = getAttribute w (VNode root) name).
Proof.
  intros R K NN.
  assert (reflection key (get props key) = Some (AssignClassName (get props key))) as E.
  { unfold reflection.
    rewrite bool_decide_eq_false_2 by (intros [?|?]; destruct K; subst; discriminate).
    rewrite bool_decide_eq_true_2 by exact K.
    destruct (get props key); try discriminate; reflexivity. }
  eexists. split.
  { rewrite apply_attribute_reflection, E. apply (perform_accepted _ _ _ _ R). reflexivity. }
  assert (getAttribute
            (with_root_attributes root n
               (apply_operation (attributes n) (AssignClassName (get props key))) w)
            (VNode root) "class" = Some (ToString (get props key))) as G.
  { rewrite (getAttribute_root _ _ _ _ _ R).
    apply (apply_operation_target _ (AssignClassName (get props key))). }
  split; [exact G|]. split; [intros B; rewrite G, B; reflexivity|].
  intros name N. rewrite (getAttribute_root _ _ _ _ _ R).
  rewrite apply_operation_other by exact N.
  destruct R as (_ & Ln & Kn). unfold getAttribute. rewrite Ln. simpl.
  rewrite (html_attribute_name _ _ Kn). reflexivity.
Qed.

End HydrateDocumentFurther.

(** ** Portal *)

Section PortalFurther.
Context `{H : Host}.

Ltac insert_lookups :=
  repeat first [ rewrite lookup_insert_eq
               | rewrite lookup_insert_ne by (congruence || lia) ].

(** The effect up to the branch on the mount target. *)
Lemma Portal_effect_branch (p : props) (st : portal) (w : world) :
  (hydrating st = true → is_Some (owner w)) →
  ∃ cm w0,
    Portal_prologue st w = Returned cm w0
    ∧ dom w0 = dom w ∧ sigs w0 = sigs w ∧ (next_ref w ≤ next_ref w0)%nat
    ∧ calls w0 = (calls w ++ match content st with
                              | Some _ => []
                              | None => [CreateMemo (next_ref w) (portal_owner st)]
                              end)%list
    ∧ (∀ h, instanceof_HTMLHeadElement (mount_target p w) w = Returned h w →
         Portal_effect p st w
         = ((if h then Portal_head cm (mount_target p w)
             else Portal_container p st cm (mount_target p w));;
            mret (rendered_portal st cm)) w0).
Proof.
  intros O.
  destruct (Portal_prologue_spec st w O) as (cm & w0 & EP & D & Sg & B & NR & _ & C).
  exists cm, w0. repeat (split; [assumption|]).
  intros h I.
  assert (mount p w0 = Returned (mount_target p w) w0) as EM.
  { unfold mount, mount_target. rewrite bind_run. unfold reads at 1, gets at 1.
    rewrite Sg. destruct (truthy _); [reflexivity|].
    unfold gets. rewrite B. reflexivity. }
  assert (instanceof_HTMLHeadElement (mount_target p w) w0 = Returned h w0) as EI.
  { unfold instanceof_HTMLHeadElement in *. rewrite D. injection I as <-. reflexivity. }
  unfold Portal_effect. rewrite bind_run, EP, bind_run, EM, bind_run, EI. reflexivity.
Qed.

Lemma Portal_prologue_returned (st : portal) (w w0 : world) (cm : nat) :
  Portal_prologue st w = Returned cm w0 →
  owner w0 = owner w
  ∧ (∀ c, content st = Some c → cm = c ∧ calls w0 = calls w ∧ next_ref w0 = next_ref w)
  ∧ (content st = None →
     cm = next_ref w ∧ next_ref w0 = S (next_ref w)
     ∧ calls w0 = (calls w ++ [CreateMemo cm (portal_owner st)])%list)
  ∧ (hydrating st = true → ∃ o, owner w = Some o ∧ owner_user w0 = <[o := false]> (owner_user w))
  ∧ (hydrating st = false → owner_user w0 = owner_user w).
Proof.
  unfold Portal_prologue. rewrite bind_run.
  assert (∀ wa, (match content st return M nat with
                 | Some c => mret c
                 | None => runWithOwner (portal_owner st) createMemo
                 end) wa = Returned cm w0 →
          owner w0 = owner wa ∧ owner_user w0 = owner_user wa
          ∧ (∀ c, content st = Some c →
                  cm = c ∧ calls w0 = calls wa ∧ next_ref w0 = next_ref wa)
          ∧ (content st = None →
             cm = next_ref wa ∧ next_ref w0 = S (next_ref wa)
             ∧ calls w0 = (calls wa ++ [CreateMemo cm (portal_owner st)])%list)) as Memo.
  { intros wa. destruct (content st) as [c|].
    - intros [= <- <-]. split; [reflexivity|]. split; [reflexivity|].
      split; [intros c' [= <-]; auto|discriminate].
    - intros E. cbv in E. injection E as <- <-.
      split; [reflexivity|]. split; [reflexivity|].
      split; [discriminate|intros _; auto]. }
  destruct (hydrating st).
  - rewrite bind_run. unfold getOwner, gets. destruct (owner w) as [o|] eqn:O; [|discriminate].
    cbn [set_user modify]. intros E. destruct (Memo _ E) as (Ow & Ou & Cs & Cn).
    cbn [owner owner_user calls next_ref with_owner_user] in Ow, Ou, Cs, Cn.
    split; [congruence|]. split; [exact Cs|]. split; [exact Cn|].
    split; [intros _; exists o; split; [reflexivity|exact Ou]|discriminate].
  - intros E. destruct (Memo _ E) as (Ow & Ou & Cs & Cn).
    split; [exact Ow|]. split; [exact Cs|]. split; [exact Cn|].
    split; [discriminate|intros _; exact Ou].
Qed.

(** X7.  The memo of the children of a portal is created once: a run of the
    effect that returns leaves a memo in the closure, the one that was there
    when there was one, and otherwise a new one registered under the owner
    [Portal] was called in, the owner of the run being restored; and it
    leaves [hydrating] false, so that the first step of every later run
    creates nothing and changes nothing. *)
Theorem Portal_effect_creates_memo_once (p : props) (st st' : portal) (w w' : world) :
  Portal_effect p st w = Returned st' w' →
  ∃ cm,
    content st' = Some cm
    ∧ (∀ c, content st = Some c → cm = c)
    ∧ (content st = None →
       ∃ w0, Portal_prologue st w = Returned cm w0
             ∧ cm = next_ref w
             ∧ calls w0 = (calls w ++ [CreateMemo cm (portal_owner st)])%list
             ∧ owner w0 = owner w)
    ∧ hydrating st' = false
    ∧ portal_owner st' = portal_owner st
    ∧ (∀ w2, Portal_prologue st' w2 = Returned cm w2).
Proof.
  unfold Portal_effect. rewrite bind_run.
  destruct (Portal_prologue st w) as [cm w0|] eqn:EP; [|discriminate].
  destruct (Portal_prologue_returned _ _ _ _ EP) as (Ow & Cs & Cn & _).
  rewrite bind_run. destruct (mount p w0) as [el w1|]; [|discriminate].
  rewrite bind_run. destruct (instanceof_HTMLHeadElement el w1) as [h w2|]; [|discriminate].
  rewrite bind_run. intros E.
  assert (st' = rendered_portal st cm) as ->.
  { destruct h; [destruct (Portal_head cm el w2)|destruct (Portal_container p st cm el w2)];
      try discriminate; injection E as <- _; reflexivity. }
  exists cm. split; [reflexivity|]. split; [intros c Ec; apply (Cs c Ec)|].
  split.
  { intros N. destruct (Cn N) as (-> & _ & Cl). exists w0. auto. }
  repeat split.
Qed.

(** A run of the effect for a target that is no head element and can have
    children, when no [ref] is supplied. *)
Lemma Portal_effect_mounted (p : props) (st : portal) (w : world) (t : nat) (tn : node) :
  fresh_refs w →
  (hydrating st = true → is_Some (owner w)) →
  mount_target p w = VNode t → dom w !! t = Some tn →
  is_HTMLHeadElement tn = false → is_ParentNode tn = true →
  let svg := truthy (read p "isSVG" (sigs w)) in
  let shadow := truthy (useShadow st) && attachShadow_available in
  (shadow = true → svg = false) →
  truthy (read p "ref" (sigs w)) = false →
  ∃ cm w0,
    Portal_prologue st w = Returned cm w0
    ∧ dom w0 = dom w ∧ (next_ref w ≤ next_ref w0)%nat
    ∧ let c := next_ref w0 in
      let d1 := <[c := container_node svg shadow c t (marker st)]>
                  (<[t := with_childNodes (λ l, (l ++ [c])%list) tn]>
                     (if shadow then <[S c := new_node (ShadowRoot c) VUndefined]> (dom w)
                      else dom w)) in
      Portal_effect p st w
      = Returned (rendered_portal st cm)
          (with_call (OnCleanup (RemoveContainer (VNode t) (VNode c)))
             (with_call (Insert (VNode (if shadow then S c else c)) (ContentMemo cm)
                           VUndefined None)
                (with_next_ref (if shadow then S (S c) else S c)
                   (with_dom (λ _, d1) w0)))).
Proof.
  intros F O Et Tn Hd Pn svg shadow SS R.
  destruct (Portal_effect_branch p st w O) as (cm & w0 & EP & D & Sg & NR & C & Br).
  exists cm, w0. split; [exact EP|]. split; [exact D|]. split; [exact NR|].
  intros c d1.
  rewrite (Br false).
  2:{ unfold instanceof_HTMLHeadElement. rewrite Et, Tn, Hd. reflexivity. }
  rewrite Et.
  assert (fresh_refs w0) as F0.
  { intros r L. rewrite D. apply F. lia. }
  assert (dom w0 !! t = Some tn) as Tn0 by (rewrite D; exact Tn).
  pose proof (Portal_container_spec p st cm t tn w0 F0 Tn0 Pn) as PC.
  cbv zeta in PC. rewrite Sg in PC. specialize (PC SS).
  fold svg shadow c in PC. rewrite D in PC. fold d1 in PC.
  rewrite bind_run, PC, !bind_run. unfold Portal_ref.
  rewrite bind_run. unfold reads at 1, gets at 1.
  cbn [sigs with_call with_next_ref with_dom]. rewrite Sg, R. reflexivity.
Qed.

Lemma filter_appended (l : list nat) (c : nat) :
  c ∉ l → filter (λ x, x ≠ c) (l ++ [c])%list = l.
Proof.
  intros N.
  rewrite filter_app, filter_cons_False, filter_nil, app_nil_r
    by (intros X; apply X; reflexivity).
  induction l as [|x l IH]; [reflexivity|].
  apply not_elem_of_cons in N as [N1 N2].
  rewrite filter_cons_True by congruence. rewrite IH by exact N2. reflexivity.
Qed.

(** X8.  Mounting and cleaning up.  For a target that is no head element
    and can have children, when no [ref] is supplied, and unless [isSVG] is
    set together with a shadow root, a run of the effect returns: the
    container is the last child of the target and the removal is the last
    cleanup registered.  Running that cleanup takes the container out of the
    children of the target and leaves it without a parent; running it once
    more throws a NotFoundError and changes nothing. *)
Theorem Portal_cleanup_detaches_container
    (p : props) (st : portal) (w : world) (t : nat) (tn : node) :
  fresh_refs w →
  (hydrating st = true → is_Some (owner w)) →
  mount_target p w = VNode t → dom w !! t = Some tn →
  is_HTMLHeadElement tn = false → is_ParentNode tn = true →
  (truthy (useShadow st) && attachShadow_available = true →
   truthy (read p "isSVG" (sigs w)) = false) →
  truthy (read p "ref" (sigs w)) = false →
  ∃ st' w1 c,
    Portal_effect p st w = Returned st' w1
    ∧ last (calls w1) = Some (OnCleanup (RemoveContainer (VNode t) (VNode c)))
    ∧ (next_ref w ≤ c)%nat
    ∧ (∃ tn1 cn1, dom w1 !! t = Some tn1 ∧ last (childNodes tn1) = Some c
                  ∧ dom w1 !! c = Some cn1 ∧ parentNode cn1 = Some t)
    ∧ ∃ w2 tn2 cn2,
        run_thunk p (RemoveContainer (VNode t) (VNode c)) w1 = Returned (VNode c) w2
        ∧ dom w2 !! t = Some tn2 ∧ (c ∉ childNodes tn2)
        ∧ dom w2 !! c = Some cn2 ∧ parentNode cn2 = None
        ∧ run_thunk p (RemoveContainer (VNode t) (VNode c)) w2 = Thrown NotFoundError w2.
Proof.
  intros F O Et Tn Hd Pn SS R.
  destruct (Portal_effect_mounted p st w t tn F O Et Tn Hd Pn SS R)
    as (cm & w0 & EP & D & NR & E).
  cbv zeta in E.
  set (c := next_ref w0) in *.
  set (svg := truthy (read p "isSVG" (sigs w))) in *.
  set (shadow := truthy (useShadow st) && attachShadow_available) in *.
  assert (t < next_ref w)%nat as Lt.
  { destruct (decide (t < next_ref w)%nat) as [L|L]; [exact L|].
    rewrite F in Tn by lia. discriminate. }
  eexists _, _, c. split; [exact E|].
  cbn [calls dom with_call with_next_ref with_dom].
  split; [apply last_snoc|]. split; [exact NR|].
  split.
  { eexists _, _. split; [rewrite lookup_insert_ne by (unfold c; lia); apply lookup_insert_eq|].
    split; [cbn [childNodes with_childNodes]; apply last_snoc|].
    split; [apply lookup_insert_eq|reflexivity]. }
  eexists _, _, _. split.
  { unfold run_thunk. rewrite bind_run.
    rewrite (removeChild_spec _ t c (with_childNodes (λ l, (l ++ [c])%list) tn)
               (container_node svg shadow c t (marker st))).
    - reflexivity.
    - cbn [dom with_call with_next_ref with_dom].
      rewrite lookup_insert_ne by (unfold c; lia). apply lookup_insert_eq.
    - cbn [dom with_call with_next_ref with_dom]. apply lookup_insert_eq.
    - reflexivity. }
  cbn [dom with_call with_next_ref with_dom].
  split; [rewrite lookup_insert_ne by (unfold c; lia); apply lookup_insert_eq|].
  split.
  { cbn [childNodes with_childNodes]. intros I.
    apply list_elem_of_filter in I as [I _]. apply I. reflexivity. }
  split; [apply lookup_insert_eq|]. split; [reflexivity|].
  unfold run_thunk. rewrite bind_run. unfold removeChild.
  rewrite bind_run,
    (node_of_node _ t (with_childNodes (filter (λ x, x ≠ c))
                         (with_childNodes (λ l, (l ++ [c])%list) tn))).
  2:{ cbn [dom with_dom]. rewrite lookup_insert_ne by (unfold c; lia). apply lookup_insert_eq. }
  rewrite bind_run,
    (node_of_node _ c (with_parentNode None (container_node svg shadow c t (marker st)))).
  2:{ cbn [dom with_dom]. apply lookup_insert_eq. }
  reflexivity.
Qed.

(** The tree operations leave the [_$host] accessors of the nodes alone. *)
Lemma same_accessors_update (d : gmap nat node) (r : nat) (n n' : node) :
  d !! r = Some n → host_marker n' = host_marker n → same_accessors d (<[r := n']> d).
Proof.
  intros E Hm r'. destruct (decide (r' = r)) as [->|N].
  - rewrite lookup_insert_eq, E. cbn. rewrite Hm. reflexivity.
  - rewrite lookup_insert_ne by congruence. reflexivity.
Qed.

Lemma same_accessors_trans (d1 d2 d3 : gmap nat node) :
  same_accessors d1 d2 → same_accessors d2 d3 → same_accessors d1 d3.
Proof. intros A B r. rewrite B. apply A. Qed.

Lemma update_accessors (d : gmap nat node) (r : nat) (f : node → node) :
  (∀ n, host_marker (f n) = host_marker n) →
  same_accessors d (match d !! r with Some n => <[r := f n]> d | None => d end).
Proof.
  intros Hf. destruct (d !! r) as [n|] eqn:E; [|intros r'; reflexivity].
  apply (same_accessors_update d r n (f n) E (Hf n)).
Qed.

Lemma detach_accessors (d : gmap nat node) (c : nat) : same_accessors d (detach c d).
Proof.
  unfold detach. destruct (d !! c) as [cn|] eqn:C; [|intros r; reflexivity].
  destruct (parentNode cn) as [q|]; [|intros r; reflexivity].
  eapply same_accessors_trans;
    [apply (update_accessors d q (with_childNodes (filter (λ x, x ≠ c)))); reflexivity|].
  intros r. destruct (decide (r = c)) as [->|N].
  - rewrite lookup_insert_eq. cbn.
    destruct (d !! q) as [qn|] eqn:Q.
    + destruct (decide (c = q)) as [->|Nq].
      * rewrite lookup_insert_eq. rewrite Q in C. injection C as ->. reflexivity.
      * rewrite lookup_insert_ne by congruence. rewrite C. reflexivity.
    + rewrite C. reflexivity.
  - rewrite lookup_insert_ne by congruence. reflexivity.
Qed.

Lemma detach_parent (d : gmap nat node) (c : nat) :
  (detach c d !! c ≫= parentNode) = None.
Proof.
  unfold detach. destruct (d !! c) as [cn|] eqn:C.
  - destruct (parentNode cn) as [q|] eqn:P.
    + rewrite lookup_insert_eq. reflexivity.
    + rewrite C. cbn. exact P.
  - rewrite C. reflexivity.
Qed.

(** After [el.appendChild(child)] the parent of the child is [el], and after
    [el.removeChild(child)] the child has no parent. *)
Lemma appendChild_parent (w w' : world) (x m : nat) :
  appendChild (VNode x) (VNode m) w = Returned tt w' →
  same_accessors (dom w) (dom w') ∧ (dom w' !! m ≫= parentNode) = Some x.
Proof.
  unfold appendChild. rewrite bind_run. unfold node_of at 1.
  destruct (dom w !! x) as [xn|] eqn:X; [|discriminate].
  rewrite bind_run. unfold node_of at 1.
  destruct (dom w !! m) as [mn|] eqn:M; [|discriminate].
  destruct (is_ParentNode xn); [|discriminate].
  unfold update_node, modify. rewrite !bind_run. intros [= <-].
  cbn [dom with_dom].
  set (d1 := detach m (dom w)).
  set (d2 := match d1 !! x with
             | Some n => <[x := with_childNodes (λ l, (l ++ [m])%list) n]> d1
             | None => d1
             end).
  assert (same_accessors (dom w) d1) as A1 by apply detach_accessors.
  assert (same_accessors d1 d2) as A2 by (apply update_accessors; reflexivity).
  split.
  - eapply same_accessors_trans; [exact A1|].
    eapply same_accessors_trans; [exact A2|].
    apply update_accessors. reflexivity.
  - assert (is_Some (d2 !! m)) as [n2 E2].
    { pose proof (A2 m) as K2. pose proof (A1 m) as K1. rewrite M in K1.
      destruct (d1 !! m); [|discriminate]. destruct (d2 !! m); [eauto|discriminate]. }
    rewrite E2, lookup_insert_eq. reflexivity.
Qed.

Lemma removeChild_parent (w w' : world) (x m : nat) :
  removeChild (VNode x) (VNode m) w = Returned tt w' →
  same_accessors (dom w) (dom w') ∧ (dom w' !! m ≫= parentNode) = None.
Proof.
  unfold removeChild. rewrite bind_run. unfold node_of at 1.
  destruct (dom w !! x) as [xn|] eqn:X; [|discriminate].
  rewrite bind_run. unfold node_of at 1.
  destruct (dom w !! m) as [mn|] eqn:M; [|discriminate].
  destruct (bool_decide _); [|discriminate].
  unfold modify. intros [= <-]. cbn [dom with_dom].
  split; [apply detach_accessors|apply detach_parent].
Qed.

Lemma host_of_marker (w : world) (c m : nat) :
  host_marker <$> dom w !! c = Some (Some m) →
  host_of w c = dom w !! m ≫= parentNode.
Proof.
  unfold host_of. destruct (dom w !! c) as [cn|]; [|discriminate].
  cbn. intros [= ->]. reflexivity.
Qed.

(** X9.  The [_$host] accessor of the container is live.  For a target that
    is no head element and can have children, a marker that is a node of the
    document, and unless [isSVG] is set together with a shadow root, the
    container carries the accessor when [ref] is called and the cleanup is
    registered, and reports the parent the marker had before the run.  In
    every later state in which the container carries the accessor, once the
    marker has been appended to a node the container reports that node, and
    once the marker has been removed from its parent it reports none. *)
Theorem Portal_container_host_is_marker_parent
    (p : props) (st : portal) (w : world) (t : nat) (tn mn : node) :
  fresh_refs w →
  (hydrating st = true → is_Some (owner w)) →
  mount_target p w = VNode t → dom w !! t = Some tn →
  is_HTMLHeadElement tn = false → is_ParentNode tn = true →
  (truthy (useShadow st) && attachShadow_available = true →
   truthy (read p "isSVG" (sigs w)) = false) →
  dom w !! marker st = Some mn →
  ∃ cm w1 c cn,
    Portal_effect p st w
    = (Portal_ref p (VNode c);;
       register (OnCleanup (RemoveContainer (VNode t) (VNode c)));;
       mret (rendered_portal st cm)) w1
    ∧ dom w1 !! c = Some cn
    ∧ host_marker cn = Some (marker st)
    ∧ host_of w1 c = parentNode mn
    ∧ ∀ w2 cn2,
        dom w2 !! c = Some cn2 → host_marker cn2 = Some (marker st) →
        (∀ x w3, appendChild (VNode x) (VNode (marker st)) w2 = Returned tt w3 →
                 host_of w3 c = Some x)
        ∧ (∀ x w3, removeChild (VNode x) (VNode (marker st)) w2 = Returned tt w3 →
                   host_of w3 c = None).
Proof.
  intros F O Et Tn Hd Pn SS M.
  destruct (Portal_effect_branch p st w O) as (cm & w0 & EP & D & Sg & NR & C & Br).
  assert (fresh_refs w0) as F0.
  { intros r L. rewrite D. apply F. lia. }
  assert (dom w0 !! t = Some tn) as Tn0 by (rewrite D; exact Tn).
  pose proof (Portal_container_spec p st cm t tn w0 F0 Tn0 Pn) as PC.
  cbv zeta in PC. rewrite Sg in PC. specialize (PC SS).
  set (c := next_ref w0) in *.
  set (svg := truthy (read p "isSVG" (sigs w))) in *.
  set (shadow := truthy (useShadow st) && attachShadow_available) in *.
  assert (marker st < next_ref w)%nat as Lm.
  { destruct (decide (marker st < next_ref w)%nat) as [L|L]; [exact L|].
    rewrite F in M by lia. discriminate. }
  match type of PC with _ = _ ?w1 => exists cm, w1, c end.
  exists (container_node svg shadow c t (marker st)).
  split.
  { rewrite (Br false).
    2:{ unfold instanceof_HTMLHeadElement. rewrite Et, Tn, Hd. reflexivity. }
    rewrite Et, bind_run, PC, !bind_run.
    destruct (Portal_ref p (VNode c) _); reflexivity. }
  cbn [dom with_call with_next_ref with_dom].
  split; [apply lookup_insert_eq|]. split; [reflexivity|].
  split.
  - unfold host_of. cbn [dom with_call with_next_ref with_dom].
    rewrite lookup_insert_eq. cbn [mbind option_bind host_marker container_node].
    rewrite lookup_insert_ne by (unfold c; lia).
    destruct (decide (marker st = t)) as [Em|Nm].
    + rewrite Em, lookup_insert_eq. cbn [mbind option_bind parentNode with_childNodes].
      rewrite Em, Tn in M. injection M as <-. reflexivity.
    + rewrite lookup_insert_ne by congruence.
      assert ((if shadow then <[S c:=new_node (ShadowRoot c) VUndefined]> (dom w0) else dom w0)
                !! marker st = Some mn) as ->.
      { destruct shadow; [rewrite lookup_insert_ne by (unfold c; lia)|]; rewrite D; exact M. }
      reflexivity.
  - intros w2 cn2 C2 Hm. split; intros x w3 E.
    + apply appendChild_parent in E as [A Pa].
      rewrite (host_of_marker w3 c (marker st)); [exact Pa|].
      rewrite A, C2. cbn. rewrite Hm. reflexivity.
    + apply removeChild_parent in E as [A Pa].
      rewrite (host_of_marker w3 c (marker st)); [exact Pa|].
      rewrite A, C2. cbn. rewrite Hm. reflexivity.
Qed.

(** X10.  A truthy [props.ref] is called once, with the container, after the
    container was appended to the target and before the cleanup is
    registered: when the call returns, the run returns and the cleanup is
    registered in the state the call left; when it throws, the run throws and
    no cleanup is registered.  A truthy [ref] that is not a function makes
    the run throw a TypeError at that point. *)
Theorem Portal_ref_receives_container
    (p : props) (st : portal) (w : world) (t : nat) (tn : node) :
  fresh_refs w →
  (hydrating st = true → is_Some (owner w)) →
  mount_target p w = VNode t → dom w !! t = Some tn →
  is_HTMLHeadElement tn = false → is_ParentNode tn = true →
  let svg := truthy (read p "isSVG" (sigs w)) in
  let shadow := truthy (useShadow st) && attachShadow_available in
  (shadow = true → svg = false) →
  truthy (read p "ref" (sigs w)) = true →
  ∃ cm w1 c,
    (next_ref w ≤ c)%nat
    ∧ dom w1 !! c = Some (container_node svg shadow c t (marker st))
    ∧ dom w1 !! t = Some (with_childNodes (λ l, (l ++ [c])%list) tn)
    ∧ Portal_effect p st w
      = match call_value (read p "ref" (sigs w)) [ArgValue (VNode c)] w1 with
        | Returned _ w2 =>
            Returned (rendered_portal st cm)
              (with_call (OnCleanup (RemoveContainer (VNode t) (VNode c))) w2)
        | Thrown e w2 => Thrown e w2
        end
    ∧ (typeof (read p "ref" (sigs w)) ≠ "function" →
       Portal_effect p st w = Thrown TypeError w1).
Proof.
  intros F O Et Tn Hd Pn svg shadow SS R.
  destruct (Portal_effect_branch p st w O) as (cm & w0 & EP & D & Sg & NR & C & Br).
  assert (fresh_refs w0) as F0.
  { intros r L. rewrite D. apply F. lia. }
  assert (dom w0 !! t = Some tn) as Tn0 by (rewrite D; exact Tn).
  pose proof (Portal_container_spec p st cm t tn w0 F0 Tn0 Pn) as PC.
  cbv zeta in PC. rewrite Sg in PC. specialize (PC SS).
  fold svg shadow in PC. set (c := next_ref w0) in *.
  assert (t ≠ c) as Ntc.
  { intros ->. rewrite F0 in Tn0; [discriminate|]. unfold c. lia. }
  match type of PC with _ = _ ?w1 => exists cm, w1, c end.
  split; [exact NR|].
  cbn [dom with_call with_next_ref with_dom].
  split; [apply lookup_insert_eq|].
  split; [rewrite lookup_insert_ne by congruence; apply lookup_insert_eq|].
  assert (Portal_effect p st w
          = (Portal_container p st cm (VNode t);; mret (rendered_portal st cm)) w0) as EC.
  { rewrite (Br false); [rewrite Et; reflexivity|].
    unfold instanceof_HTMLHeadElement. rewrite Et, Tn, Hd. reflexivity. }
  match goal with |- ?L = ?R ∧ _ => assert (L = R) as EQ end.
  { rewrite EC, bind_run, PC, bind_run. unfold Portal_ref.
    rewrite bind_run. unfold reads at 1, gets at 1.
    cbn [sigs with_call with_next_ref with_dom]. rewrite Sg, R.
    rewrite bind_run. unfold reads at 1, gets at 1.
    cbn [sigs with_call with_next_ref with_dom]. rewrite Sg.
    rewrite bind_run. destruct (call_value _ _ _); reflexivity. }
  split; [exact EQ|].
  intros NF. rewrite EQ. destruct (read p "ref" (sigs w)); try reflexivity.
  exfalso. apply NF. reflexivity.
Qed.

(** X11.  Unless [isSVG] is set together with a shadow root, a run whose
    mount target is a string, a number or a boolean (a selector string
    instead of a node, say) throws a TypeError, and a run whose target is a
    node that cannot have children a HierarchyRequestError; in both cases
    the container has been created and the children have been inserted into
    it, ahead of the failing [appendChild]: the container is left without a
    parent and no cleanup is registered. *)
Theorem Portal_effect_refused_target (p : props) (st : portal) (w : world) :
  fresh_refs w →
  (hydrating st = true → is_Some (owner w)) →
  let shadow := truthy (useShadow st) && attachShadow_available in
  (shadow = true → truthy (read p "isSVG" (sigs w)) = false) →
  ∃ cm w0 w1,
    Portal_prologue st w = Returned cm w0
    ∧ (let c := next_ref w0 in
       (∃ cn, dom w1 !! c = Some cn ∧ parentNode cn = None
              ∧ host_marker cn = Some (marker st))
       ∧ calls w1 = (calls w0 ++ [Insert (VNode (if shadow then S c else c))
                                    (ContentMemo cm) VUndefined None])%list)
    ∧ (typeof (mount_target p w) = "string" ∨ typeof (mount_target p w) = "number"
       ∨ typeof (mount_target p w) = "boolean" →
       Portal_effect p st w = Thrown TypeError w1)
    ∧ (∀ t tn,
         mount_target p w = VNode t → dom w !! t = Some tn → is_ParentNode tn = false →
         Portal_effect p st w = Thrown HierarchyRequestError w1).
Proof.
  intros F O shadow SS.
  destruct (Portal_effect_branch p st w O) as (cm & w0 & EP & D & Sg & NR & C & Br).
  pose proof (Portal_container_created p st cm (mount_target p w) w0) as PC.
  cbv zeta in PC. rewrite Sg in PC. specialize (PC SS). fold shadow in PC.
  set (c := next_ref w0) in *.
  match type of PC with _ = _ ?w1 => exists cm, w0, w1 end.
  split; [exact EP|].
  cbn [dom calls with_call with_next_ref with_dom].
  split; [split; [|reflexivity]|split].
  - eexists. split; [apply lookup_insert_eq|]. split; reflexivity.
  - intros N. rewrite (Br false).
    2:{ unfold instanceof_HTMLHeadElement. destruct (mount_target p w); try reflexivity.
        destruct N as [N|[N|N]]; discriminate. }
    rewrite bind_run, PC. unfold appendChild. rewrite !bind_run.
    unfold node_of at 1. destruct (mount_target p w); try reflexivity.
    destruct N as [N|[N|N]]; discriminate.
  - intros t tn Et Tn Pn.
    assert (t < next_ref w)%nat as Lt.
    { destruct (decide (t < next_ref w)%nat) as [L|L]; [exact L|].
      rewrite F in Tn by lia. discriminate. }
    rewrite (Br false).
    2:{ unfold instanceof_HTMLHeadElement. rewrite Et, Tn.
        unfold is_HTMLHeadElement. unfold is_ParentNode in Pn.
        destruct (kind tn); try discriminate. reflexivity. }
    rewrite bind_run, PC, Et, bind_run.
    rewrite (appendChild_refused _ t c tn
               (with_parentNode None
                  (container_node (truthy (read p "isSVG" (sigs w))) shadow c c (marker st)))).
    + reflexivity.
    + cbn [dom with_call with_next_ref with_dom].
      rewrite lookup_insert_ne by (unfold c; lia).
      destruct shadow; [rewrite lookup_insert_ne by (unfold c; lia)|]; rewrite D; exact Tn.
    + cbn [dom with_call with_next_ref with_dom]. apply lookup_insert_eq.
    + exact Pn.
Qed.

(** X12.  For a head element as mount target, [isSVG], [useShadow] and
    [ref] are ignored: a run with other props that agree on [mount] and
    [children], and with another captured [useShadow], leaves the same
    state, the accessor it inserts into the head yields the same children,
    and the only cleanup it registers is the one that sets the signal; it
    registers no removal, and [ref] is not called. *)
Theorem Portal_head_ignores_container_props
    (p p' : props) (st : portal) (u : value) (w : world) (t : nat) (tn : node) :
  (hydrating st = true → is_Some (owner w)) →
  mount_target p w = VNode t → dom w !! t = Some tn → is_HTMLHeadElement tn = true →
  (∀ k s, k ∈ ["mount"; "children"] → read p' k s = read p k s) →
  let st_u := {| useShadow := u; marker := marker st; portal_owner := portal_owner st;
                 content := content st; hydrating := hydrating st |} in
  ∃ cm w1 clean root,
    Portal_effect p st w = Returned (rendered_portal st cm) w1
    ∧ Portal_effect p' st_u w = Returned (rendered_portal st_u cm) w1
    ∧ last (calls w1) = Some (OnCleanup (SetClean clean))
    ∧ Insert (VNode t) (HeadChildren clean cm root) VNull (Some root) ∈ calls w1
    ∧ (∀ w2, run_thunk p' (HeadChildren clean cm root) w2
             = run_thunk p (HeadChildren clean cm root) w2)
    ∧ (∀ c, OnCleanup c ∈ calls w1 → OnCleanup c ∈ calls w ∨ c = SetClean clean).
Proof.
  intros O Et Tn Hd Em st_u.
  destruct (Portal_effect_branch p st w O) as (cm & w0 & EP & D & Sg & NR & C & Br).
  destruct (Portal_effect_branch p' st_u w O) as (cm' & w0' & EP' & _ & _ & _ & _ & Br').
  change (Portal_prologue st_u w) with (Portal_prologue st w) in EP'.
  rewrite EP in EP'. injection EP' as <- <-.
  assert (mount_target p' w = mount_target p w) as Emt.
  { unfold mount_target. rewrite Em by set_solver. reflexivity. }
  assert (instanceof_HTMLHeadElement (VNode t) w = Returned true w) as EI.
  { unfold instanceof_HTMLHeadElement. rewrite Tn, Hd. reflexivity. }
  eexists cm, _, (next_ref w0), (S (next_ref w0)). split; [|split].
  - rewrite (Br true) by (rewrite Et; exact EI).
    rewrite bind_run, Portal_head_spec. reflexivity.
  - rewrite (Br' true) by (rewrite Emt, Et; exact EI).
    rewrite bind_run, Portal_head_spec, Emt. reflexivity.
  - cbn [calls with_call with_next_ref with_sigs]. rewrite Et.
    split; [apply last_snoc|]. split; [set_solver|]. split.
    + intros w2. unfold run_thunk. apply bind_ext. intros c w3.
      destruct (negb (truthy c)); [|reflexivity].
      apply reads_ext. intros s. apply Em. set_solver.
    + intros c I. rewrite C in I. rewrite !elem_of_app in I.
      rewrite !list_elem_of_singleton in I.
      destruct I as [[[[I|I]|I]|I]|I]; try discriminate.
      * left. exact I.
      * destruct (content st); [apply elem_of_nil in I; contradiction|].
        apply list_elem_of_singleton in I. discriminate.
      * right. congruence.
Qed.

(** X13.  With [isSVG] and [useShadow] both set, on a platform with
    [attachShadow], a run for a target that is no head element throws a
    NotSupportedError: the [g] element has been created and is left detached,
    no other node has changed, nothing is inserted and no cleanup is
    registered. *)
Theorem Portal_effect_svg_shadow_unsupported (p : props) (st : portal) (w : world) :
  (hydrating st = true → is_Some (owner w)) →
  instanceof_HTMLHeadElement (mount_target p w) w = Returned false w →
  truthy (read p "isSVG" (sigs w)) = true →
  truthy (useShadow st) && attachShadow_available = true →
  ∃ w1 c,
    Portal_effect p st w = Thrown NotSupportedError w1
    ∧ (next_ref w ≤ c)%nat
    ∧ dom w1 !! c = Some (new_node (Element SVG_NAMESPACE "g") VUndefined)
    ∧ (∀ r, r ≠ c → dom w1 !! r = dom w !! r)
    ∧ calls w1 = (calls w ++ match content st with
                              | Some _ => []
                              | None => [CreateMemo (next_ref w) (portal_owner st)]
                              end)%list.
Proof.
  intros O I V S.
  destruct (Portal_effect_branch p st w O) as (cm & w0 & EP & D & Sg & NR & C & Br).
  eexists _, (next_ref w0). split.
  { rewrite (Br false I), bind_run, Portal_container_svg_shadow; [reflexivity| |exact S].
    rewrite Sg. exact V. }
  cbn [dom calls with_next_ref with_dom].
  split; [exact NR|]. split; [apply lookup_insert_eq|].
  split; [|exact C].
  intros r N. rewrite lookup_insert_ne by congruence. rewrite D. reflexivity.
Qed.

(** X15.  Every run of the effect for a target that is no head element
    creates a container of its own.  When a run has mounted into a target
    that can have children, its cleanup has run and the reactive state has
    changed, the next run, for a target that again is no head element and
    can have children, appends a new container to that target and reuses the
    memo of the children, creating none; the container of the first run
    stays without a parent.  Both runs are without [ref] and without [isSVG]
    set together with a shadow root. *)
Theorem Portal_remount_creates_new_container
    (p : props) (st : portal) (w : world) (t : nat) (tn : node) :
  fresh_refs w →
  (hydrating st = true → is_Some (owner w)) →
  mount_target p w = VNode t → dom w !! t = Some tn →
  is_HTMLHeadElement tn = false → is_ParentNode tn = true →
  (truthy (useShadow st) && attachShadow_available = true →
   truthy (read p "isSVG" (sigs w)) = false) →
  truthy (read p "ref" (sigs w)) = false →
  ∃ st1 w1 c w2 cm,
    Portal_effect p st w = Returned st1 w1
    ∧ content st1 = Some cm
    ∧ last (calls w1) = Some (OnCleanup (RemoveContainer (VNode t) (VNode c)))
    ∧ run_thunk p (RemoveContainer (VNode t) (VNode c)) w1 = Returned (VNode c) w2
    ∧ ∀ (update : signals → signals) (t2 : nat) (tn2 : node),
        let w2' := with_sigs update w2 in
        mount_target p w2' = VNode t2 → dom w2' !! t2 = Some tn2 →
        is_HTMLHeadElement tn2 = false → is_ParentNode tn2 = true →
        (truthy (useShadow st) && attachShadow_available = true →
         truthy (read p "isSVG" (sigs w2')) = false) →
        truthy (read p "ref" (sigs w2')) = false →
        ∃ st2 w3 c2 cn2 tn3,
          Portal_effect p st1 w2' = Returned st2 w3
          ∧ content st2 = Some cm
          ∧ (c < c2)%nat
          ∧ dom w3 !! c2 = Some cn2 ∧ parentNode cn2 = Some t2
          ∧ dom w3 !! t2 = Some tn3 ∧ last (childNodes tn3) = Some c2
          ∧ (parentNode <$> dom w3 !! c) = Some None
          ∧ (∀ m o, CreateMemo m o ∈ calls w3 → CreateMemo m o ∈ calls w1).
Proof.
  intros F O Et Tn Hd Pn SS R.
  destruct (Portal_effect_mounted p st w t tn F O Et Tn Hd Pn SS R)
    as (cm & w0 & EP & D & NR & E).
  cbv zeta in E.
  set (c := next_ref w0) in *.
  set (svg := truthy (read p "isSVG" (sigs w))) in *.
  set (shadow := truthy (useShadow st) && attachShadow_available) in *.
  assert (t < next_ref w)%nat as Lt.
  { destruct (decide (t < next_ref w)%nat) as [L|L]; [exact L|].
    rewrite F in Tn by lia. discriminate. }
  eexists _, _, c, _, cm. split; [exact E|]. split; [reflexivity|].
  split; [cbn [calls with_call]; apply last_snoc|].
  split.
  { unfold run_thunk. rewrite bind_run.
    rewrite (removeChild_spec _ t c (with_childNodes (λ l, (l ++ [c])%list) tn)
               (container_node svg shadow c t (marker st))).
    - reflexivity.
    - cbn [dom with_call with_next_ref with_dom].
      rewrite lookup_insert_ne by (unfold c; lia). apply lookup_insert_eq.
    - cbn [dom with_call with_next_ref with_dom]. apply lookup_insert_eq.
    - reflexivity. }
  intros update t2 tn2 w2' Et2 Tn2 Hd2 Pn2 SS2 R2.
  assert (fresh_refs w2') as F2.
  { intros r L. unfold w2' in *. cbn [dom next_ref with_sigs with_call with_next_ref with_dom] in *.
    assert (c < r)%nat as Lc by (destruct shadow; lia).
    rewrite !lookup_insert_ne by (unfold c in *; lia).
    destruct shadow; [rewrite lookup_insert_ne by lia|]; apply F; unfold c in *; lia. }
  destruct (Portal_effect_mounted p (rendered_portal st cm) w2' t2 tn2 F2
              (λ X : false = true, False_ind _ (Bool.diff_false_true X))
              Et2 Tn2 Hd2 Pn2 SS2 R2)
    as (cm2 & w02 & EP2 & D2 & NR2 & E2).
  cbv zeta in E2.
  assert (cm2 = cm ∧ w02 = w2') as [-> ->].
  { unfold Portal_prologue in EP2. cbn [hydrating content rendered_portal] in EP2.
    rewrite bind_run in EP2. cbv [mret M_ret] in EP2. injection EP2 as <- <-. auto. }
  assert (c < next_ref w2')%nat as Lc2.
  { unfold w2'. cbn [next_ref with_sigs with_call with_next_ref with_dom]. destruct shadow; lia. }
  assert (t2 < next_ref w2')%nat as Lt2.
  { destruct (decide (t2 < next_ref w2')%nat) as [L|L]; [exact L|].
    rewrite F2 in Tn2 by lia. discriminate. }
  eexists _, _, (next_ref w2'), _, _. split; [exact E2|].
  split; [reflexivity|].
  cbn [dom calls with_call with_next_ref with_dom].
  split; [exact Lc2|].
  split; [apply lookup_insert_eq|]. split; [reflexivity|].
  split; [rewrite lookup_insert_ne by lia; apply lookup_insert_eq|].
  split; [cbn [childNodes with_childNodes]; apply last_snoc|].
  assert (∀ d : gmap nat node,
            (if truthy (useShadow (rendered_portal st cm)) && attachShadow_available
             then <[S (next_ref w2') := new_node (ShadowRoot (next_ref w2')) VUndefined]> d
             else d) !! c = d !! c) as Sh.
  { intros d. destruct (_ && _); [rewrite lookup_insert_ne by lia|]; reflexivity. }
  split.
  { rewrite lookup_insert_ne by lia.
    destruct (decide (c = t2)) as [Ec|Nc].
    - rewrite <- Ec, lookup_insert_eq. cbn.
      rewrite <- Ec in Tn2. unfold w2' in Tn2.
      cbn [dom with_sigs with_call with_next_ref with_dom] in Tn2.
      rewrite lookup_insert_eq in Tn2. injection Tn2 as <-. reflexivity.
    - rewrite lookup_insert_ne by congruence.
      rewrite Sh. unfold w2'. cbn [dom with_sigs with_call with_next_ref with_dom].
      rewrite lookup_insert_eq. reflexivity. }
  intros m o I. unfold w2' in I. cbn [calls with_sigs with_call] in I.
  rewrite !elem_of_app in I. rewrite !list_elem_of_singleton in I.
  destruct I as [[I|I]|I]; [exact I|discriminate|discriminate].
Qed.

End PortalFurther.

(** ** createElement, createDynamic and Dynamic *)

Section DynamicFurther.
Context `{H : Host}.

(** X17.  Outside hydration, a selector whose value is a string the
    document refuses as an element name makes [createDynamic] throw an
    InvalidCharacterError: the two memos are registered, no node is created,
    no props are spread and the listener is as it was; a later evaluation
    that yields such a name instead of the cached value throws as well and
    changes nothing. *)
Theorem createDynamic_refused_name
    (component : getter) (p : props) (w : world) (tag : string) :
  component (sigs w) = VStr tag →
  truthy (context w) = false →
  valid_element_name tag = false →
  (∃ w0,
     createDynamic component p w = Thrown InvalidCharacterError w0
     ∧ dom w0 = dom w ∧ listener w0 = listener w
     ∧ calls w0 = (calls w ++ [CreateMemo (next_ref w) (owner w);
                               CreateMemo (S (next_ref w)) (owner w)])%list)
  ∧ (∀ d, strict_equal (VStr tag) (cached d) = false →
          dynamic_update component p d w = Thrown InvalidCharacterError w).
Proof.
  intros E C V. split.
  - eexists. rewrite createDynamic_spec. cbv zeta. rewrite bind_run, E.
    rewrite dynamic_render_refused by assumption.
    split; [reflexivity|]. cbn [dom listener calls with_call with_next_ref with_memos].
    rewrite <- app_assoc. repeat split.
  - intros d N. rewrite dynamic_update_changed.
    + rewrite bind_run, E, dynamic_render_refused by assumption. reflexivity.
    + unfold memo_changed. rewrite E, N. reflexivity.
Qed.

(** X18.  [Dynamic] with a tag name as [component], outside hydration,
    creates one element, of the SVG namespace exactly when the tag is in
    [SVGElements], and otherwise of the HTML namespace with the [is] option
    [props.is] evaluates to; it is the output, no other node changes, and
    the props spread onto it are the received ones without [component]. *)
Theorem Dynamic_creates_element (p : props) (w : world) (tag : string) :
  read p "component" (sigs w) = VStr tag →
  truthy (context w) = false →
  valid_element_name tag = true →
  let others := (splitProps p ["component"]).2 in
  let svg := bool_decide (tag ∈ SVGElements) in
  let c := S (S (next_ref w)) in
  ∃ d w',
    Dynamic p w = Returned d w'
    ∧ rendered d = VNode c
    ∧ dom w' !! c
      = Some (if svg then new_node (Element SVG_NAMESPACE tag) VUndefined
              else new_node (Element HTML_NAMESPACE (to_lower tag)) (read p "is" (sigs w)))
    ∧ (∀ r, r ≠ c → dom w' !! r = dom w !! r)
    ∧ calls w' = (calls w ++ [CreateMemo (next_ref w) (owner w);
                              CreateMemo (S (next_ref w)) (owner w);
                              Spread (VNode c) others svg])%list
    ∧ find_getter others "component" = None
    ∧ (∀ k s, k ≠ "component" → read others k s = read p k s).
Proof.
  intros E C V others svg c.
  assert (Dynamic p w = createDynamic (read p "component") others w) as -> by reflexivity.
  rewrite createDynamic_spec. cbv zeta. rewrite bind_run, E.
  rewrite dynamic_render_created by assumption. cbv zeta.
  eexists _, _. split; [reflexivity|].
  cbn [rendered dom calls sigs next_ref with_call with_next_ref with_dom with_memos].
  fold svg c.
  split; [reflexivity|].
  split.
  { rewrite lookup_insert_eq. unfold read at 1, others.
    rewrite find_getter_others by discriminate. reflexivity. }
  split; [intros r N; apply lookup_insert_ne; congruence|].
  split; [rewrite <- !app_assoc; reflexivity|].
  split; [apply find_getter_component|].
  intros k s N. unfold read, others. rewrite find_getter_others by exact N. reflexivity.
Qed.

End DynamicFurther.

(** * The claims at concrete inputs *)

Section Examples.
#[local] Existing Instance integers.
#[local] Existing Instance demo_host.

(** ** hydrateDocument *)

Lemma hydrateDocument_reflects_props_witness :
  wrappedFn (mret (html sample_props)) demo_world
  = (forEach (reflections sample_props) perform;; mret (VStr "content")) demo_world.
Proof.
  refine (proj1 (hydrateDocument_reflects_props (mret (html sample_props))
                   demo_world demo_world _ sample_props eq_refl eq_refl eq_refl _)).
  apply (bool_decide_unpack (NoDup (map fst sample_props))). vm_compute. exact I.
Defined.

(** The operations the sample props are reflected by, and the attributes of
    the root after the wrapped producer ran. *)
Example sample_reflections :
  reflections sample_props
  = [SetAttribute "lang" "fr"; AssignClassName (VStr "dark");
     SetAttribute "data-loaded" ""; RemoveAttribute "hidden";
     SetAttribute "tabIndex" "3"].
Proof. vm_compute. reflexivity. Qed.

Example sample_attributes :
  let o := wrappedFn (mret (html sample_props)) demo_world in
  (result o, map (root_attribute o) ["lang"; "class"; "data-loaded"; "hidden"; "tabindex"; "data-test"])
  = (Some (VStr "content"), [Some "fr"; Some "dark"; Some ""; None; Some "3"; None]).
Proof. vm_compute. reflexivity. Qed.

(** C2 as stated fails: the props contain a [children] entry, the number 0
    in the first case and null, as in the tests, in the second, and the
    wrapped producer returns the wrapper, not that children value. *)
Lemma wrappedFn_children_counterexample :
  (lookup_property zero_child_props "children" = Some (num 0)
   ∧ result (wrappedFn (mret (html zero_child_props)) demo_world)
     = Some (html zero_child_props)
   ∧ html zero_child_props ≠ num 0)
  ∧ (lookup_property null_child_props "children" = Some VNull
     ∧ result (wrappedFn (mret (html null_child_props)) demo_world)
       = Some (html null_child_props)
     ∧ html null_child_props ≠ VNull).
Proof.
  split; (split; [reflexivity|]); (split; [vm_compute; reflexivity|discriminate]).
Qed.

Lemma wrappedFn_forwards_witness :
  wrappedFn (mret (html sample_props)) demo_world
  = (forEach (Object_keys (VObj sample_props)) (apply_attribute (VObj sample_props));;
     mret (VStr "content")) demo_world.
Proof.
  refine (proj1 (proj1 (wrappedFn_forwards (mret (html sample_props)) demo_world demo_world
                          (html sample_props) eq_refl)
                   _ sample_props (VStr "content") eq_refl eq_refl eq_refl eq_refl eq_refl)).
Defined.

(** C3 as stated fails: the value of [class] is null, and the class attribute
    the root had before the call is not the one it has after it. *)
Lemma nullish_attribute_counterexample :
  lookup_property aliased_props "class" = Some VNull
  ∧ getAttribute light_world (VNode 0) "class" = Some "light"
  ∧ root_attribute (wrappedFn (mret (html aliased_props)) light_world) "class"
    = Some "dark".
Proof. repeat split; vm_compute; reflexivity. Qed.

Lemma nullish_attribute_not_applied_witness :
  apply_attribute (VObj nullish_class_props) "className" light_world
  = Returned tt light_world
  ∧ root_attribute (wrappedFn (mret (html nullish_class_props)) light_world) "class"
    = Some "light"
  ∧ root_attribute (wrappedFn (mret (html nullish_class_props)) light_world) "lang"
    = Some "fr".
Proof.
  pose proof (nullish_attribute_not_applied nullish_class_props "className" VNull
                eq_refl eq_refl) as (_ & A & _ & F).
  split; [exact (A light_world)|]. split; [|vm_compute; reflexivity].
  unfold root_attribute.
  change "class" with (key_attribute "className").
  rewrite (F (mret (html nullish_class_props)) light_world light_world
             [("type", VStr "html"); ("props", VObj nullish_class_props)] 0%nat
             (with_attributes (insert "class" "light") html_node)).
  - vm_compute. reflexivity.
  - reflexivity.
  - reflexivity.
  - reflexivity.
  - apply (bool_decide_unpack _). vm_compute. exact I.
  - split; [reflexivity|]. split; [vm_compute; reflexivity|]. eexists. reflexivity.
  - apply (bool_decide_unpack _). vm_compute. exact I.
Defined.

Lemma wrappedFn_passes_through_witness :
  wrappedFn (mret (num 42)) demo_world = Returned (num 42) demo_world.
Proof.
  refine (proj1 (wrappedFn_passes_through (mret (num 42)) demo_world demo_world
                   (num 42) eq_refl _)).
  right. right. right. left. exists 42%Z. reflexivity.
Defined.

Lemma demo_host_returns_disposer : returns_disposer.
Proof.
  intros code el options w d w' E. exists 0%nat.
  unfold hydrateCore in E. simpl in E. unfold demo_hydrateCore in E.
  rewrite bind_run in E. destruct (code w); [|discriminate].
  injection E as <- _. split; [reflexivity|].
  intros w1. exists w1. reflexivity.
Qed.

Lemma hydrateDocument_delegates_witness :
  ∃ w0,
    enableHydration demo_world = Returned tt w0
    ∧ hydrationEnabled w0 = true
    ∧ hydrateDocument (mret (html sample_props)) VUndefined demo_world
      = hydrateCore (wrappedFn (mret (html sample_props))) (documentElement demo_world)
          VUndefined w0
    ∧ ∀ d w', hydrateDocument (mret (html sample_props)) VUndefined demo_world
              = Returned d w' →
        typeof d = "function"
        ∧ ∀ w1, ∃ w2, call_value d [] w1 = Returned VUndefined w2.
Proof.
  exact (hydrateDocument_delegates (mret (html sample_props)) VUndefined demo_world
           demo_host_returns_disposer).
Defined.

(** *** The tests of [hydrate-document.spec.tsx]

    Each test calls [hydrateDocument] on a component returning a mock object
    and looks at the attributes of [document.documentElement]. *)

Example test_applies_lang_attribute :
  root_attribute
    (hydrated (html [("lang", VStr "fr"); ("children", VNull)]) VUndefined
       (with_root_attribute "lang" "en" demo_world)) "lang"
  = Some "fr".
Proof. vm_compute. reflexivity. Qed.

Example test_applies_multiple_attributes :
  let o := hydrated (html [("lang", VStr "es"); ("dir", VStr "ltr");
                           ("data-theme", VStr "light"); ("children", VNull)])
             VUndefined demo_world in
  map (root_attribute o) ["lang"; "dir"; "data-theme"]
  = [Some "es"; Some "ltr"; Some "light"].
Proof. vm_compute. reflexivity. Qed.

Example test_applies_className_and_class :
  (root_attribute
     (hydrated (html [("className", VStr "dark-mode"); ("children", VNull)])
        VUndefined demo_world) "class",
   root_attribute
     (hydrated (html [("class", VStr "responsive"); ("children", VNull)])
        VUndefined demo_world) "class")
  = (Some "dark-mode", Some "responsive").
Proof. vm_compute. reflexivity. Qed.

Example test_handles_boolean_attributes :
  let o := hydrated (html [("data-loaded", VBool true); ("data-hidden", VBool false);
                           ("children", VNull)]) VUndefined demo_world in
  map (root_attribute o) ["data-loaded"; "data-hidden"] = [Some ""; None].
Proof. vm_compute. reflexivity. Qed.

Example test_handles_null_and_undefined_attributes :
  let o := hydrated (html [("data-test", VNull); ("data-undefined", VUndefined);
                           ("children", VNull)]) VUndefined
             (with_root_attribute "data-test" "value" demo_world) in
  (returned o, map (root_attribute o) ["data-test"; "data-undefined"])
  = (true, [Some "value"; None]).
Proof. vm_compute. reflexivity. Qed.

Example test_extracts_children :
  let o := hydrated (html [("lang", VStr "en");
                           ("children", VObj [("type", VStr "div"); ("props", VObj [])])])
             VUndefined demo_world in
  (returned o, root_attribute o "lang") = (true, Some "en").
Proof. vm_compute. reflexivity. Qed.

Example test_handles_other_results :
  map (λ v, returned (hydrated v VUndefined demo_world))
    [VObj [("type", VStr "div"); ("props", VObj [])]; VNull; VUndefined;
     VStr "text content"; num 42;
     VObj [("type", VStr "html"); ("props", VNull)]]
  = [true; true; true; true; true; true].
Proof. vm_compute. reflexivity. Qed.

Example test_accepts_options :
  map (λ options, result (hydrated VNull options demo_world))
    [VObj [("renderId", VStr "test-island")];
     VObj [("owner", VObj [])];
     VObj [("renderId", VStr "island"); ("owner", VObj [])]]
  = [Some (VFun 0); Some (VFun 0); Some (VFun 0)].
Proof. vm_compute. reflexivity. Qed.

Example test_does_not_apply_children_or_ref :
  let o := hydrated (html [("lang", VStr "test"); ("children", VStr "some children");
                           ("ref", VFun 2)]) VUndefined demo_world in
  map (root_attribute o) ["lang"; "children"; "ref"] = [Some "test"; None; None].
Proof. vm_compute. reflexivity. Qed.

Example test_returns_a_cleanup_function :
  match hydrated VNull VUndefined demo_world with
  | Returned cleanup w => (typeof cleanup, returned (call_value cleanup [] w))
  | Thrown _ _ => ("", false)
  end
  = ("function", true).
Proof. vm_compute. reflexivity. Qed.

(** A name the document refuses ends the traversal: [lang] is not reached. *)
Example refused_attribute_name :
  let o := wrappedFn (mret (html [("", VStr "x"); ("lang", VStr "fr")])) demo_world in
  (returned o, root_attribute o "lang") = (false, None).
Proof. vm_compute. reflexivity. Qed.

(** ** Portal *)

Lemma demo_world_fresh : fresh_refs demo_world.
Proof.
  intros r L. cbn [next_ref demo_world] in L.
  unfold demo_world, demo_document. cbn [dom].
  rewrite !lookup_insert_ne by lia. apply lookup_empty.
Qed.

(** With [isSVG] and [useShadow] no shadow root is the render root and no
    container is appended to the body: the run throws.  Nor is a container
    appended to a text node. *)
Lemma Portal_effect_mounts_counterexample :
  (read svg_props "isSVG" (sigs demo_world), useShadow shadow_portal,
   attachShadow_available, mount_target svg_props demo_world,
   thrown (Portal_effect svg_props shadow_portal demo_world),
   node_after (Portal_effect svg_props shadow_portal demo_world) 5,
   childNodes <$> node_after (Portal_effect svg_props shadow_portal demo_world) 2,
   calls (final_world (Portal_effect svg_props shadow_portal demo_world)))
  = (VBool true, VBool true, true, VNode 2,
     Some NotSupportedError, Some (new_node (Element SVG_NAMESPACE "g") VUndefined),
     Some [3%nat], [CreateMemo 4 (Some 0%nat)])
  ∧ (mount_target text_target_props text_world, kind <$> dom text_world !! 4%nat,
     thrown (Portal_effect text_target_props shadow_portal text_world),
     parentNode <$> node_after (Portal_effect text_target_props shadow_portal text_world) 6,
     childNodes <$> node_after (Portal_effect text_target_props shadow_portal text_world) 4)
    = (VNode 4, Some (Text "note"),
       Some HierarchyRequestError, Some None, Some []).
Proof. split; vm_compute; reflexivity. Qed.

Lemma Portal_effect_mounts_witness :
  mount_target shadow_props demo_world = body demo_world
  ∧ (∃ w1 cn tn1,
       Portal_effect shadow_props shadow_portal demo_world
       = (Portal_ref shadow_props (VNode 5);;
          register (OnCleanup (RemoveContainer (VNode 2) (VNode 5)));;
          mret (rendered_portal shadow_portal 4)) w1
       ∧ dom w1 !! 5%nat = Some cn
       ∧ kind cn = Element HTML_NAMESPACE "div"
       ∧ shadowRoot cn = Some 6%nat
       ∧ kind <$> dom w1 !! 6%nat = Some (ShadowRoot 5)
       ∧ parentNode cn = Some 2%nat
       ∧ dom w1 !! 2%nat = Some tn1 ∧ last (childNodes tn1) = Some 5%nat)
  ∧ (∃ clean root w',
       Portal_effect head_props shadow_portal demo_world
       = Returned (rendered_portal shadow_portal 4) w'
       ∧ calls w' = [CreateMemo 4 (Some 0%nat); CreateRoot root;
                     Insert (VNode 1) (HeadChildren clean 4 root) VNull (Some root);
                     OnCleanup (SetClean clean)]).
Proof.
  assert (∀ cm w0, Portal_prologue shadow_portal demo_world = Returned cm w0 →
                   cm = 4%nat ∧ next_ref w0 = 5%nat
                   ∧ calls w0 = [CreateMemo 4 (Some 0%nat)]) as Pr.
  { intros cm w0 E.
    destruct (Portal_prologue_returned _ _ _ _ E) as (_ & _ & N & _).
    destruct (N eq_refl) as (-> & N1 & N2).
    split; [reflexivity|]. split; [exact N1|exact N2]. }
  split; [|split].
  - destruct (Portal_effect_mounts shadow_props shadow_portal demo_world demo_world_fresh
                (λ _, ex_intro _ 0%nat eq_refl)) as (B & _).
    exact (B eq_refl).
  - destruct (Portal_effect_mounts shadow_props shadow_portal demo_world demo_world_fresh
                (λ _, ex_intro _ 0%nat eq_refl))
      as (_ & _ & cm & w0 & EP & _ & _ & _ & Ct).
    destruct (Pr _ _ EP) as (-> & N & _).
    destruct (Ct 2%nat body_node eq_refl eq_refl eq_refl) as (_ & _ & Ok).
    destruct (Ok (λ _, eq_refl) eq_refl)
      as (w1 & cn & tn1 & E & Cn & K & Sh & Sr & _ & Pa & Tn & La & _).
    rewrite N in *.
    exists w1, cn, tn1. repeat split; try assumption. exact (Sr eq_refl).
  - destruct (Portal_effect_mounts head_props shadow_portal demo_world demo_world_fresh
                (λ _, ex_intro _ 0%nat eq_refl))
      as (_ & _ & cm & w0 & EP & _ & _ & Hd & _).
    destruct (Pr _ _ EP) as (-> & _ & C).
    destruct (Hd 1%nat head_node eq_refl eq_refl eq_refl) as (clean & root & w' & E & Cs & _).
    rewrite C in Cs. exists clean, root, w'. split; [exact E|exact Cs].
Defined.

(** A portal with [useShadow] mounts a [div] under the body and renders into
    the shadow root of the [div]; its cleanup takes the [div] out of the body
    again. *)
Example shadow_portal_run :
  let o := Portal_effect shadow_props shadow_portal demo_world in
  (node_after o 5, childNodes <$> node_after o 2, kind <$> node_after o 6,
   calls (final_world o),
   childNodes <$> node_after
     (run_thunk shadow_props (RemoveContainer (VNode 2) (VNode 5)) (final_world o)) 2)
  = (Some (container_node false true 5 2 3), Some [3; 5]%nat, Some (ShadowRoot 5),
     [CreateMemo 4 (Some 0%nat);
      Insert (VNode 6) (ContentMemo 4) VUndefined None;
      OnCleanup (RemoveContainer (VNode 2) (VNode 5))],
     Some [3%nat]).
Proof. vm_compute. reflexivity. Qed.

(** A portal into the head inserts its children into the head itself; once
    its cleanup ran, the inserted accessor disposes the root and yields
    nothing. *)
Example head_portal_run :
  let o := Portal_effect head_props shadow_portal demo_world in
  let cleaned := final_world (run_thunk head_props (SetClean 5) (final_world o)) in
  (calls (final_world o),
   result (run_thunk head_props (HeadChildren 5 4 6) (final_world o)),
   result (run_thunk head_props (HeadChildren 5 4 6) cleaned),
   bool_decide (6%nat ∈ disposed (final_world (run_thunk head_props (HeadChildren 5 4 6) cleaned))))
  = ([CreateMemo 4 (Some 0%nat); CreateRoot 6;
      Insert (VNode 1) (HeadChildren 5 4 6) VNull (Some 6%nat);
      OnCleanup (SetClean 5)],
     Some (VStr "title"), Some VUndefined, true).
Proof. vm_compute. reflexivity. Qed.

(** [useShadow] is true when [Portal] is called and false when the effect
    runs: the container still gets its shadow root. *)
Example useShadow_read_once :
  match Portal shadow_props (with_sigs (insert 0%nat (VBool true)) demo_world) with
  | Returned (_, st) w =>
      let later := with_sigs (insert 0%nat (VBool false)) w in
      (read shadow_props "useShadow" (sigs later),
       shadowRoot <$> node_after (Portal_effect shadow_props st later) 6)
  | Thrown _ _ => (VUndefined, None)
  end
  = (VBool false, Some (Some 7%nat)).
Proof. vm_compute. reflexivity. Qed.

(** With [isSVG] and [useShadow] the run throws: the document attaches no
    shadow root to the [g]. *)
Example svg_shadow_portal_throws :
  match Portal_effect [("isSVG", λ _, VBool true)] shadow_portal demo_world with
  | Returned _ _ => None
  | Thrown e w => Some (e, childNodes <$> dom w !! 2%nat)
  end
  = Some (NotSupportedError, Some [3%nat]).
Proof. vm_compute. reflexivity. Qed.

(** ** createDynamic and Dynamic *)

Lemma createDynamic_undefined_witness :
  dynamic_render VUndefined dynamic_props demo_world = Returned VUndefined demo_world.
Proof.
  refine (proj1 (createDynamic_undefined (λ _, VUndefined) dynamic_props demo_world _ _));
    discriminate.
Defined.

(** [Dynamic] with the component "g" creates an element of the SVG
    namespace and spreads the other props onto it; when the component
    becomes "input" the output is a new element of the HTML namespace; when
    it stays what it was nothing is created. *)
Example Dynamic_creates :
  match Dynamic dynamic_props (with_sigs (insert 0%nat (VStr "g")) demo_world) with
  | Returned d w =>
      let same := dynamic_update (read dynamic_props "component")
                    (splitProps dynamic_props ["component"]).2 d w in
      let changed := dynamic_update (read dynamic_props "component")
                       (splitProps dynamic_props ["component"]).2 d
                       (with_sigs (insert 0%nat (VStr "input")) w) in
      (rendered d, kind <$> dom w !! 6%nat,
       match last (calls w) with
       | Some (Spread el p isSvg) => Some (el, map fst p, isSvg)
       | _ => None
       end,
       rendered <$> result same, next_ref (final_world same),
       rendered <$> result changed, kind <$> node_after changed 7)
  | Thrown _ _ => (VUndefined, None, None, None, 0%nat, None, None)
  end
  = (VNode 6, Some (Element SVG_NAMESPACE "g"), Some (VNode 6, ["value"], true),
     Some (VNode 6), 7%nat,
     Some (VNode 7), Some (Element HTML_NAMESPACE "input")).
Proof. vm_compute. reflexivity. Qed.

(** [Dynamic] hands the functions of its two memos to the runtime.  When
    the runtime brings the memos up to date and the component is still "g",
    nothing is computed and nothing is created; when the component has
    become "input", both memos change and the output is a new element of the
    HTML namespace. *)
Example Dynamic_memoizes :
  match Dynamic dynamic_props (with_sigs (insert 0%nat (VStr "g")) demo_world) with
  | Returned d w =>
      let same := update_memos [cached_memo d; memo d] (memo_values d, ∅) w in
      let changed := update_memos [cached_memo d; memo d] (memo_values d, ∅)
                       (with_sigs (insert 0%nat (VStr "input")) w) in
      (cached_memo d, memo d, map fst (map_to_list (memos w)),
       (λ st, (st.1 !! 4%nat, st.1 !! 5%nat, elements st.2)) <$> result same,
       next_ref (final_world same), length (calls (final_world same)) - length (calls w),
       (λ st, (st.1 !! 4%nat, st.1 !! 5%nat, elements st.2)) <$> result changed,
       kind <$> node_after changed 7)
  | Thrown _ _ => (0, 0, [], None, 0, 0, None, None)%nat
  end
  = (4, 5, [4; 5],
     Some (Some (VStr "g"), Some (VNode 6), []), 7, 0,
     Some (Some (VStr "input"), Some (VNode 7), [4; 5]),
     Some (Element HTML_NAMESPACE "input"))%nat.
Proof. vm_compute. reflexivity. Qed.

(** The memos [createDynamic] leaves with the runtime are those the
    runtime brings up to date. *)
Lemma createDynamic_renders_witness :
  memos (final_world (createDynamic (λ s, default VUndefined (s !! 0%nat)) dynamic_props
                        (with_sigs (insert 0%nat (VStr "g")) demo_world))) !! 4%nat
  = Some (Selector (λ s, default VUndefined (s !! 0%nat)))
  ∧ update_memos [4; 5]%nat
      (memo_values {| cached_memo := 4; cached := VStr "g"; memo := 5; rendered := VNode 6 |}, ∅)
      (final_world (createDynamic (λ s, default VUndefined (s !! 0%nat)) dynamic_props
                      (with_sigs (insert 0%nat (VStr "g")) demo_world)))
    = Returned
        (memo_values {| cached_memo := 4; cached := VStr "g"; memo := 5; rendered := VNode 6 |}, ∅)
        (final_world (createDynamic (λ s, default VUndefined (s !! 0%nat)) dynamic_props
                        (with_sigs (insert 0%nat (VStr "g")) demo_world))).
Proof.
  set (w1 := final_world (createDynamic (λ s, default VUndefined (s !! 0%nat)) dynamic_props
                            (with_sigs (insert 0%nat (VStr "g")) demo_world))).
  set (d := {| cached_memo := 4; cached := VStr "g"; memo := 5; rendered := VNode 6 |}).
  assert (memos w1 !! cached_memo d = Some (Selector (λ s, default VUndefined (s !! 0%nat))))
    as Ms by (vm_compute; reflexivity).
  assert (memos w1 !! memo d = Some (Output (cached_memo d) dynamic_props))
    as Mo by (vm_compute; reflexivity).
  assert (strict_equal (default VUndefined (sigs w1 !! 0%nat)) (cached d) = true)
    as Eq by (vm_compute; reflexivity).
  split; [exact Ms|].
  exact (proj1 (proj1 (proj2 (createDynamic_renders (λ s, default VUndefined (s !! 0%nat))
                                dynamic_props)) d w1 Ms Mo) Eq).
Defined.

(** A component function is called with the props without [component]. *)
Example Dynamic_calls_component :
  rendered <$> result (Dynamic dynamic_props (with_sigs (insert 0%nat (VFun 1)) demo_world))
  = Some (VStr "rendered").
Proof. vm_compute. reflexivity. Qed.

(** ** hydrateDocument, further *)

Lemma demo_html_root : html_root demo_world 0 html_node.
Proof. split; [reflexivity|]. split; [reflexivity|]. exists "html". reflexivity. Qed.

Lemma wrappedFn_throws_only_witness :
  (mret (html refused_props) : M value) demo_world
  = Thrown InvalidCharacterError (with_root_attribute "lang" "fr" demo_world)
  ∨ (InvalidCharacterError = InvalidCharacterError
     ∧ ∃ result w1 key,
         (mret (html refused_props) : M value) demo_world = Returned result w1
         ∧ carries_html_type result
         ∧ key ∈ Object_keys (get result "props")
         ∧ (key ∉ ["children"; "ref"; "class"; "className"])
         ∧ valid_attribute_name key = false
         ∧ not_nullish (get (get result "props") key) = true
         ∧ get (get result "props") key ≠ VBool false).
Proof.
  refine (wrappedFn_throws_only (mret (html refused_props)) demo_world
            (with_root_attribute "lang" "fr" demo_world) InvalidCharacterError 0 _ _).
  - intros result w1 [= <- <-]. exists html_node. exact demo_html_root.
  - vm_compute. reflexivity.
Defined.

Lemma wrappedFn_stops_at_refused_name_witness :
  wrappedFn (mret (html refused_props)) demo_world
  = Thrown InvalidCharacterError
      (with_root_attributes 0 html_node
         (foldl apply_operation (attributes html_node) [SetAttribute "lang" "fr"]) demo_world).
Proof.
  refine (proj1 (wrappedFn_stops_at_refused_name (mret (html refused_props))
                   demo_world demo_world _ refused_props 0 html_node
                   [SetAttribute "lang" "fr"] [SetAttribute "dir" "ltr"] (SetAttribute "" "x")
                   eq_refl eq_refl eq_refl _ demo_html_root eq_refl eq_refl eq_refl)).
  apply (bool_decide_unpack (NoDup (map fst refused_props))). vm_compute. exact I.
Defined.

Lemma wrappedFn_writes_root_attributes_only_witness :
  let w2 := final_world (wrappedFn (mret (html sample_props)) demo_world) in
  dom w2 !! 2%nat = dom demo_world !! 2%nat.
Proof.
  refine (proj1 (proj2 (wrappedFn_writes_root_attributes_only (mret (html sample_props))
                          demo_world demo_world _ 0 html_node eq_refl demo_html_root))
            2%nat _).
  discriminate.
Defined.

Lemma wrappedFn_idempotent_witness :
  let w2 := final_world (wrappedFn (mret (html sample_props)) demo_world) in
  wrappedFn (mret (html sample_props)) w2 = Returned (VStr "content") w2.
Proof.
  refine (wrappedFn_idempotent (mret (html sample_props)) demo_world demo_world _ _
            sample_props 0 html_node (VStr "content") eq_refl eq_refl eq_refl _
            demo_html_root _ eq_refl).
  - apply (bool_decide_unpack (NoDup (map fst sample_props))). vm_compute. exact I.
  - vm_compute. reflexivity.
Defined.

Lemma class_value_is_stringified_witness :
  ∃ w',
    apply_attribute (VObj [("class", VBool false)]) "class" light_world = Returned tt w'
    ∧ getAttribute w' (VNode 0) "class" = Some "false".
Proof.
  destruct (class_value_is_stringified (VObj [("class", VBool false)]) "class" light_world 0
              (with_attributes (insert "class" "light") html_node))
    as (w' & E & _ & F & _).
  - split; [reflexivity|]. split; [vm_compute; reflexivity|]. exists "html". reflexivity.
  - left. reflexivity.
  - reflexivity.
  - exists w'. split; [exact E|]. apply F. reflexivity.
Defined.

(** ** Portal, further *)

Lemma Portal_effect_creates_memo_once_witness :
  Portal_prologue (rendered_portal shadow_portal 4) demo_world = Returned 4%nat demo_world.
Proof.
  destruct (Portal_effect_creates_memo_once shadow_props shadow_portal
              (rendered_portal shadow_portal 4)
              demo_world (final_world (Portal_effect shadow_props shadow_portal demo_world)))
    as (cm & C & _ & _ & _ & _ & P).
  - vm_compute. reflexivity.
  - injection C as <-. exact (P demo_world).
Defined.

Lemma Portal_cleanup_detaches_container_witness :
  ∃ st' w1 c,
    Portal_effect shadow_props shadow_portal demo_world = Returned st' w1
    ∧ last (calls w1) = Some (OnCleanup (RemoveContainer (VNode 2) (VNode c)))
    ∧ (next_ref demo_world ≤ c)%nat
    ∧ (∃ tn1 cn1, dom w1 !! 2%nat = Some tn1 ∧ last (childNodes tn1) = Some c
                  ∧ dom w1 !! c = Some cn1 ∧ parentNode cn1 = Some 2%nat)
    ∧ ∃ w2 tn2 cn2,
        run_thunk shadow_props (RemoveContainer (VNode 2) (VNode c)) w1 = Returned (VNode c) w2
        ∧ dom w2 !! 2%nat = Some tn2 ∧ (c ∉ childNodes tn2)
        ∧ dom w2 !! c = Some cn2 ∧ parentNode cn2 = None
        ∧ run_thunk shadow_props (RemoveContainer (VNode 2) (VNode c)) w2
          = Thrown NotFoundError w2.
Proof.
  exact (Portal_cleanup_detaches_container shadow_props shadow_portal demo_world 2 body_node
           demo_world_fresh (λ _, ex_intro _ 0%nat eq_refl) eq_refl eq_refl eq_refl eq_refl
           (λ _, eq_refl) eq_refl).
Defined.

Lemma Portal_container_host_is_marker_parent_witness :
  ∃ cm w1 c cn,
    Portal_effect shadow_props shadow_portal demo_world
    = (Portal_ref shadow_props (VNode c);;
       register (OnCleanup (RemoveContainer (VNode 2) (VNode c)));;
       mret (rendered_portal shadow_portal cm)) w1
    ∧ dom w1 !! c = Some cn
    ∧ host_marker cn = Some 3%nat
    ∧ host_of w1 c = Some 2%nat
    ∧ ∀ w2 cn2,
        dom w2 !! c = Some cn2 → host_marker cn2 = Some 3%nat →
        (∀ x w3, appendChild (VNode x) (VNode 3) w2 = Returned tt w3 → host_of w3 c = Some x)
        ∧ (∀ x w3, removeChild (VNode x) (VNode 3) w2 = Returned tt w3 → host_of w3 c = None).
Proof.
  exact (Portal_container_host_is_marker_parent shadow_props shadow_portal demo_world 2
           body_node div_node
           demo_world_fresh (λ _, ex_intro _ 0%nat eq_refl) eq_refl eq_refl eq_refl eq_refl
           (λ _, eq_refl) eq_refl).
Defined.

(** The container of a portal follows its marker: the marker is the [div]
    of the body, and once it is moved into the head the container reports
    the head. *)
Example host_follows_marker :
  let w1 := final_world (Portal_effect shadow_props shadow_portal demo_world) in
  (host_of w1 5,
   host_of (final_world (appendChild (VNode 1) (VNode 3) w1)) 5,
   host_of (final_world (removeChild (VNode 2) (VNode 3) w1)) 5)
  = (Some 2%nat, Some 1%nat, None).
Proof. vm_compute. reflexivity. Qed.

Lemma Portal_effect_refused_target_witness :
  ∃ cm w0 w1 cn,
    Portal_prologue shadow_portal demo_world = Returned cm w0
    ∧ dom w1 !! next_ref w0 = Some cn ∧ parentNode cn = None
    ∧ Portal_effect selector_props shadow_portal demo_world = Thrown TypeError w1.
Proof.
  destruct (Portal_effect_refused_target selector_props shadow_portal demo_world
              demo_world_fresh (λ _, ex_intro _ 0%nat eq_refl) (λ _, eq_refl))
    as (cm & w0 & w1 & EP & ((cn & Cn & Pa & _) & _) & T & _).
  exists cm, w0, w1, cn. split; [exact EP|]. split; [exact Cn|]. split; [exact Pa|].
  apply T. left. reflexivity.
Defined.

Lemma Portal_head_ignores_container_props_witness :
  ∃ cm w1 clean root,
    Portal_effect head_props shadow_portal demo_world
    = Returned (rendered_portal shadow_portal cm) w1
    ∧ Portal_effect head_ref_props
        {| useShadow := VBool false; marker := 3; portal_owner := Some 0%nat;
           content := None; hydrating := false |} demo_world
      = Returned {| useShadow := VBool false; marker := 3; portal_owner := Some 0%nat;
                    content := Some cm; hydrating := false |} w1
    ∧ last (calls w1) = Some (OnCleanup (SetClean clean))
    ∧ Insert (VNode 1) (HeadChildren clean cm root) VNull (Some root) ∈ calls w1.
Proof.
  destruct (Portal_head_ignores_container_props head_props head_ref_props shadow_portal
              (VBool false) demo_world 1 head_node
              (λ _, ex_intro _ 0%nat eq_refl) eq_refl eq_refl eq_refl)
    as (cm & w1 & clean & root & E1 & E2 & L & I & _).
  - intros k s K. apply elem_of_cons in K as [->|K]; [reflexivity|].
    apply list_elem_of_singleton in K as ->. reflexivity.
  - exists cm, w1, clean, root. auto.
Defined.

Lemma Portal_effect_svg_shadow_unsupported_witness :
  ∃ w1 c,
    Portal_effect svg_props shadow_portal demo_world = Thrown NotSupportedError w1
    ∧ (next_ref demo_world ≤ c)%nat
    ∧ dom w1 !! c = Some (new_node (Element SVG_NAMESPACE "g") VUndefined)
    ∧ (∀ r, r ≠ c → dom w1 !! r = dom demo_world !! r)
    ∧ calls w1 = [CreateMemo 4 (Some 0%nat)].
Proof.
  exact (Portal_effect_svg_shadow_unsupported svg_props shadow_portal demo_world
           (λ _, ex_intro _ 0%nat eq_refl) eq_refl eq_refl eq_refl).
Defined.

Lemma Portal_ref_receives_container_witness :
  ∃ cm w1 c,
    (next_ref demo_world ≤ c)%nat
    ∧ dom w1 !! c = Some (container_node false true c 2 3)
    ∧ dom w1 !! 2%nat = Some (with_childNodes (λ l, (l ++ [c])%list) body_node)
    ∧ Portal_effect ref_props shadow_portal demo_world
      = match call_value (VFun 2) [ArgValue (VNode c)] w1 with
        | Returned _ w2 =>
            Returned (rendered_portal shadow_portal cm)
              (with_call (OnCleanup (RemoveContainer (VNode 2) (VNode c))) w2)
        | Thrown e w2 => Thrown e w2
        end
    ∧ (typeof (VFun 2 : value) ≠ "function" →
       Portal_effect ref_props shadow_portal demo_world = Thrown TypeError w1).
Proof.
  exact (Portal_ref_receives_container ref_props shadow_portal demo_world 2 body_node
           demo_world_fresh (λ _, ex_intro _ 0%nat eq_refl) eq_refl eq_refl eq_refl eq_refl
           (λ _, eq_refl) eq_refl).
Defined.

Lemma Portal_remount_creates_new_container_witness :
  ∃ st1 w1 c w2 st2 w3 c2 tn3,
    Portal_effect moving_props shadow_portal demo_world = Returned st1 w1
    ∧ run_thunk moving_props (RemoveContainer (VNode 2) (VNode c)) w1 = Returned (VNode c) w2
    ∧ Portal_effect moving_props st1 (with_sigs (λ _, {[1%nat := VNode 3]}) w2)
      = Returned st2 w3
    ∧ content st2 = content st1
    ∧ (c < c2)%nat
    ∧ dom w3 !! 3%nat = Some tn3 ∧ last (childNodes tn3) = Some c2
    ∧ (parentNode <$> dom w3 !! c) = Some None.
Proof.
  destruct (Portal_remount_creates_new_container moving_props shadow_portal demo_world 2
              body_node demo_world_fresh (λ _, ex_intro _ 0%nat eq_refl)
              eq_refl eq_refl eq_refl eq_refl (λ _, eq_refl) eq_refl)
    as (st1 & w1 & c & w2 & cm & E1 & C1 & La & E2 & Next).
  assert (w1 = final_world (Portal_effect moving_props shadow_portal demo_world)) as Ew1
    by (rewrite E1; reflexivity).
  assert (c = 5%nat) as Ec.
  { rewrite Ew1 in La. vm_compute in La. congruence. }
  assert (dom w2 !! 3%nat = Some div_node) as D3.
  { assert (w2 = final_world (run_thunk moving_props (RemoveContainer (VNode 2) (VNode c)) w1))
      as -> by (rewrite E2; reflexivity).
    rewrite Ec, Ew1. vm_compute. reflexivity. }
  destruct (Next (λ _, {[1%nat := VNode 3]}) 3%nat div_node)
    as (st2 & w3 & c2 & cn2 & tn3 & E3 & C2 & L & _ & _ & T & La3 & Pa & _);
    [reflexivity|exact D3|reflexivity|reflexivity|intros _; reflexivity|reflexivity|].
  exists st1, w1, c, w2, st2, w3, c2, tn3.
  split; [exact E1|]. split; [exact E2|]. split; [exact E3|].
  split; [rewrite C1, C2; reflexivity|]. auto.
Defined.

(** ** createDynamic and Dynamic, further *)

Lemma createDynamic_refused_name_witness :
  ∃ w0,
    createDynamic (λ _, VStr "") dynamic_props demo_world = Thrown InvalidCharacterError w0
    ∧ dom w0 = dom demo_world ∧ listener w0 = listener demo_world
    ∧ calls w0 = [CreateMemo 4 (Some 0%nat); CreateMemo 5 (Some 0%nat)].
Proof.
  exact (proj1 (createDynamic_refused_name (λ _, VStr "") dynamic_props demo_world ""
                  eq_refl eq_refl eq_refl)).
Defined.

Lemma Dynamic_creates_element_witness :
  let w := with_sigs (insert 0%nat (VStr "INPUT")) demo_world in
  ∃ d w',
    Dynamic dynamic_props w = Returned d w'
    ∧ rendered d = VNode 6
    ∧ dom w' !! 6%nat = Some (new_node (Element HTML_NAMESPACE "input") VUndefined).
Proof.
  intros w.
  assert (valid_element_name "INPUT" = true) as V by (vm_compute; reflexivity).
  destruct (Dynamic_creates_element dynamic_props w "INPUT" eq_refl eq_refl V)
    as (d & w' & E & R & D & _).
  exists d, w'. split; [exact E|]. split; [exact R|]. exact D.
Defined.

End Examples.
